(** * UFS host controller platform glue: drivers/scsi/ufs/ufshcd-pltfrm.c

    A shallow embedding of the device-tree parsers, of the probe routine
    [ufshcd_pltfrm_init] and of the power-management entry points, followed
    by the properties of the driver that the specification states and by
    further properties of the code.

    Conventions of the embedding:
    - C [int], [u32] and [size_t] values are integers of [Z]; where the C
      code does arithmetic that can leave the type ([2 * cnt], the implicit
      conversion of an [int] to [size_t]) the wrap-around is written out;
    - a function of the kernel that is called but not defined in the file
      (the OF property accessors, the devm getters, the controller core) is
      an oracle: a field of the record that stands for the object it reads;
    - a failing kernel call reports an error number [e] and the C code sees
      the status [-e] (or [ERR_PTR(-e)]);
    - the mutable kernel state (allocator, call log, driver data, DMA mask)
      is threaded through a state monad. *)

From Stdlib Require Import ZArith List String Ascii Bool Lia.
From Stdlib.Strings Require Byte.
Import ListNotations.

Local Open Scope string_scope.
Local Open Scope Z_scope.

Set Implicit Arguments.

(** ** Constants of the headers *)

Definition errno := positive.

(** Constants that the file takes from headers outside it
    ([uapi/asm-generic/errno-base.h], [ufs.h]).  They are parameters of the
    development: every theorem below holds for any value of them. *)
Class kernel_headers := {
  EINVAL : errno;
  ENOMEM : errno;
  ENODEV : errno;
  UFS_VREG_LPM_LOAD_UA : Z;
  UFS_VREG_VCC_MIN_UV : Z;
  UFS_VREG_VCC_MAX_UV : Z;
  UFS_VREG_VCC_1P8_MIN_UV : Z;
  UFS_VREG_VCC_1P8_MAX_UV : Z;
  UFS_VREG_VCCQ_MIN_UV : Z;
  UFS_VREG_VCCQ_MAX_UV : Z;
  UFS_VREG_VCCQ2_MIN_UV : Z;
  UFS_VREG_VCCQ2_MAX_UV : Z;
  REF_CLK_FREQ_26_MHZ : Z;
  REF_CLK_FREQ_52_MHZ : Z
}.

(** #define UFSHCD_DEFAULT_LANES_PER_DIRECTION 2 *)
Definition UFSHCD_DEFAULT_LANES_PER_DIRECTION : Z := 2.

(** #define MAX_PROP_SIZE 32 *)
Definition MAX_PROP_SIZE : nat := 32.

(** ** Machine integers *)

(** The value an [int] holds after a computation whose mathematical result
    is [z] (two's complement, 32 bits). *)
Definition int_wrap (z : Z) : Z :=
  (z + 2 ^ 31) mod 2 ^ 32 - 2 ^ 31.

(** Conversion of a signed value to [size_t] (64 bits, unsigned). *)
Definition size_t_of_int (z : Z) : Z := z mod 2 ^ 64.

Definition INT_MAX : Z := 2 ^ 31 - 1.

(** ** Results of kernel calls *)

(** A call that returns [0] and fills its out-parameter, or returns [-e]. *)
Inductive kresult (A : Type) : Type :=
| k_ok (v : A)
| k_err (e : errno).

Arguments k_ok {A} v.
Arguments k_err {A} e.

(** The [int] the C code receives. *)
Definition k_status {A} (r : kresult A) : Z :=
  match r with
  | k_ok _ => 0
  | k_err e => Z.neg e
  end.

(** A call that returns a pointer: [NULL], a valid handle, or [ERR_PTR(-e)]. *)
Inductive kptr (A : Type) : Type :=
| kNULL
| kptr_to (a : A)
| ERR_PTR (e : errno).

Arguments kNULL {A}.
Arguments kptr_to {A} a.
Arguments ERR_PTR {A} e.

Definition IS_ERR {A} (p : kptr A) : bool :=
  match p with
  | ERR_PTR _ => true
  | _ => false
  end.

(** [PTR_ERR] is the pointer read as a [long]; the file applies it to error
    pointers only, elsewhere the model gives [0]. *)
Definition PTR_ERR {A} (p : kptr A) : Z :=
  match p with
  | ERR_PTR e => Z.neg e
  | _ => 0
  end.

(** The handle a pointer field holds: [None] is [NULL]. *)
Definition handle_of {A} (p : kptr A) : option A :=
  match p with
  | kptr_to a => Some a
  | _ => None
  end.

(** ** The hardware description *)

(** The value of a property: its bytes.  [length] of the list is the
    [int] that [of_get_property] stores through its [lenp] argument. *)
Definition property := list Byte.byte.

(** A device-tree node, seen through the accessors the file calls on it. *)
Record device_node := {
  of_property_count_strings : string -> Z;
  of_get_property : string -> option property;
  of_property_read_u32_array : string -> Z -> kresult (list Z);
  of_property_read_string_index : string -> Z -> kresult string;
  of_parse_phandle : string -> Z -> bool;
  of_property_read_bool : string -> bool;
  of_property_read_u32 : string -> kresult Z
}.

Definition reset_control := nat.
Definition pinctrl := nat.
Definition extcon_dev := nat.
Definition resource := nat.
Definition iomem := nat.

(** [struct device], with the getters that take it as their argument. *)
Record device := {
  of_node : option device_node;
  (** what [of_property_read_u32] answers on a [NULL] node *)
  of_null_node_errno : errno;
  devm_ioremap_resource : option resource -> kptr iomem;
  devm_reset_control_get : string -> kptr reset_control;
  devm_pinctrl_get : kptr pinctrl;
  extcon_get_edev_by_phandle : Z -> kptr extcon_dev;
  device_property_read_bool : string -> bool
}.

(** ** The adapter *)

(** struct ufs_clk_info: the fields the file writes.  [clk_name] is the
    result of [kstrdup], [None] when it returned [NULL]. *)
Record ufs_clk_info := {
  clk_name : option string;
  min_freq : Z;
  max_freq : Z
}.

(** struct ufs_vreg *)
Record ufs_vreg := {
  vreg_name : option string;
  min_uV : Z;
  max_uV : Z;
  min_uA : Z;
  max_uA : Z;
  low_voltage_sup : bool
}.

(** A [struct ufs_vreg] as [devm_kzalloc] hands it out. *)
Definition vreg_zero : ufs_vreg :=
  {| vreg_name := None; min_uV := 0; max_uV := 0; min_uA := 0; max_uA := 0;
     low_voltage_sup := false |}.

(** struct ufs_vreg_info *)
Record ufs_vreg_info := {
  vdd_hba : option ufs_vreg;
  vcc : option ufs_vreg;
  vccq : option ufs_vreg;
  vccq2 : option ufs_vreg
}.

Definition ufs_hba_variant := nat.

(** struct ufs_hba: the fields the file reads or writes. *)
Record ufs_hba := {
  dev : device;
  var : option ufs_hba_variant;
  clk_list_head : list ufs_clk_info;
  vreg_info : ufs_vreg_info;
  core_reset : option reset_control;
  pctrl : option pinctrl;
  extcon : option extcon_dev;
  rpm_lvl : Z;
  spm_lvl : Z;
  limit_tx_hs_gear : Z;
  limit_rx_hs_gear : Z;
  limit_tx_pwm_gear : Z;
  limit_rx_pwm_gear : Z;
  scsi_cmd_timeout : Z;
  force_g4 : bool;
  dev_ref_clk_freq : Z;
  lanes_per_direction : Z
}.

(** Assignments to one field of the adapter. *)
Definition set_var (h : ufs_hba) (v : option ufs_hba_variant) : ufs_hba :=
  Build_ufs_hba (dev h) v (clk_list_head h) (vreg_info h) (core_reset h)
    (pctrl h) (extcon h) (rpm_lvl h) (spm_lvl h) (limit_tx_hs_gear h)
    (limit_rx_hs_gear h) (limit_tx_pwm_gear h) (limit_rx_pwm_gear h)
    (scsi_cmd_timeout h) (force_g4 h) (dev_ref_clk_freq h)
    (lanes_per_direction h).

Definition set_clk_list_head (h : ufs_hba) (v : list ufs_clk_info) : ufs_hba :=
  Build_ufs_hba (dev h) (var h) v (vreg_info h) (core_reset h) (pctrl h)
    (extcon h) (rpm_lvl h) (spm_lvl h) (limit_tx_hs_gear h)
    (limit_rx_hs_gear h) (limit_tx_pwm_gear h) (limit_rx_pwm_gear h)
    (scsi_cmd_timeout h) (force_g4 h) (dev_ref_clk_freq h)
    (lanes_per_direction h).

Definition set_vreg_info (h : ufs_hba) (v : ufs_vreg_info) : ufs_hba :=
  Build_ufs_hba (dev h) (var h) (clk_list_head h) v (core_reset h)
    (pctrl h) (extcon h) (rpm_lvl h) (spm_lvl h) (limit_tx_hs_gear h)
    (limit_rx_hs_gear h) (limit_tx_pwm_gear h) (limit_rx_pwm_gear h)
    (scsi_cmd_timeout h) (force_g4 h) (dev_ref_clk_freq h)
    (lanes_per_direction h).

Definition set_core_reset (h : ufs_hba) (v : option reset_control) : ufs_hba :=
  Build_ufs_hba (dev h) (var h) (clk_list_head h) (vreg_info h) v (pctrl h)
    (extcon h) (rpm_lvl h) (spm_lvl h) (limit_tx_hs_gear h)
    (limit_rx_hs_gear h) (limit_tx_pwm_gear h) (limit_rx_pwm_gear h)
    (scsi_cmd_timeout h) (force_g4 h) (dev_ref_clk_freq h)
    (lanes_per_direction h).

Definition set_pctrl (h : ufs_hba) (v : option pinctrl) : ufs_hba :=
  Build_ufs_hba (dev h) (var h) (clk_list_head h) (vreg_info h)
    (core_reset h) v (extcon h) (rpm_lvl h) (spm_lvl h)
    (limit_tx_hs_gear h) (limit_rx_hs_gear h) (limit_tx_pwm_gear h)
    (limit_rx_pwm_gear h) (scsi_cmd_timeout h) (force_g4 h)
    (dev_ref_clk_freq h) (lanes_per_direction h).

Definition set_extcon (h : ufs_hba) (v : option extcon_dev) : ufs_hba :=
  Build_ufs_hba (dev h) (var h) (clk_list_head h) (vreg_info h)
    (core_reset h) (pctrl h) v (rpm_lvl h) (spm_lvl h) (limit_tx_hs_gear h)
    (limit_rx_hs_gear h) (limit_tx_pwm_gear h) (limit_rx_pwm_gear h)
    (scsi_cmd_timeout h) (force_g4 h) (dev_ref_clk_freq h)
    (lanes_per_direction h).

Definition set_rpm_lvl (h : ufs_hba) (v : Z) : ufs_hba :=
  Build_ufs_hba (dev h) (var h) (clk_list_head h) (vreg_info h)
    (core_reset h) (pctrl h) (extcon h) v (spm_lvl h) (limit_tx_hs_gear h)
    (limit_rx_hs_gear h) (limit_tx_pwm_gear h) (limit_rx_pwm_gear h)
    (scsi_cmd_timeout h) (force_g4 h) (dev_ref_clk_freq h)
    (lanes_per_direction h).

Definition set_spm_lvl (h : ufs_hba) (v : Z) : ufs_hba :=
  Build_ufs_hba (dev h) (var h) (clk_list_head h) (vreg_info h)
    (core_reset h) (pctrl h) (extcon h) (rpm_lvl h) v (limit_tx_hs_gear h)
    (limit_rx_hs_gear h) (limit_tx_pwm_gear h) (limit_rx_pwm_gear h)
    (scsi_cmd_timeout h) (force_g4 h) (dev_ref_clk_freq h)
    (lanes_per_direction h).

Definition set_limit_tx_hs_gear (h : ufs_hba) (v : Z) : ufs_hba :=
  Build_ufs_hba (dev h) (var h) (clk_list_head h) (vreg_info h)
    (core_reset h) (pctrl h) (extcon h) (rpm_lvl h) (spm_lvl h) v
    (limit_rx_hs_gear h) (limit_tx_pwm_gear h) (limit_rx_pwm_gear h)
    (scsi_cmd_timeout h) (force_g4 h) (dev_ref_clk_freq h)
    (lanes_per_direction h).

Definition set_limit_rx_hs_gear (h : ufs_hba) (v : Z) : ufs_hba :=
  Build_ufs_hba (dev h) (var h) (clk_list_head h) (vreg_info h)
    (core_reset h) (pctrl h) (extcon h) (rpm_lvl h) (spm_lvl h)
    (limit_tx_hs_gear h) v (limit_tx_pwm_gear h) (limit_rx_pwm_gear h)
    (scsi_cmd_timeout h) (force_g4 h) (dev_ref_clk_freq h)
    (lanes_per_direction h).

Definition set_limit_tx_pwm_gear (h : ufs_hba) (v : Z) : ufs_hba :=
  Build_ufs_hba (dev h) (var h) (clk_list_head h) (vreg_info h)
    (core_reset h) (pctrl h) (extcon h) (rpm_lvl h) (spm_lvl h)
    (limit_tx_hs_gear h) (limit_rx_hs_gear h) v (limit_rx_pwm_gear h)
    (scsi_cmd_timeout h) (force_g4 h) (dev_ref_clk_freq h)
    (lanes_per_direction h).

Definition set_limit_rx_pwm_gear (h : ufs_hba) (v : Z) : ufs_hba :=
  Build_ufs_hba (dev h) (var h) (clk_list_head h) (vreg_info h)
    (core_reset h) (pctrl h) (extcon h) (rpm_lvl h) (spm_lvl h)
    (limit_tx_hs_gear h) (limit_rx_hs_gear h) (limit_tx_pwm_gear h) v
    (scsi_cmd_timeout h) (force_g4 h) (dev_ref_clk_freq h)
    (lanes_per_direction h).

Definition set_scsi_cmd_timeout (h : ufs_hba) (v : Z) : ufs_hba :=
  Build_ufs_hba (dev h) (var h) (clk_list_head h) (vreg_info h)
    (core_reset h) (pctrl h) (extcon h) (rpm_lvl h) (spm_lvl h)
    (limit_tx_hs_gear h) (limit_rx_hs_gear h) (limit_tx_pwm_gear h)
    (limit_rx_pwm_gear h) v (force_g4 h) (dev_ref_clk_freq h)
    (lanes_per_direction h).

Definition set_force_g4 (h : ufs_hba) (v : bool) : ufs_hba :=
  Build_ufs_hba (dev h) (var h) (clk_list_head h) (vreg_info h)
    (core_reset h) (pctrl h) (extcon h) (rpm_lvl h) (spm_lvl h)
    (limit_tx_hs_gear h) (limit_rx_hs_gear h) (limit_tx_pwm_gear h)
    (limit_rx_pwm_gear h) (scsi_cmd_timeout h) v (dev_ref_clk_freq h)
    (lanes_per_direction h).

Definition set_dev_ref_clk_freq (h : ufs_hba) (v : Z) : ufs_hba :=
  Build_ufs_hba (dev h) (var h) (clk_list_head h) (vreg_info h)
    (core_reset h) (pctrl h) (extcon h) (rpm_lvl h) (spm_lvl h)
    (limit_tx_hs_gear h) (limit_rx_hs_gear h) (limit_tx_pwm_gear h)
    (limit_rx_pwm_gear h) (scsi_cmd_timeout h) (force_g4 h) v
    (lanes_per_direction h).

Definition set_lanes_per_direction (h : ufs_hba) (v : Z) : ufs_hba :=
  Build_ufs_hba (dev h) (var h) (clk_list_head h) (vreg_info h)
    (core_reset h) (pctrl h) (extcon h) (rpm_lvl h) (spm_lvl h)
    (limit_tx_hs_gear h) (limit_rx_hs_gear h) (limit_tx_pwm_gear h)
    (limit_rx_pwm_gear h) (scsi_cmd_timeout h) (force_g4 h)
    (dev_ref_clk_freq h) v.

(** ** Kernel state *)

(** The functions [ufshcd_pltfrm_init] calls, in the order of the file. *)
Inductive callee :=
| c_devm_ioremap_resource
| c_platform_get_irq
| c_ufshcd_alloc_host
| c_ufshcd_parse_clock_info
| c_ufshcd_parse_regulator_info
| c_ufshcd_parse_reset_info
| c_ufshcd_parse_pinctrl_info
| c_ufshcd_parse_dev_ref_clk_freq
| c_ufshcd_parse_pm_levels
| c_ufshcd_parse_gear_limits
| c_ufshcd_parse_cmd_timeout
| c_ufshcd_parse_force_g4_flag
| c_ufshcd_parse_extcon_info
| c_ufshcd_init_lanes_per_dir
| c_ufshcd_init
| c_platform_set_drvdata
| c_pm_runtime_set_active
| c_pm_runtime_enable
| c_ufshcd_dealloc_host.

Definition callee_eqb (a b : callee) : bool :=
  match a, b with
  | c_devm_ioremap_resource, c_devm_ioremap_resource
  | c_platform_get_irq, c_platform_get_irq
  | c_ufshcd_alloc_host, c_ufshcd_alloc_host
  | c_ufshcd_parse_clock_info, c_ufshcd_parse_clock_info
  | c_ufshcd_parse_regulator_info, c_ufshcd_parse_regulator_info
  | c_ufshcd_parse_reset_info, c_ufshcd_parse_reset_info
  | c_ufshcd_parse_pinctrl_info, c_ufshcd_parse_pinctrl_info
  | c_ufshcd_parse_dev_ref_clk_freq, c_ufshcd_parse_dev_ref_clk_freq
  | c_ufshcd_parse_pm_levels, c_ufshcd_parse_pm_levels
  | c_ufshcd_parse_gear_limits, c_ufshcd_parse_gear_limits
  | c_ufshcd_parse_cmd_timeout, c_ufshcd_parse_cmd_timeout
  | c_ufshcd_parse_force_g4_flag, c_ufshcd_parse_force_g4_flag
  | c_ufshcd_parse_extcon_info, c_ufshcd_parse_extcon_info
  | c_ufshcd_init_lanes_per_dir, c_ufshcd_init_lanes_per_dir
  | c_ufshcd_init, c_ufshcd_init
  | c_platform_set_drvdata, c_platform_set_drvdata
  | c_pm_runtime_set_active, c_pm_runtime_set_active
  | c_pm_runtime_enable, c_pm_runtime_enable
  | c_ufshcd_dealloc_host, c_ufshcd_dealloc_host => true
  | _, _ => false
  end.

(** dev->dma_mask: [NULL], &dev->coherent_dma_mask, or a mask of the bus. *)
Inductive dma_mask_ptr :=
| dma_mask_null
| dma_mask_coherent
| dma_mask_bus.

(** A line of the kernel log: the level, the format string (without its
    final newline) and the arguments, unformatted. *)
Inductive loglevel := KERN_ERR | KERN_WARNING | KERN_INFO | KERN_DEBUG.

Inductive fmt_arg :=
| arg_s (s : string)
| arg_d (z : Z).

Record logline := {
  level : loglevel;
  fmt : string;
  args : list fmt_arg
}.

(** What the probe can change besides the adapter it builds:
    - the allocator: [kmalloc_ok n] is whether the allocation number [n]
      succeeds, [nr_allocs] counts the allocations made so far;
    - [dmesg]: the kernel log, oldest line first;
    - [calls]: the calls of the probe routine, oldest first, each with the
      status it returned ([0] for a [void] function);
    - [hosts]: the adapters that [ufshcd_alloc_host] handed out and that
      were not given back to [ufshcd_dealloc_host];
    - [driver_data]: what [platform_set_drvdata] stored in the device;
    - [dma_mask]: dev->dma_mask. *)
Record kernel := {
  kmalloc_ok : nat -> bool;
  nr_allocs : nat;
  dmesg : list logline;
  calls : list (callee * Z);
  hosts : nat;
  driver_data : option ufs_hba;
  dma_mask : dma_mask_ptr
}.

(** ** The monad of kernel code *)

Definition M (A : Type) : Type := kernel -> A * kernel.

Definition ret {A} (a : A) : M A := fun k => (a, k).

Definition bind {A B} (m : M A) (f : A -> M B) : M B :=
  fun k => let (a, k') := m k in f a k'.

Declare Scope kernel_scope.
Delimit Scope kernel_scope with kernel.
Notation "x <- m ;; f" := (bind m (fun x => f))
  (at level 61, m at next level, right associativity) : kernel_scope.
Notation "' p <- m ;; f" := (bind m (fun x => let 'p := x in f))
  (at level 61, p pattern, m at next level, right associativity)
  : kernel_scope.
Notation "m ;;; f" := (bind m (fun _ => f))
  (at level 61, right associativity) : kernel_scope.
Local Open Scope kernel_scope.

Definition get {A} (f : kernel -> A) : M A := fun k => (f k, k).

(** One allocation ([devm_kzalloc], [kstrdup]): whether it succeeded. *)
Definition kmalloc : M bool :=
  fun k => (kmalloc_ok k (nr_allocs k),
            Build_kernel (kmalloc_ok k) (S (nr_allocs k)) (dmesg k) (calls k)
              (hosts k) (driver_data k) (dma_mask k)).

(** kstrdup(s, GFP_KERNEL) *)
Definition kstrdup (s : string) : M (option string) :=
  ok <- kmalloc ;; ret (if ok then Some s else None).

Definition printk (l : loglevel) (f : string) (a : list fmt_arg) : M unit :=
  fun k => (tt,
            Build_kernel (kmalloc_ok k) (nr_allocs k)
              (dmesg k ++ [{| level := l; fmt := f; args := a |}]) (calls k)
              (hosts k) (driver_data k) (dma_mask k)).

Definition dev_err := printk KERN_ERR.
Definition dev_warn := printk KERN_WARNING.
Definition dev_info := printk KERN_INFO.
Definition dev_dbg := printk KERN_DEBUG.

(** Appends a call and its status to the log of calls. *)
Definition log_call (c : callee) (status : Z) : M unit :=
  fun k => (tt,
            Build_kernel (kmalloc_ok k) (nr_allocs k) (dmesg k)
              (calls k ++ [(c, status)]) (hosts k) (driver_data k)
              (dma_mask k)).

(** The adapter count, the driver data and the DMA mask. *)
Definition set_hosts (n : nat) : M unit :=
  fun k => (tt,
            Build_kernel (kmalloc_ok k) (nr_allocs k) (dmesg k) (calls k) n
              (driver_data k) (dma_mask k)).

Definition set_driver_data (d : option ufs_hba) : M unit :=
  fun k => (tt,
            Build_kernel (kmalloc_ok k) (nr_allocs k) (dmesg k) (calls k)
              (hosts k) d (dma_mask k)).

Definition set_dma_mask (m : dma_mask_ptr) : M unit :=
  fun k => (tt,
            Build_kernel (kmalloc_ok k) (nr_allocs k) (dmesg k) (calls k)
              (hosts k) (driver_data k) m).

Section Parsers.

Context {H : kernel_headers}.

(** ** ufshcd_parse_reset_info *)

Definition ufshcd_parse_reset_info (hba : ufs_hba) : M (Z * ufs_hba) :=
  let core_reset := devm_reset_control_get (dev hba) "core_reset" in
  if IS_ERR core_reset then
    let ret_ := PTR_ERR core_reset in
    dev_err "core_reset unavailable,err = %d" [arg_d ret_] ;;;
    ret (ret_, set_core_reset hba None)
  else
    ret (0, set_core_reset hba (handle_of core_reset)).

(** ** ufshcd_parse_clock_info *)

(** clkfreq[i], in the buffer of [sz] zeroed cells that
    [of_property_read_u32_array] filled with [vals]. *)
Definition clkfreq_at (vals : list Z) (i : Z) : Z :=
  nth (Z.to_nat i) vals 0.

(** What "%s" prints for a string that may be [NULL]. *)
Definition arg_name (n : option string) : fmt_arg :=
  match n with
  | Some s => arg_s s
  | None => arg_s "(null)"
  end.

(** The loop [for (i = 0; i < sz; i += 2)] from index [i] on; [fuel] bounds
    the iterations left, and [ret_] is the value of [ret] on entry. *)
Fixpoint clock_loop (np : device_node) (clkfreq : list Z) (sz : Z)
    (fuel : nat) (i : Z) (ret_ : Z) (hba : ufs_hba) : M (Z * ufs_hba) :=
  match fuel with
  | O => ret (ret_, hba)
  | S fuel' =>
    if i <? sz then
      match of_property_read_string_index np "clock-names" (i / 2) with
      | k_err e => ret (Z.neg e, hba)
      | k_ok name =>
        ok <- kmalloc ;;
        if negb ok then ret (Z.neg ENOMEM, hba)
        else
          nm <- kstrdup name ;;
          let clki := {| clk_name := nm;
                         min_freq := clkfreq_at clkfreq i;
                         max_freq := clkfreq_at clkfreq (i + 1) |} in
          dev_dbg "%s: min %u max %u name %s"
            [arg_s "freq-table-hz"; arg_d (min_freq clki);
             arg_d (max_freq clki); arg_name (clk_name clki)] ;;;
          clock_loop np clkfreq sz fuel' (i + 2) 0
            (set_clk_list_head hba (clk_list_head hba ++ [clki]))
      end
    else ret (ret_, hba)
  end.

(** The code after the test [cnt <= 0]. *)
Definition parse_freq_table (np : device_node) (cnt : Z) (ret_ : Z)
    (hba : ufs_hba) : M (Z * ufs_hba) :=
  match of_get_property np "freq-table-hz" with
  | None =>
    dev_info "freq-table-hz property not specified" [] ;;;
    ret (ret_, hba)
  | Some prop =>
    let len := Z.of_nat (List.length prop) in
    if len <=? 0 then ret (ret_, hba)
    else
      let sz := len / 4 in
      if negb (sz =? size_t_of_int (int_wrap (2 * cnt))) then
        dev_err "%s len mismatch" [arg_s "freq-table-hz"] ;;;
        ret (Z.neg EINVAL, hba)
      else
        ok <- kmalloc ;;
        if negb ok then ret (Z.neg ENOMEM, hba)
        else
          let r := of_property_read_u32_array np "freq-table-hz" sz in
          let ret_ := k_status r in
          if negb (ret_ =? 0) && negb (ret_ =? Z.neg EINVAL) then
            dev_err "%s: error reading array %d"
              [arg_s "freq-table-hz"; arg_d ret_] ;;;
            ret (ret_, hba)
          else
            let clkfreq :=
              match r with k_ok vals => vals | k_err _ => [] end in
            clock_loop np clkfreq sz (Z.to_nat sz) 0 ret_ hba
  end.

Definition ufshcd_parse_clock_info (hba : ufs_hba) : M (Z * ufs_hba) :=
  match of_node (dev hba) with
  | None => ret (0, hba)
  | Some np =>
    let cnt := of_property_count_strings np "clock-names" in
    ret_ <-
      (if (cnt =? 0) || (cnt =? Z.neg EINVAL) then
         dev_info "%s: Unable to find clocks, assuming enabled"
           [arg_s "ufshcd_parse_clock_info"] ;;;
         ret 0
       else if cnt <? 0 then
         dev_err "%s: count clock strings failed, err %d"
           [arg_s "ufshcd_parse_clock_info"; arg_d cnt] ;;;
         ret cnt
       else ret 0) ;;
    if cnt <=? 0 then ret (ret_, hba)
    else parse_freq_table np cnt ret_ hba
  end.

(** ** ufshcd_populate_vreg *)

(** snprintf(prop_name, MAX_PROP_SIZE, "%s<suffix>", name): the buffer
    keeps at most [MAX_PROP_SIZE - 1] characters. *)
Definition prop_name (name suffix : string) : string :=
  substring 0 (MAX_PROP_SIZE - 1) (name ++ suffix).

Definition byte_val (b : Byte.byte) : Z := Z.of_N (Byte.to_N b).

(** be32_to_cpup(&prop[idx]) *)
Definition be32_to_cpup (prop : property) (idx : nat) : Z :=
  let b k := byte_val (nth (4 * idx + k) prop Byte.x00) in
  Z.lor (Z.shiftl (b 0%nat) 24)
    (Z.lor (Z.shiftl (b 1%nat) 16) (Z.lor (Z.shiftl (b 2%nat) 8) (b 3%nat))).

Definition set_vreg_name (v : ufs_vreg) (n : option string) : ufs_vreg :=
  {| vreg_name := n; min_uV := min_uV v; max_uV := max_uV v;
     min_uA := min_uA v; max_uA := max_uA v;
     low_voltage_sup := low_voltage_sup v |}.

Definition set_uV (v : ufs_vreg) (lo hi : Z) : ufs_vreg :=
  {| vreg_name := vreg_name v; min_uV := lo; max_uV := hi;
     min_uA := min_uA v; max_uA := max_uA v;
     low_voltage_sup := low_voltage_sup v |}.

Definition set_min_uA (v : ufs_vreg) (a : Z) : ufs_vreg :=
  {| vreg_name := vreg_name v; min_uV := min_uV v; max_uV := max_uV v;
     min_uA := a; max_uA := max_uA v;
     low_voltage_sup := low_voltage_sup v |}.

Definition set_max_uA (v : ufs_vreg) (a : Z) : ufs_vreg :=
  {| vreg_name := vreg_name v; min_uV := min_uV v; max_uV := max_uV v;
     min_uA := min_uA v; max_uA := a;
     low_voltage_sup := low_voltage_sup v |}.

Definition set_low_voltage_sup (v : ufs_vreg) (b : bool) : ufs_vreg :=
  {| vreg_name := vreg_name v; min_uV := min_uV v; max_uV := max_uV v;
     min_uA := min_uA v; max_uA := max_uA v; low_voltage_sup := b |}.

(** The voltage range of a role that reads a "<role>-voltage-level"
    property ([fmt_] is the format of the warning of that role): the two
    cells of the property when its length is that of two cells, the default
    range of the role, with a warning, otherwise. *)
Definition voltage_level (np : device_node) (pname fmt_ : string)
    (def_min def_max : Z) (vreg : ufs_vreg) : M ufs_vreg :=
  match of_get_property np pname with
  | None =>
    dev_warn fmt_ [arg_s "no"] ;;;
    ret (set_uV vreg def_min def_max)
  | Some prop =>
    if negb (Z.of_nat (List.length prop) =? 2 * 4) then
      dev_warn fmt_ [arg_s "invalid format"] ;;;
      ret (set_uV vreg def_min def_max)
    else
      ret (set_uV vreg (be32_to_cpup prop 0) (be32_to_cpup prop 1))
  end.

(** The part of [ufshcd_populate_vreg] that chooses the voltage range by
    the name of the role. *)
Definition vreg_voltage (np : device_node) (name : string)
    (vreg : ufs_vreg) : M ufs_vreg :=
  if (name =? "vcc")%string then
    if of_property_read_bool np "vcc-supply-1p8" then
      ret (set_uV vreg UFS_VREG_VCC_1P8_MIN_UV UFS_VREG_VCC_1P8_MAX_UV)
    else
      vreg <- voltage_level np "vcc-voltage-level"
                "%s vcc-voltage-level property."
                UFS_VREG_VCC_MIN_UV UFS_VREG_VCC_MAX_UV vreg ;;
      if of_property_read_bool np "vcc-low-voltage-sup" then
        ret (set_low_voltage_sup vreg true)
      else ret vreg
  else if (name =? "vccq")%string then
    ret (set_uV vreg UFS_VREG_VCCQ_MIN_UV UFS_VREG_VCCQ_MAX_UV)
  else if (name =? "vccq2")%string then
    voltage_level np "vccq2-voltage-level"
      "%s vccq2-voltage-level property."
      UFS_VREG_VCCQ2_MIN_UV UFS_VREG_VCCQ2_MAX_UV vreg
  else ret vreg.

(** The result is the status and the value of [*out_vreg] on return:
    [None] is [NULL]; [out_vreg] is its value on entry. *)
Definition ufshcd_populate_vreg (dev : device) (name : string)
    (out_vreg : option ufs_vreg) : M (Z * option ufs_vreg) :=
  match of_node dev with
  | None =>
    dev_err "%s: non DT initialization" [arg_s "ufshcd_populate_vreg"] ;;;
    ret (0, None)
  | Some np =>
    if negb (of_parse_phandle np (prop_name name "-supply") 0) then
      dev_info "%s: Unable to find %s regulator, assuming enabled"
        [arg_s "ufshcd_populate_vreg"; arg_s (prop_name name "-supply")] ;;;
      ret (0, None)
    else
      ok <- kmalloc ;;
      if negb ok then ret (Z.neg ENOMEM, out_vreg)
      else
        nm <- kstrdup name ;;
        let vreg := set_vreg_name vreg_zero nm in
        if of_property_read_bool np (prop_name name "-fixed-regulator") then
          (* if fixed regulator no need further initialization *)
          ret (0, Some vreg)
        else
          match of_property_read_u32 np (prop_name name "-max-microamp") with
          | k_err e =>
            dev_err "%s: unable to find %s err %d"
              [arg_s "ufshcd_populate_vreg";
               arg_s (prop_name name "-max-microamp"); arg_d (Z.neg e)] ;;;
            ret (Z.neg e, out_vreg)
          | k_ok max_uA =>
            let vreg := set_max_uA vreg max_uA in
            let vreg :=
              match
                of_property_read_u32 np (prop_name name "-min-microamp")
              with
              | k_ok min_uA => set_min_uA vreg min_uA
              | k_err _ => set_min_uA vreg UFS_VREG_LPM_LOAD_UA
              end in
            vreg <- vreg_voltage np name vreg ;;
            ret (0, Some vreg)
          end
  end.

(** ** ufshcd_parse_regulator_info *)

Definition set_vdd_hba (i : ufs_vreg_info) (v : option ufs_vreg) :=
  {| vdd_hba := v; vcc := vcc i; vccq := vccq i; vccq2 := vccq2 i |}.

Definition set_vcc (i : ufs_vreg_info) (v : option ufs_vreg) :=
  {| vdd_hba := vdd_hba i; vcc := v; vccq := vccq i; vccq2 := vccq2 i |}.

Definition set_vccq (i : ufs_vreg_info) (v : option ufs_vreg) :=
  {| vdd_hba := vdd_hba i; vcc := vcc i; vccq := v; vccq2 := vccq2 i |}.

Definition set_vccq2 (i : ufs_vreg_info) (v : option ufs_vreg) :=
  {| vdd_hba := vdd_hba i; vcc := vcc i; vccq := vccq i; vccq2 := v |}.

Definition ufshcd_parse_regulator_info (hba : ufs_hba) : M (Z * ufs_hba) :=
  let dev := dev hba in
  let info := vreg_info hba in
  '(err, v) <- ufshcd_populate_vreg dev "vdd-hba" (vdd_hba info) ;;
  let info := set_vdd_hba info v in
  if negb (err =? 0) then ret (err, set_vreg_info hba info)
  else
    '(err, v) <- ufshcd_populate_vreg dev "vcc" (vcc info) ;;
    let info := set_vcc info v in
    if negb (err =? 0) then ret (err, set_vreg_info hba info)
    else
      '(err, v) <- ufshcd_populate_vreg dev "vccq" (vccq info) ;;
      let info := set_vccq info v in
      if negb (err =? 0) then ret (err, set_vreg_info hba info)
      else
        '(err, v) <- ufshcd_populate_vreg dev "vccq2" (vccq2 info) ;;
        let info := set_vccq2 info v in
        ret (err, set_vreg_info hba info).

(** ** The scalar parsers *)

(** The fields below are declared in [ufshcd.h]; the model stores the value
    the assignment is given ([-1] as written). *)
Definition ufshcd_parse_pm_levels (hba : ufs_hba) : ufs_hba :=
  match of_node (dev hba) with
  | None => hba
  | Some np =>
    let hba :=
      match of_property_read_u32 np "rpm-level" with
      | k_ok v => set_rpm_lvl hba v
      | k_err _ => set_rpm_lvl hba (-1)
      end in
    match of_property_read_u32 np "spm-level" with
    | k_ok v => set_spm_lvl hba v
    | k_err _ => set_spm_lvl hba (-1)
    end
  end.

Definition ufshcd_parse_pinctrl_info (hba : ufs_hba) : Z * ufs_hba :=
  (* Try to obtain pinctrl handle *)
  let pctrl := devm_pinctrl_get (dev hba) in
  if IS_ERR pctrl then (PTR_ERR pctrl, set_pctrl hba None)
  else (0, set_pctrl hba (handle_of pctrl)).

Definition ufshcd_parse_extcon_info (hba : ufs_hba) : Z * ufs_hba :=
  let extcon := extcon_get_edev_by_phandle (dev hba) 0 in
  if IS_ERR extcon && negb (PTR_ERR extcon =? Z.neg ENODEV) then
    (PTR_ERR extcon, hba)
  else if negb (IS_ERR extcon) then
    (0, set_extcon hba (handle_of extcon))
  else (0, hba).

Definition ufshcd_parse_gear_limits (hba : ufs_hba) : ufs_hba :=
  match of_node (dev hba) with
  | None => hba
  | Some np =>
    let hba :=
      match of_property_read_u32 np "limit-tx-hs-gear" with
      | k_ok v => set_limit_tx_hs_gear hba v
      | k_err _ => set_limit_tx_hs_gear hba (-1)
      end in
    let hba :=
      match of_property_read_u32 np "limit-rx-hs-gear" with
      | k_ok v => set_limit_rx_hs_gear hba v
      | k_err _ => set_limit_rx_hs_gear hba (-1)
      end in
    let hba :=
      match of_property_read_u32 np "limit-tx-pwm-gear" with
      | k_ok v => set_limit_tx_pwm_gear hba v
      | k_err _ => set_limit_tx_pwm_gear hba (-1)
      end in
    match of_property_read_u32 np "limit-rx-pwm-gear" with
    | k_ok v => set_limit_rx_pwm_gear hba v
    | k_err _ => set_limit_rx_pwm_gear hba (-1)
    end
  end.

Definition ufshcd_parse_cmd_timeout (hba : ufs_hba) : ufs_hba :=
  match of_node (dev hba) with
  | None => hba
  | Some np =>
    match of_property_read_u32 np "scsi-cmd-timeout" with
    | k_ok v => set_scsi_cmd_timeout hba v
    | k_err _ => set_scsi_cmd_timeout hba 0
    end
  end.

Definition ufshcd_parse_force_g4_flag (hba : ufs_hba) : ufs_hba :=
  if device_property_read_bool (dev hba) "force-g4" then
    set_force_g4 hba true
  else set_force_g4 hba false.

(** [of_property_read_u32] stores the value in the field before the range
    is tested; an error leaves the field as it was. *)
Definition ufshcd_parse_dev_ref_clk_freq (hba : ufs_hba) : ufs_hba :=
  match of_node (dev hba) with
  | None => hba
  | Some np =>
    let r := of_property_read_u32 np "dev-ref-clk-freq" in
    let hba :=
      match r with
      | k_ok v => set_dev_ref_clk_freq hba v
      | k_err _ => hba
      end in
    if negb (k_status r =? 0)
       || (dev_ref_clk_freq hba <? 0)
       || (dev_ref_clk_freq hba >? REF_CLK_FREQ_52_MHZ)
    then
      (* default setting *)
      set_dev_ref_clk_freq hba REF_CLK_FREQ_26_MHZ
    else hba
  end.

(** [of_property_read_u32] on dev->of_node, which may be [NULL]. *)
Definition of_property_read_u32_dev (d : device) (name : string)
    : kresult Z :=
  match of_node d with
  | Some np => of_property_read_u32 np name
  | None => k_err (of_null_node_errno d)
  end.

Definition ufshcd_init_lanes_per_dir (hba : ufs_hba) : M ufs_hba :=
  match of_property_read_u32_dev (dev hba) "lanes-per-direction" with
  | k_ok v => ret (set_lanes_per_direction hba v)
  | k_err e =>
    dev_dbg "%s: failed to read lanes-per-direction, ret=%d"
      [arg_s "ufshcd_init_lanes_per_dir"; arg_d (Z.neg e)] ;;;
    ret (set_lanes_per_direction hba UFSHCD_DEFAULT_LANES_PER_DIRECTION)
  end.

(** ** ufshcd_pltfrm_init *)

(** struct platform_device, with the resource lookups made on it.
    [platform_get_resource_mem i] is
    [platform_get_resource(pdev, IORESOURCE_MEM, i)]. *)
Record platform_device := {
  pdev_dev : device;
  platform_get_resource_mem : Z -> option resource;
  platform_get_irq : Z -> Z
}.

(** The controller core (ufshcd.c). *)
Record ufshcd_core := {
  ufshcd_alloc_host : device -> kresult ufs_hba;
  ufshcd_init : ufs_hba -> kptr iomem -> Z -> kresult unit
}.

(** The label [dealloc_host]. *)
Definition dealloc_host (err : Z) : M Z :=
  n <- get hosts ;;
  set_hosts (pred n) ;;;
  log_call c_ufshcd_dealloc_host 0 ;;;
  ret err.

(** The probe from the call of [ufshcd_parse_extcon_info] on. *)
Definition pltfrm_init_extcon (core : ufshcd_core) (mmio_base : kptr iomem)
    (irq : Z) (hba : ufs_hba) : M Z :=
  let '(err, hba) := ufshcd_parse_extcon_info hba in
  log_call c_ufshcd_parse_extcon_info err ;;;
  if negb (err =? 0) then dealloc_host err
  else
    m <- get dma_mask ;;
    (match m with
     | dma_mask_null => set_dma_mask dma_mask_coherent
     | _ => ret tt
     end) ;;;
    hba <- ufshcd_init_lanes_per_dir hba ;;
    log_call c_ufshcd_init_lanes_per_dir 0 ;;;
    let err := k_status (ufshcd_init core hba mmio_base irq) in
    log_call c_ufshcd_init err ;;;
    if negb (err =? 0) then
      dev_err "Initialization failed" [] ;;;
      dealloc_host err
    else
      set_driver_data (Some hba) ;;;
      log_call c_platform_set_drvdata 0 ;;;
      log_call c_pm_runtime_set_active 0 ;;;
      log_call c_pm_runtime_enable 0 ;;;
      ret 0.

(** The probe from the call of [ufshcd_parse_reset_info] on. *)
Definition pltfrm_init_reset (core : ufshcd_core) (mmio_base : kptr iomem)
    (irq : Z) (hba : ufs_hba) : M Z :=
  '(err, hba) <- ufshcd_parse_reset_info hba ;;
  log_call c_ufshcd_parse_reset_info err ;;;
  if negb (err =? 0) then
    dev_err "%s: reset parse failed %d"
      [arg_s "ufshcd_pltfrm_init"; arg_d err] ;;;
    dealloc_host err
  else
    let '(err, hba) := ufshcd_parse_pinctrl_info hba in
    log_call c_ufshcd_parse_pinctrl_info err ;;;
    (if negb (err =? 0) then
       dev_dbg "%s: unable to parse pinctrl data %d"
         [arg_s "ufshcd_pltfrm_init"; arg_d err]
       (* let's not fail the probe *)
     else ret tt) ;;;
    let hba := ufshcd_parse_dev_ref_clk_freq hba in
    log_call c_ufshcd_parse_dev_ref_clk_freq 0 ;;;
    let hba := ufshcd_parse_pm_levels hba in
    log_call c_ufshcd_parse_pm_levels 0 ;;;
    let hba := ufshcd_parse_gear_limits hba in
    log_call c_ufshcd_parse_gear_limits 0 ;;;
    let hba := ufshcd_parse_cmd_timeout hba in
    log_call c_ufshcd_parse_cmd_timeout 0 ;;;
    let hba := ufshcd_parse_force_g4_flag hba in
    log_call c_ufshcd_parse_force_g4_flag 0 ;;;
    pltfrm_init_extcon core mmio_base irq hba.

(** The probe once the adapter is allocated. *)
Definition pltfrm_init_host (core : ufshcd_core) (mmio_base : kptr iomem)
    (irq : Z) (var : ufs_hba_variant) (hba : ufs_hba) : M Z :=
  let hba := set_var hba (Some var) in
  '(err, hba) <- ufshcd_parse_clock_info hba ;;
  log_call c_ufshcd_parse_clock_info err ;;;
  if negb (err =? 0) then
    dev_err "%s: clock parse failed %d"
      [arg_s "ufshcd_pltfrm_init"; arg_d err] ;;;
    dealloc_host err
  else
    '(err, hba) <- ufshcd_parse_regulator_info hba ;;
    log_call c_ufshcd_parse_regulator_info err ;;;
    if negb (err =? 0) then
      dev_err "%s: regulator init failed %d"
        [arg_s "ufshcd_pltfrm_init"; arg_d err] ;;;
      dealloc_host err
    else pltfrm_init_reset core mmio_base irq hba.

Definition ufshcd_pltfrm_init (core : ufshcd_core) (pdev : platform_device)
    (var : ufs_hba_variant) : M Z :=
  let dev := pdev_dev pdev in
  let mem_res := platform_get_resource_mem pdev 0 in
  let mmio_base := devm_ioremap_resource dev mem_res in
  log_call c_devm_ioremap_resource (PTR_ERR mmio_base) ;;;
  if IS_ERR mmio_base then ret (PTR_ERR mmio_base)
  else
    let irq := platform_get_irq pdev 0 in
    log_call c_platform_get_irq irq ;;;
    if irq <? 0 then
      dev_err "IRQ resource not available" [] ;;;
      ret (Z.neg ENODEV)
    else
      let r := ufshcd_alloc_host core dev in
      log_call c_ufshcd_alloc_host (k_status r) ;;;
      match r with
      | k_err e =>
        dev_err "Allocation failed" [] ;;;
        ret (Z.neg e)
      | k_ok hba =>
        n <- get hosts ;;
        set_hosts (S n) ;;;
        pltfrm_init_host core mmio_base irq var hba
      end.

End Parsers.

(** ** The power-management entry points

    Each of them hands to the controller core what [dev_get_drvdata]
    returns for the device.  The eight that return a status are compiled
    under CONFIG_SMP. *)

(** The entry points of the controller core (ufshcd.c) for power
    management and shutdown.  Their argument is the driver data, [None]
    when it is [NULL]; what they do is theirs. *)
Record ufshcd_pm_core := {
  ufshcd_system_restore : option ufs_hba -> M Z;
  ufshcd_system_freeze : option ufs_hba -> M Z;
  ufshcd_system_thaw : option ufs_hba -> M Z;
  ufshcd_system_suspend : option ufs_hba -> M Z;
  ufshcd_system_resume : option ufs_hba -> M Z;
  ufshcd_runtime_suspend : option ufs_hba -> M Z;
  ufshcd_runtime_resume : option ufs_hba -> M Z;
  ufshcd_runtime_idle : option ufs_hba -> M Z;
  ufshcd_shutdown : option ufs_hba -> M Z
}.

(** dev_get_drvdata(dev), and platform_get_drvdata(pdev), which is
    dev_get_drvdata(&pdev->dev). *)
Definition dev_get_drvdata : M (option ufs_hba) := get driver_data.

Definition platform_get_drvdata : M (option ufs_hba) := dev_get_drvdata.

Definition ufshcd_pltfrm_restore (pm : ufshcd_pm_core) : M Z :=
  hba <- dev_get_drvdata ;; ufshcd_system_restore pm hba.

Definition ufshcd_pltfrm_freeze (pm : ufshcd_pm_core) : M Z :=
  hba <- dev_get_drvdata ;; ufshcd_system_freeze pm hba.

Definition ufshcd_pltfrm_thaw (pm : ufshcd_pm_core) : M Z :=
  hba <- dev_get_drvdata ;; ufshcd_system_thaw pm hba.

Definition ufshcd_pltfrm_suspend (pm : ufshcd_pm_core) : M Z :=
  hba <- dev_get_drvdata ;; ufshcd_system_suspend pm hba.

Definition ufshcd_pltfrm_resume (pm : ufshcd_pm_core) : M Z :=
  hba <- dev_get_drvdata ;; ufshcd_system_resume pm hba.

Definition ufshcd_pltfrm_runtime_suspend (pm : ufshcd_pm_core) : M Z :=
  hba <- dev_get_drvdata ;; ufshcd_runtime_suspend pm hba.

Definition ufshcd_pltfrm_runtime_resume (pm : ufshcd_pm_core) : M Z :=
  hba <- dev_get_drvdata ;; ufshcd_runtime_resume pm hba.

Definition ufshcd_pltfrm_runtime_idle (pm : ufshcd_pm_core) : M Z :=
  hba <- dev_get_drvdata ;; ufshcd_runtime_idle pm hba.

(** The status of [ufshcd_shutdown] is dropped. *)
Definition ufshcd_pltfrm_shutdown (pm : ufshcd_pm_core) : M unit :=
  hba <- platform_get_drvdata ;;
  ufshcd_shutdown pm hba ;;;
  ret tt.

(** ** Concrete platforms

    Values for the constants (those of the Linux headers) and a small
    device tree source from which the oracles of a node are computed.  They
    give the concrete hardware descriptions at which the theorems below are
    instantiated; the theorems themselves hold for any value of the
    constants and any oracle. *)

Section Concrete.

Definition linux_headers : kernel_headers := {|
  EINVAL := 22%positive;
  ENOMEM := 12%positive;
  ENODEV := 19%positive;
  UFS_VREG_LPM_LOAD_UA := 1000;
  UFS_VREG_VCC_MIN_UV := 2700000;
  UFS_VREG_VCC_MAX_UV := 3600000;
  UFS_VREG_VCC_1P8_MIN_UV := 1700000;
  UFS_VREG_VCC_1P8_MAX_UV := 1950000;
  UFS_VREG_VCCQ_MIN_UV := 1100000;
  UFS_VREG_VCCQ_MAX_UV := 1300000;
  UFS_VREG_VCCQ2_MIN_UV := 1650000;
  UFS_VREG_VCCQ2_MAX_UV := 1950000;
  REF_CLK_FREQ_26_MHZ := 1;
  REF_CLK_FREQ_52_MHZ := 3
|}.

#[local] Existing Instance linux_headers.

Definition ENODATA : errno := 61%positive.
Definition EOVERFLOW : errno := 75%positive.
Definition EILSEQ : errno := 84%positive.
Definition ENOENT : errno := 2%positive.

(** The value of a property in a device tree source. *)
Inductive dt_value :=
| dt_flag
| dt_cells (cells : list Z)
| dt_strings (strs : list string)
| dt_phandle (target : Z).

(** A node of a device tree source: its properties by name. *)
Definition dt_source := list (string * dt_value).

Fixpoint dt_find (name : string) (dt : dt_source) : option dt_value :=
  match dt with
  | [] => None
  | (n, v) :: dt' => if (n =? name)%string then Some v else dt_find name dt'
  end.

Definition byte_of_Z (z : Z) : Byte.byte :=
  match Byte.of_N (Z.to_N (z mod 256)) with
  | Some b => b
  | None => Byte.x00
  end.

Definition be32_bytes (z : Z) : list Byte.byte :=
  [byte_of_Z (Z.shiftr z 24); byte_of_Z (Z.shiftr z 16);
   byte_of_Z (Z.shiftr z 8); byte_of_Z z].

Definition dt_bytes (v : dt_value) : property :=
  match v with
  | dt_flag => []
  | dt_cells cells => flat_map be32_bytes cells
  | dt_strings strs =>
    flat_map (fun s => (list_byte_of_string s ++ [Byte.x00])%list) strs
  | dt_phandle target => be32_bytes target
  end.

Definition dt_cells_of (v : dt_value) : option (list Z) :=
  match v with
  | dt_cells cells => Some cells
  | dt_phandle target => Some [target]
  | _ => None
  end.

Definition dt_read_u32_array (dt : dt_source) (name : string) (sz : Z)
    : kresult (list Z) :=
  match dt_find name dt with
  | None => k_err EINVAL
  | Some v =>
    match dt_cells_of v with
    | None => k_err ENODATA
    | Some cells =>
      if sz <=? Z.of_nat (List.length cells) then
        k_ok (firstn (Z.to_nat sz) cells)
      else k_err EOVERFLOW
    end
  end.

(** The node a device tree source describes.  The accessors answer as
    the OF library documents them: [-EINVAL] when the property does not
    exist, [-ENODATA] when it has no value of the kind asked for,
    [-EOVERFLOW] when it is too short. *)
Definition node_of_dt (dt : dt_source) : device_node := {|
  of_property_count_strings name :=
    match dt_find name dt with
    | None => Z.neg EINVAL
    | Some (dt_strings (s :: strs)) => Z.of_nat (List.length (s :: strs))
    | Some (dt_cells (_ :: _)) | Some (dt_phandle _) => Z.neg EILSEQ
    | Some _ => Z.neg ENODATA
    end;
  of_get_property name := option_map dt_bytes (dt_find name dt);
  of_property_read_u32_array := dt_read_u32_array dt;
  of_property_read_string_index name i :=
    match dt_find name dt with
    | None => k_err EINVAL
    | Some (dt_strings strs) =>
      if i <? 0 then k_err ENODATA
      else
        match nth_error strs (Z.to_nat i) with
        | Some s => k_ok s
        | None => k_err ENODATA
        end
    | Some _ => k_err ENODATA
    end;
  of_parse_phandle name idx :=
    match dt_find name dt with
    | Some (dt_phandle _) => idx =? 0
    | _ => false
    end;
  of_property_read_bool name :=
    match dt_find name dt with
    | Some _ => true
    | None => false
    end;
  of_property_read_u32 name :=
    match dt_read_u32_array dt name 1 with
    | k_ok (v :: _) => k_ok v
    | k_ok [] => k_err ENODATA
    | k_err e => k_err e
    end
|}.

(** A device described by [dt], with the given answers of the reset,
    pin-control and extcon frameworks. *)
Definition device_of_dt (dt : dt_source) (reset : kptr reset_control)
    (pins : kptr pinctrl) (edev : kptr extcon_dev) : device := {|
  of_node := Some (node_of_dt dt);
  of_null_node_errno := EINVAL;
  devm_ioremap_resource r :=
    match r with
    | Some a => kptr_to a
    | None => ERR_PTR EINVAL
    end;
  devm_reset_control_get _ := reset;
  devm_pinctrl_get := pins;
  extcon_get_edev_by_phandle _ := edev;
  device_property_read_bool name :=
    match dt_find name dt with
    | Some _ => true
    | None => false
    end
|}.

(** The adapter [ufshcd_alloc_host] returns: zeroed, with an empty clock
    list and its device set. *)
Definition hba_zero (d : device) : ufs_hba := {|
  dev := d; var := None; clk_list_head := [];
  vreg_info := {| vdd_hba := None; vcc := None; vccq := None;
                  vccq2 := None |};
  core_reset := None; pctrl := None; extcon := None;
  rpm_lvl := 0; spm_lvl := 0;
  limit_tx_hs_gear := 0; limit_rx_hs_gear := 0;
  limit_tx_pwm_gear := 0; limit_rx_pwm_gear := 0;
  scsi_cmd_timeout := 0; force_g4 := false;
  dev_ref_clk_freq := 0; lanes_per_direction := 0
|}.

(** A controller core whose initializer answers [init]. *)
Definition core_with (init : kresult unit) : ufshcd_core := {|
  ufshcd_alloc_host d := k_ok (hba_zero d);
  ufshcd_init _ _ _ := init
|}.

Definition pdev_of (d : device) : platform_device := {|
  pdev_dev := d;
  platform_get_resource_mem i := if i =? 0 then Some 1%nat else None;
  platform_get_irq i := if i =? 0 then 42 else Z.neg ENODEV
|}.

(** A kernel in which every allocation succeeds and nothing is bound. *)
Definition kernel_boot : kernel := {|
  kmalloc_ok _ := true;
  nr_allocs := 0;
  dmesg := [];
  calls := [];
  hosts := 0;
  driver_data := None;
  dma_mask := dma_mask_null
|}.

(** A description with one clock and a vcc supply, as in the end-to-end
    example of the specification. *)
Definition dt_ref_clk : dt_source :=
  [ ("clock-names", dt_strings ["ref_clk"]);
    ("freq-table-hz", dt_cells [100000; 200000]);
    ("vcc-supply", dt_phandle 7);
    ("vcc-max-microamp", dt_cells [500000]) ].

Definition dev_ref_clk : device :=
  device_of_dt dt_ref_clk (kptr_to 1%nat) (kptr_to 2%nat) (ERR_PTR ENODEV).

(** The same device when the reset framework has no "core_reset". *)
Definition dev_no_reset : device :=
  device_of_dt dt_ref_clk (ERR_PTR ENOENT) (kptr_to 2%nat) (ERR_PTR ENODEV).




(** A fixed vcc regulator: no current limit is given. *)
Definition dt_vcc_fixed : dt_source :=
  [ ("vcc-supply", dt_phandle 7);
    ("vcc-fixed-regulator", dt_flag) ].

(** A fixed vcc regulator flagged as a 1.8V supply. *)
Definition dt_vcc_fixed_1p8 : dt_source :=
  [ ("vcc-supply", dt_phandle 7);
    ("vcc-fixed-regulator", dt_flag);
    ("vcc-supply-1p8", dt_flag) ].

(** A 1.8V vcc supply that also gives a voltage level and the low-voltage
    flag. *)
Definition dt_vcc_1p8 : dt_source :=
  [ ("vcc-supply", dt_phandle 7);
    ("vcc-max-microamp", dt_cells [500000]);
    ("vcc-supply-1p8", dt_flag);
    ("vcc-voltage-level", dt_cells [2700000; 3600000]);
    ("vcc-low-voltage-sup", dt_flag) ].

(** A vcc supply whose voltage level has one cell instead of two. *)
Definition dt_vcc_bad_level : dt_source :=
  [ ("vcc-supply", dt_phandle 7);
    ("vcc-max-microamp", dt_cells [500000]);
    ("vcc-voltage-level", dt_cells [2700000]) ].

(** The same without the current limit. *)
Definition dt_vcc_bad_level_no_max : dt_source :=
  [ ("vcc-supply", dt_phandle 7);
    ("vcc-voltage-level", dt_cells [2700000]) ].

(** The same, as a fixed regulator. *)
Definition dt_vcc_bad_level_fixed : dt_source :=
  [ ("vcc-supply", dt_phandle 7);
    ("vcc-fixed-regulator", dt_flag);
    ("vcc-voltage-level", dt_cells [2700000]) ].

(** A reference clock frequency outside the enumeration. *)
Definition dt_ref_999 : dt_source :=
  [ ("dev-ref-clk-freq", dt_cells [999]) ].

Definition dev_plain (dt : dt_source) : device :=
  device_of_dt dt (kptr_to 1%nat) (kptr_to 2%nat) (ERR_PTR ENODEV).

(** A clock-names property that cannot be read as strings. *)
Definition dt_clk_names_not_strings : dt_source :=
  [ ("clock-names", dt_cells [1]);
    ("freq-table-hz", dt_cells [100000; 200000]) ].

(** Clock names without a frequency table. *)
Definition dt_clk_no_table : dt_source :=
  [ ("clock-names", dt_strings ["ref_clk"; "core_clk"]) ].

(** Two clocks and their two pairs of frequencies. *)
Definition dt_two_clocks : dt_source :=
  [ ("clock-names", dt_strings ["ref_clk"; "core_clk"]);
    ("freq-table-hz", dt_cells [100000; 200000; 0; 300000]) ].

(** A kernel in which the allocations from the number [limit] on fail. *)
Definition kernel_low_memory (limit : nat) : kernel := {|
  kmalloc_ok n := (n <? limit)%nat;
  nr_allocs := 0;
  dmesg := [];
  calls := [];
  hosts := 0;
  driver_data := None;
  dma_mask := dma_mask_null
|}.

(** The node of [dt_ref_clk], except that the cells of a property cannot
    be read: [of_property_read_u32_array] answers [-e]. *)
Definition node_cells_unreadable (e : errno) : device_node := {|
  of_property_count_strings :=
    of_property_count_strings (node_of_dt dt_ref_clk);
  of_get_property := of_get_property (node_of_dt dt_ref_clk);
  of_property_read_u32_array _ _ := k_err e;
  of_property_read_string_index :=
    of_property_read_string_index (node_of_dt dt_ref_clk);
  of_parse_phandle := of_parse_phandle (node_of_dt dt_ref_clk);
  of_property_read_bool := of_property_read_bool (node_of_dt dt_ref_clk);
  of_property_read_u32 := of_property_read_u32 (node_of_dt dt_ref_clk)
|}.

Definition dev_cells_unreadable (e : errno) : device := {|
  of_node := Some (node_cells_unreadable e);
  of_null_node_errno := EINVAL;
  devm_ioremap_resource := devm_ioremap_resource dev_ref_clk;
  devm_reset_control_get := devm_reset_control_get dev_ref_clk;
  devm_pinctrl_get := devm_pinctrl_get dev_ref_clk;
  extcon_get_edev_by_phandle := extcon_get_edev_by_phandle dev_ref_clk;
  device_property_read_bool := device_property_read_bool dev_ref_clk
|}.

(** The four supplies: vdd-hba and vccq with their current limits, vcc
    with a voltage level and the low-voltage flag, vccq2 with a voltage
    level. *)
Definition dt_regulators : dt_source :=
  [ ("vdd-hba-supply", dt_phandle 5);
    ("vdd-hba-max-microamp", dt_cells [30000]);
    ("vcc-supply", dt_phandle 6);
    ("vcc-max-microamp", dt_cells [800000]);
    ("vcc-voltage-level", dt_cells [2950000; 2960000]);
    ("vcc-low-voltage-sup", dt_flag);
    ("vccq-supply", dt_phandle 7);
    ("vccq-max-microamp", dt_cells [750000]);
    ("vccq-min-microamp", dt_cells [100]);
    ("vccq2-supply", dt_phandle 8);
    ("vccq2-max-microamp", dt_cells [750000]);
    ("vccq2-voltage-level", dt_cells [1800000; 1900000]) ].

(** A vccq2 supply without a voltage level. *)
Definition dt_vccq2_no_level : dt_source :=
  [ ("vccq2-supply", dt_phandle 8);
    ("vccq2-max-microamp", dt_cells [750000]) ].

(** A description without supplies. *)
Definition dt_no_supply : dt_source :=
  [ ("lanes-per-direction", dt_cells [1]) ].

(** An empty node. *)
Definition dt_empty : dt_source := [].

(** A device without a node, as on a platform without a device tree. *)
Definition dev_no_node : device := {|
  of_node := None;
  of_null_node_errno := EINVAL;
  devm_ioremap_resource := devm_ioremap_resource dev_ref_clk;
  devm_reset_control_get := devm_reset_control_get dev_ref_clk;
  devm_pinctrl_get := devm_pinctrl_get dev_ref_clk;
  extcon_get_edev_by_phandle := extcon_get_edev_by_phandle dev_ref_clk;
  device_property_read_bool _ := false
|}.

(** An adapter whose fields all hold something. *)
Definition hba_used (d : device) : ufs_hba := {|
  dev := d; var := Some 1%nat; clk_list_head := [];
  vreg_info := {| vdd_hba := None; vcc := None; vccq := None;
                  vccq2 := None |};
  core_reset := Some 1%nat; pctrl := Some 2%nat; extcon := Some 3%nat;
  rpm_lvl := 3; spm_lvl := 5;
  limit_tx_hs_gear := 1; limit_rx_hs_gear := 2;
  limit_tx_pwm_gear := 3; limit_rx_pwm_gear := 4;
  scsi_cmd_timeout := 30; force_g4 := true;
  dev_ref_clk_freq := 2; lanes_per_direction := 1
|}.

(** The tuning properties, the reference clock in the range. *)
Definition dt_tuning : dt_source :=
  [ ("dev-ref-clk-freq", dt_cells [2]);
    ("rpm-level", dt_cells [3]);
    ("limit-tx-hs-gear", dt_cells [4]);
    ("force-g4", dt_flag) ].

(** The device of [dt_ref_clk] when the pin-control framework has no
    state for it. *)
Definition dev_no_pins : device :=
  device_of_dt dt_ref_clk (kptr_to 1%nat) (ERR_PTR ENOENT) (ERR_PTR ENODEV).

(** A platform device whose interrupt is not ready: [platform_get_irq]
    answers [-EPROBE_DEFER]. *)
Definition pdev_no_irq (d : device) : platform_device := {|
  pdev_dev := d;
  platform_get_resource_mem i := if i =? 0 then Some 1%nat else None;
  platform_get_irq _ := -517
|}.

End Concrete.

(** ** Vocabulary of the specification *)

(** Projections of the result of a run. *)
Definition status_of {A} (r : Z * A * kernel) : Z := fst (fst r).
Definition value_of {A} (r : Z * A * kernel) : A := snd (fst r).
Definition kernel_of {A} (r : A * kernel) : kernel := snd r.

(** One ClockDescriptor per name, in order, with the pair of frequencies
    at the same rank of the flat table. *)
Fixpoint clock_descriptors (names : list string) (freqs : list Z)
    : list ufs_clk_info :=
  match names, freqs with
  | n :: names', lo :: hi :: freqs' =>
    {| clk_name := Some n; min_freq := lo; max_freq := hi |}
      :: clock_descriptors names' freqs'
  | _, _ => []
  end.

(** The node declares the clocks [names] and the frequency cells [freqs]:
    the accessors agree on them, and the byte length of the table fits the
    [int] in which it is reported. *)
Definition clocks_described {H : kernel_headers} (np : device_node)
    (names : list string) (freqs : list Z) : Prop :=
  (of_property_count_strings np "clock-names" = Z.of_nat (List.length names)
   \/ names = [] /\ of_property_count_strings np "clock-names" = Z.neg EINVAL)
  /\ (forall i : nat, (i < List.length names)%nat ->
        of_property_read_string_index np "clock-names" (Z.of_nat i)
        = k_ok (nth i names ""))
  /\ (freqs <> [] ->
      (exists prop, of_get_property np "freq-table-hz" = Some prop
                    /\ Z.of_nat (List.length prop)
                       = 4 * Z.of_nat (List.length freqs)
                    /\ Z.of_nat (List.length prop) <= INT_MAX)
      /\ of_property_read_u32_array np "freq-table-hz"
           (Z.of_nat (List.length freqs)) = k_ok freqs).

(** The four regulator roles. *)
Definition vreg_roles : list string := ["vdd-hba"; "vcc"; "vccq"; "vccq2"].

(** "dev-ref-clk-freq" is absent (the read fails) or outside the range of
    the enumeration, which ends at [REF_CLK_FREQ_52_MHZ]. *)
Definition dev_ref_clk_freq_invalid {H : kernel_headers} (np : device_node)
    : Prop :=
  match of_property_read_u32 np "dev-ref-clk-freq" with
  | k_err _ => True
  | k_ok v => v < 0 \/ REF_CLK_FREQ_52_MHZ < v
  end.

(** The range of a regulator descriptor. *)
Definition uV_range (v : ufs_vreg) : Z * Z := (min_uV v, max_uV v).

(** The warning of a "vcc-voltage-level" property of the wrong length. *)
Definition vcc_level_warning : logline :=
  {| level := KERN_WARNING;
     fmt := "%s vcc-voltage-level property.";
     args := [arg_s "invalid format"] |}.

(** Every allocation succeeds. *)
Definition all_allocs_ok (k : kernel) : Prop :=
  forall n, kmalloc_ok k n = true.


(** *** What the parsers leave alone *)

(** The parsers touch the allocator and the kernel log only: the log of
    calls, the adapter count, the driver data and the DMA mask stay. *)
Definition same_bindings (k k' : kernel) : Prop :=
  calls k' = calls k /\ hosts k' = hosts k
  /\ driver_data k' = driver_data k /\ dma_mask k' = dma_mask k.

(** [m] returns a value that satisfies [Q] and keeps the bindings. *)
Definition parses {A} (m : M A) (Q : A -> Prop) : Prop :=
  forall k, Q (fst (m k)) /\ same_bindings k (snd (m k)).

(** A status that is [0] or a negative error number. *)
Definition nonpos_status {A} (r : Z * A) : Prop := fst r <= 0.

(** The result of a parser of the adapter [hba]: a status that is [0] or
    negative, and an adapter of the same device. *)
Definition parsed (hba : ufs_hba) (r : Z * ufs_hba) : Prop :=
  fst r <= 0 /\ dev (snd r) = dev hba.

(** *** The ways a probe ends *)

(** How the probe ends once the adapter is allocated: at the stage that
    failed, with its status, or attached.  [pin] is the status of the
    pin-control parser, which does not stop the probe. *)
Inductive host_outcome :=
| clock_failed (err : Z)
| regulator_failed (err : Z)
| reset_failed (err : Z)
| extcon_failed (pin err : Z)
| init_failed (pin err : Z)
| attached (pin : Z) (hba : ufs_hba).

(** The calls logged before [ufshcd_parse_reset_info] and before
    [ufshcd_parse_extcon_info] when nothing failed. *)
Definition calls_to_reset : list (callee * Z) :=
  [ (c_ufshcd_parse_clock_info, 0); (c_ufshcd_parse_regulator_info, 0) ].

Definition calls_to_extcon (pin : Z) : list (callee * Z) :=
  (calls_to_reset
   ++ [ (c_ufshcd_parse_reset_info, 0); (c_ufshcd_parse_pinctrl_info, pin);
        (c_ufshcd_parse_dev_ref_clk_freq, 0); (c_ufshcd_parse_pm_levels, 0);
        (c_ufshcd_parse_gear_limits, 0); (c_ufshcd_parse_cmd_timeout, 0);
        (c_ufshcd_parse_force_g4_flag, 0) ])%list.

(** The calls of the probe after the allocation of the adapter. *)
Definition host_calls (o : host_outcome) : list (callee * Z) :=
  match o with
  | clock_failed err =>
    [ (c_ufshcd_parse_clock_info, err); (c_ufshcd_dealloc_host, 0) ]
  | regulator_failed err =>
    [ (c_ufshcd_parse_clock_info, 0); (c_ufshcd_parse_regulator_info, err);
      (c_ufshcd_dealloc_host, 0) ]
  | reset_failed err =>
    calls_to_reset
    ++ [ (c_ufshcd_parse_reset_info, err); (c_ufshcd_dealloc_host, 0) ]
  | extcon_failed pin err =>
    calls_to_extcon pin
    ++ [ (c_ufshcd_parse_extcon_info, err); (c_ufshcd_dealloc_host, 0) ]
  | init_failed pin err =>
    calls_to_extcon pin
    ++ [ (c_ufshcd_parse_extcon_info, 0); (c_ufshcd_init_lanes_per_dir, 0);
         (c_ufshcd_init, err); (c_ufshcd_dealloc_host, 0) ]
  | attached pin _ =>
    calls_to_extcon pin
    ++ [ (c_ufshcd_parse_extcon_info, 0); (c_ufshcd_init_lanes_per_dir, 0);
         (c_ufshcd_init, 0); (c_platform_set_drvdata, 0);
         (c_pm_runtime_set_active, 0); (c_pm_runtime_enable, 0) ]
  end%list.

Definition host_status (o : host_outcome) : Z :=
  match o with
  | clock_failed err | regulator_failed err | reset_failed err
  | extcon_failed _ err | init_failed _ err => err
  | attached _ _ => 0
  end.

(** The status of a stage that failed is negative. *)
Definition host_valid (o : host_outcome) : Prop :=
  match o with
  | clock_failed err | regulator_failed err | reset_failed err => err < 0
  | extcon_failed pin err | init_failed pin err => pin <= 0 /\ err < 0
  | attached pin _ => pin <= 0
  end.

Definition is_attached (o : host_outcome) : option ufs_hba :=
  match o with
  | attached _ hba => Some hba
  | _ => None
  end.

(** The run from [k] to [k'] with status [err] ended as [o] says; [c0] is
    the log of calls when the adapter was allocated. *)
Definition host_result (o : host_outcome) (c0 : list (callee * Z))
    (k k' : kernel) (err : Z) : Prop :=
  host_valid o
  /\ err = host_status o
  /\ calls k' = (c0 ++ host_calls o)%list
  /\ hosts k' = match is_attached o with
                | Some _ => hosts k
                | None => pred (hosts k)
                end
  /\ driver_data k' = match is_attached o with
                      | Some hba => Some hba
                      | None => driver_data k
                      end.

(** How the probe ends. *)
Inductive outcome :=
| ioremap_failed (e : errno)
| irq_failed (irq : Z)
| alloc_failed (irq : Z) (e : errno)
| host_allocated (irq : Z) (o : host_outcome).

Definition outcome_calls (o : outcome) : list (callee * Z) :=
  match o with
  | ioremap_failed e => [ (c_devm_ioremap_resource, Z.neg e) ]
  | irq_failed irq =>
    [ (c_devm_ioremap_resource, 0); (c_platform_get_irq, irq) ]
  | alloc_failed irq e =>
    [ (c_devm_ioremap_resource, 0); (c_platform_get_irq, irq);
      (c_ufshcd_alloc_host, Z.neg e) ]
  | host_allocated irq o =>
    [ (c_devm_ioremap_resource, 0); (c_platform_get_irq, irq);
      (c_ufshcd_alloc_host, 0) ] ++ host_calls o
  end%list.

Definition outcome_status {H : kernel_headers} (o : outcome) : Z :=
  match o with
  | ioremap_failed e => Z.neg e
  | irq_failed _ => Z.neg ENODEV
  | alloc_failed _ e => Z.neg e
  | host_allocated _ o => host_status o
  end.

Definition outcome_valid (o : outcome) : Prop :=
  match o with
  | ioremap_failed _ => True
  | irq_failed irq => irq < 0
  | alloc_failed irq _ => 0 <= irq
  | host_allocated irq o => 0 <= irq /\ host_valid o
  end.

Definition published (o : outcome) : option ufs_hba :=
  match o with
  | host_allocated _ o => is_attached o
  | _ => None
  end.

(** The outcomes in which no stage after the reset parser has run. *)
Definition stops_by_reset (o : host_outcome) (e : errno) : Prop :=
  match o with
  | clock_failed _ | regulator_failed _ => True
  | reset_failed err => err = Z.neg e
  | _ => False
  end.

Definition stops_before_pinctrl (o : outcome) (e : errno) : Prop :=
  match o with
  | host_allocated _ o => stops_by_reset o e
  | _ => True
  end.

(** The calls that a run of the probe adds to the log. *)
Definition probe_calls {H : kernel_headers} (core : ufshcd_core)
    (pdev : platform_device) (var : ufs_hba_variant) (k : kernel)
    : list (callee * Z) :=
  skipn (List.length (calls k))
    (calls (snd (ufshcd_pltfrm_init core pdev var k))).

(** *** Mandatory stages and the order of the stages *)



Definition called (c : callee) (l : list (callee * Z)) : Prop :=
  In c (map fst l).


(** The stages of resource resolution, in the order of the code. *)
Definition stage_order : list callee :=
  [ c_ufshcd_parse_clock_info; c_ufshcd_parse_regulator_info;
    c_ufshcd_parse_reset_info; c_ufshcd_parse_pinctrl_info;
    c_ufshcd_parse_dev_ref_clk_freq; c_ufshcd_parse_pm_levels;
    c_ufshcd_parse_gear_limits; c_ufshcd_parse_cmd_timeout;
    c_ufshcd_parse_force_g4_flag; c_ufshcd_parse_extcon_info;
    c_ufshcd_init_lanes_per_dir; c_ufshcd_init ].

Definition is_stage (c : callee) : bool :=
  existsb (callee_eqb c) stage_order.

(** The stages among the calls of a run, in the order of the calls. *)
Definition stages (l : list (callee * Z)) : list callee :=
  filter is_stage (map fst l).

(** The groups of the order the specification states: clocks and
    regulators (0), then reset, pinctrl and the external connector (1),
    then the scalar tuning parsers (2), then the controller core (3). *)
Definition stage_class (c : callee) : option nat :=
  match c with
  | c_ufshcd_parse_clock_info | c_ufshcd_parse_regulator_info => Some 0%nat
  | c_ufshcd_parse_reset_info | c_ufshcd_parse_pinctrl_info
  | c_ufshcd_parse_extcon_info => Some 1%nat
  | c_ufshcd_parse_dev_ref_clk_freq | c_ufshcd_parse_pm_levels
  | c_ufshcd_parse_gear_limits | c_ufshcd_parse_cmd_timeout
  | c_ufshcd_parse_force_g4_flag | c_ufshcd_init_lanes_per_dir => Some 2%nat
  | c_ufshcd_init => Some 3%nat
  | _ => None
  end.

(** No stage of a group runs before a stage of an earlier group. *)
Definition claimed_order (l : list callee) : Prop :=
  forall (i j : nat) a b x y,
    (i < j)%nat -> nth_error l i = Some a -> nth_error l j = Some b ->
    stage_class a = Some x -> stage_class b = Some y -> (x <= y)%nat.

(** What the probe calls after the reset-line parser. *)
Definition after_reset : list callee :=
  [ c_ufshcd_parse_pinctrl_info; c_ufshcd_parse_dev_ref_clk_freq;
    c_ufshcd_parse_pm_levels; c_ufshcd_parse_gear_limits;
    c_ufshcd_parse_cmd_timeout; c_ufshcd_parse_force_g4_flag;
    c_ufshcd_parse_extcon_info; c_ufshcd_init_lanes_per_dir; c_ufshcd_init;
    c_platform_set_drvdata; c_pm_runtime_set_active; c_pm_runtime_enable ].

(** The error line of the reset-line parser. *)
Definition core_reset_error (e : errno) : logline :=
  {| level := KERN_ERR;
     fmt := "core_reset unavailable,err = %d";
     args := [arg_d (Z.neg e)] |}.

(** *** More vocabulary: the clock list *)

(** The descriptor the loop of the clock parser builds for the clock
    number [j]: the name of rank [j], and the cells [2j] and [2j + 1] of
    the buffer [clkfreq] (zero beyond what was read into it). *)
Definition clki_at (clkfreq : list Z) (names : list string) (j : nat)
    : ufs_clk_info :=
  {| clk_name := Some (nth j names "");
     min_freq := nth (2 * j) clkfreq 0;
     max_freq := nth (S (2 * j)) clkfreq 0 |}.

(** The descriptors of the [m] clocks from the number [j] on. *)
Definition clkis (clkfreq : list Z) (names : list string) (j m : nat)
    : list ufs_clk_info :=
  map (clki_at clkfreq names) (seq j m).

(** A descriptor whose frequencies were never read. *)
Definition clki_unread (name : string) : ufs_clk_info :=
  {| clk_name := Some name; min_freq := 0; max_freq := 0 |}.

(** The next [n] allocations succeed. *)
Definition allocs_ok_upto (k : kernel) (n : nat) : Prop :=
  forall a, (nr_allocs k <= a < nr_allocs k + n)%nat -> kmalloc_ok k a = true.

(** [hba'] is [hba] with clocks appended to its list, and nothing else
    changed. *)
Definition clocks_appended (hba hba' : ufs_hba) : Prop :=
  exists l, hba' = set_clk_list_head hba (clk_list_head hba ++ l).

(** The description gives the parser no clock to acquire: there is no
    node, or no clock name (a count of [0] or [-EINVAL]), or there are
    names and the frequency table is absent or empty. *)
Definition no_clock_table {H : kernel_headers} (d : device) : Prop :=
  match of_node d with
  | None => True
  | Some np =>
    of_property_count_strings np "clock-names" = 0
    \/ of_property_count_strings np "clock-names" = Z.neg EINVAL
    \/ (0 < of_property_count_strings np "clock-names"
        /\ (of_get_property np "freq-table-hz" = None
            \/ of_get_property np "freq-table-hz" = Some []))
  end.

(** The error line of a frequency table whose cells cannot be read. *)
Definition read_array_error (e : errno) : logline :=
  {| level := KERN_ERR;
     fmt := "%s: error reading array %d";
     args := [arg_s "freq-table-hz"; arg_d (Z.neg e)] |}.

(** *** More vocabulary: the regulators *)

(** The description names no supply for the role: there is no node, or
    the node has no "<role>-supply" phandle. *)
Definition supply_absent (d : device) (name : string) : Prop :=
  match of_node d with
  | None => True
  | Some np => of_parse_phandle np (prop_name name "-supply") 0 = false
  end.

(** The name of a descriptor allocated in the state [k]: the copy that
    [kstrdup] makes just after the allocation of the descriptor, [NULL]
    when that second allocation fails. *)
Definition vreg_name_in (k : kernel) (name : string) : option string :=
  if kmalloc_ok k (S (nr_allocs k)) then Some name else None.


(** The warning of an absent or malformed "vccq2-voltage-level". *)
Definition vccq2_level_warning (what : string) : logline :=
  {| level := KERN_WARNING;
     fmt := "%s vccq2-voltage-level property.";
     args := [arg_s what] |}.

(** No descriptor in any of the four slots. *)
Definition no_vreg : ufs_vreg_info :=
  {| vdd_hba := None; vcc := None; vccq := None; vccq2 := None |}.

(** The slot of a role. *)
Definition vreg_slot (i : ufs_vreg_info) (name : string)
    : option ufs_vreg :=
  if (name =? "vdd-hba")%string then vdd_hba i
  else if (name =? "vcc")%string then vcc i
  else if (name =? "vccq")%string then vccq i
  else if (name =? "vccq2")%string then vccq2 i
  else None.

(** *** More vocabulary: the scalar parsers *)

(** What the clock, regulator, reset-line, pin-control and extcon parsers
    resolve, with the device and the variant. *)
Definition resources (hba : ufs_hba) :=
  (dev hba, var hba, clk_list_head hba, vreg_info hba, core_reset hba,
   pctrl hba, extcon hba).

(** What the scalar parsers set. *)
Definition tuning (hba : ufs_hba) :=
  (dev_ref_clk_freq hba, rpm_lvl hba, spm_lvl hba,
   (limit_tx_hs_gear hba, limit_rx_hs_gear hba,
    limit_tx_pwm_gear hba, limit_rx_pwm_gear hba),
   scsi_cmd_timeout hba, force_g4 hba).

(** The scalar parsers, in the order in which the probe calls them. *)
Definition scalar_parsers {H : kernel_headers} : list (ufs_hba -> ufs_hba) :=
  [ ufshcd_parse_dev_ref_clk_freq; ufshcd_parse_pm_levels;
    ufshcd_parse_gear_limits; ufshcd_parse_cmd_timeout;
    ufshcd_parse_force_g4_flag ].

(** The adapter after the scalar parsers. *)
Definition scalar_stage {H : kernel_headers} (hba : ufs_hba) : ufs_hba :=
  fold_left (fun h f => f h) scalar_parsers hba.

(** The properties the scalar parsers read as numbers. *)
Definition scalar_properties : list string :=
  [ "dev-ref-clk-freq"; "rpm-level"; "spm-level"; "limit-tx-hs-gear";
    "limit-rx-hs-gear"; "limit-tx-pwm-gear"; "limit-rx-pwm-gear";
    "scsi-cmd-timeout" ].

(** A number read from the node, or the default of the field. *)
Definition u32_or (np : device_node) (name : string) (def : Z) : Z :=
  match of_property_read_u32 np name with
  | k_ok v => v
  | k_err _ => def
  end.

(** The reference clock frequency the node gives: "dev-ref-clk-freq" when
    it is in the range of the enumeration, the default otherwise. *)
Definition ref_clk_or_default {H : kernel_headers} (np : device_node) : Z :=
  match of_property_read_u32 np "dev-ref-clk-freq" with
  | k_ok v =>
    if (v <? 0) || (v >? REF_CLK_FREQ_52_MHZ) then REF_CLK_FREQ_26_MHZ
    else v
  | k_err _ => REF_CLK_FREQ_26_MHZ
  end.

(** The debug line of an unreadable "lanes-per-direction". *)
Definition lanes_debug (e : errno) : logline :=
  {| level := KERN_DEBUG;
     fmt := "%s: failed to read lanes-per-direction, ret=%d";
     args := [arg_s "ufshcd_init_lanes_per_dir"; arg_d (Z.neg e)] |}.

(** *** More vocabulary: the probe *)

(** The error line of an interrupt that is not available. *)
Definition irq_error : logline :=
  {| level := KERN_ERR; fmt := "IRQ resource not available"; args := [] |}.

(** What the probe calls between the pin-control parser and
    [ufshcd_init_lanes_per_dir]. *)
Definition after_pinctrl : list callee :=
  [ c_ufshcd_parse_dev_ref_clk_freq; c_ufshcd_parse_pm_levels;
    c_ufshcd_parse_gear_limits; c_ufshcd_parse_cmd_timeout;
    c_ufshcd_parse_force_g4_flag; c_ufshcd_parse_extcon_info ].

(** dev->dma_mask once the probe has looked at it: a mask that is
    [NULL] is replaced by the coherent one. *)
Definition dma_mask_after (m : dma_mask_ptr) : dma_mask_ptr :=
  match m with
  | dma_mask_null => dma_mask_coherent
  | _ => m
  end.

(** The calls [l] go past the test of the DMA mask, which comes just
    before [ufshcd_init_lanes_per_dir]. *)
Definition mask_tested (l : list (callee * Z)) : bool :=
  existsb (fun e => callee_eqb (fst e) c_ufshcd_init_lanes_per_dir) l.

(** What the parsers before the extcon parser have settled. *)
Definition resolved (hba : ufs_hba) :=
  (dev hba, var hba, clk_list_head hba, vreg_info hba, core_reset hba,
   pctrl hba, tuning hba).

(** The number of lanes the description gives, or the default. *)
Definition lanes_of (d : device) : Z :=
  match of_property_read_u32_dev d "lanes-per-direction" with
  | k_ok v => v
  | k_err _ => UFSHCD_DEFAULT_LANES_PER_DIRECTION
  end.

(** How a part of the probe that runs to the end of it leaves the
    kernel [k]: when it returns [0] the driver data is an adapter that
    satisfies [P]; the calls it made are added to the log; the DMA mask
    is looked at when those calls go past the test. *)
Definition stage_end (P : ufs_hba -> Prop) (k : kernel) (r : Z * kernel)
    : Prop :=
  (fst r = 0 -> exists hba, driver_data (snd r) = Some hba /\ P hba)
  /\ exists l,
      calls (snd r) = (calls k ++ l)%list
      /\ dma_mask (snd r)
         = if mask_tested l then dma_mask_after (dma_mask k)
           else dma_mask k.

(** The adapter [hba] is what the probe makes of the adapter [hba0] that
    [ufshcd_alloc_host] returned, for the variant [v]: the device is the
    same, the variant is set, the clock list has grown, the reset line is
    resolved, the pin-control handle is the answer of the framework or
    [NULL], the tuning is that of the scalar parsers and the number of
    lanes that of the description. *)
Definition probed {H : kernel_headers} (hba0 : ufs_hba)
    (v : ufs_hba_variant) (hba : ufs_hba) : Prop :=
  dev hba = dev hba0
  /\ var hba = Some v
  /\ (exists l, clk_list_head hba = (clk_list_head hba0 ++ l)%list)
  /\ IS_ERR (devm_reset_control_get (dev hba0) "core_reset") = false
  /\ core_reset hba
     = handle_of (devm_reset_control_get (dev hba0) "core_reset")
  /\ pctrl hba = handle_of (devm_pinctrl_get (dev hba0))
  /\ tuning hba = tuning (scalar_stage hba0)
  /\ lanes_per_direction hba = lanes_of (dev hba0).

(** The eight entry points that return the status of the core, each
    with the function of the core it calls. *)
Definition pm_entry_points (pm : ufshcd_pm_core)
    : list (M Z * (option ufs_hba -> M Z)) :=
  [ (ufshcd_pltfrm_restore pm, ufshcd_system_restore pm);
    (ufshcd_pltfrm_freeze pm, ufshcd_system_freeze pm);
    (ufshcd_pltfrm_thaw pm, ufshcd_system_thaw pm);
    (ufshcd_pltfrm_suspend pm, ufshcd_system_suspend pm);
    (ufshcd_pltfrm_resume pm, ufshcd_system_resume pm);
    (ufshcd_pltfrm_runtime_suspend pm, ufshcd_runtime_suspend pm);
    (ufshcd_pltfrm_runtime_resume pm, ufshcd_runtime_resume pm);
    (ufshcd_pltfrm_runtime_idle pm, ufshcd_runtime_idle pm) ].

(** * Properties *)

(** ** What the parsers leave alone *)

Lemma same_bindings_refl k : same_bindings k k.
Proof. repeat split. Qed.

Lemma same_bindings_trans k1 k2 k3 :
  same_bindings k1 k2 -> same_bindings k2 k3 -> same_bindings k1 k3.
Proof.
  unfold same_bindings.
  intros (A1 & A2 & A3 & A4) (B1 & B2 & B3 & B4).
  repeat split; congruence.
Qed.

Lemma parses_ret {A} (a : A) (Q : A -> Prop) : Q a -> parses (ret a) Q.
Proof. intros Ha k. split; [ exact Ha | apply same_bindings_refl ]. Qed.

Lemma parses_bind {A B} (m : M A) (f : A -> M B) (P : A -> Prop)
    (Q : B -> Prop) :
  parses m P -> (forall a, P a -> parses (f a) Q) -> parses (bind m f) Q.
Proof.
  intros Hm Hf k. unfold bind.
  destruct (Hm k) as [Ha Hk]. destruct (m k) as [a k1]. cbn [fst snd] in *.
  destruct (Hf a Ha k1) as [Hb Hk1].
  split; [ exact Hb | ]. eapply same_bindings_trans; eassumption.
Qed.

Lemma parses_weaken {A} (m : M A) (P Q : A -> Prop) :
  parses m P -> (forall a, P a -> Q a) -> parses m Q.
Proof. intros Hm HPQ k. destruct (Hm k) as [Ha Hk]. split; auto. Qed.

Lemma parses_kmalloc : parses kmalloc (fun _ => True).
Proof. intros k. split; [ exact I | repeat split ]. Qed.

Lemma parses_kstrdup s : parses (kstrdup s) (fun _ => True).
Proof.
  unfold kstrdup. eapply parses_bind; [ apply parses_kmalloc | ].
  intros ok _. now apply parses_ret.
Qed.

Lemma parses_printk l f a : parses (printk l f a) (fun _ => True).
Proof. intros k. split; [ exact I | repeat split ]. Qed.

(** A line of log followed by [m]. *)
Lemma parses_logged {A} l f a (m : M A) (Q : A -> Prop) :
  parses m Q -> parses (printk l f a ;;; m) Q.
Proof.
  intros Hm. eapply parses_bind; [ apply parses_printk | ]. intros _ _.
  exact Hm.
Qed.

Section Frames.

Context {H : kernel_headers}.

Lemma parsed_same hba e : e <= 0 -> parsed hba (e, hba).
Proof. intros He. split; [ exact He | reflexivity ]. Qed.

Lemma parsed_neg hba e : parsed hba (Z.neg e, hba).
Proof. apply parsed_same. lia. Qed.

Lemma parses_clock_loop np clkfreq sz fuel hba0 : forall i ret_ hba,
  ret_ <= 0 -> dev hba = dev hba0 ->
  parses (clock_loop np clkfreq sz fuel i ret_ hba) (parsed hba0).
Proof.
  induction fuel as [|fuel IH]; intros i ret_ hba Hret Hdev;
    cbn [clock_loop].
  - apply parses_ret. split; assumption.
  - destruct (i <? sz); [ | apply parses_ret; split; assumption ].
    destruct (of_property_read_string_index np "clock-names" (i / 2))
      as [name|e];
      [ | apply parses_ret; split; [ cbn; lia | assumption ] ].
    eapply parses_bind; [ apply parses_kmalloc | ]. intros ok _.
    destruct ok; cbn [negb];
      [ | apply parses_ret; split; [ cbn; lia | assumption ] ].
    eapply parses_bind; [ apply parses_kstrdup | ]. intros nm _.
    apply parses_logged. apply IH; [ lia | exact Hdev ].
Qed.

Lemma parses_freq_table np cnt ret_ hba :
  ret_ <= 0 -> parses (parse_freq_table np cnt ret_ hba) (parsed hba).
Proof.
  intros Hret. unfold parse_freq_table.
  destruct (of_get_property np "freq-table-hz") as [prop|];
    [ | apply parses_logged; apply parses_ret; now apply parsed_same ].
  destruct (Z.of_nat (List.length prop) <=? 0);
    [ apply parses_ret; now apply parsed_same | ].
  destruct (negb _);
    [ apply parses_logged; apply parses_ret; apply parsed_neg | ].
  eapply parses_bind; [ apply parses_kmalloc | ]. intros ok _.
  destruct ok; cbn [negb]; [ | apply parses_ret; apply parsed_neg ].
  destruct (of_property_read_u32_array np "freq-table-hz" _) as [vals|e];
    cbn [k_status Z.eqb negb andb].
  - apply parses_clock_loop; [ lia | reflexivity ].
  - destruct (negb _).
    + apply parses_logged. apply parses_ret. apply parsed_neg.
    + apply parses_clock_loop; [ lia | reflexivity ].
Qed.

Lemma parses_clock_info hba :
  parses (ufshcd_parse_clock_info hba) (parsed hba).
Proof.
  unfold ufshcd_parse_clock_info.
  destruct (of_node (dev hba)) as [np|];
    [ | apply parses_ret; apply parsed_same; lia ].
  set (cnt := of_property_count_strings np "clock-names").
  eapply parses_bind with (P := fun r => r <= 0).
  - destruct ((cnt =? 0) || (cnt =? Z.neg EINVAL)).
    + apply parses_logged. apply parses_ret. lia.
    + destruct (Z.ltb_spec cnt 0).
      * apply parses_logged. apply parses_ret. lia.
      * apply parses_ret. lia.
  - intros ret_ Hret. destruct (cnt <=? 0).
    + apply parses_ret. now apply parsed_same.
    + now apply parses_freq_table.
Qed.

Lemma parses_voltage_level np pname fmt_ lo hi vreg :
  parses (voltage_level np pname fmt_ lo hi vreg) (fun _ => True).
Proof.
  unfold voltage_level.
  destruct (of_get_property np pname) as [prop|].
  - destruct (negb _).
    + apply parses_logged. now apply parses_ret.
    + now apply parses_ret.
  - apply parses_logged. now apply parses_ret.
Qed.

Lemma parses_vreg_voltage np name vreg :
  parses (vreg_voltage np name vreg) (fun _ => True).
Proof.
  unfold vreg_voltage.
  destruct (name =? "vcc")%string.
  - destruct (of_property_read_bool np "vcc-supply-1p8");
      [ now apply parses_ret | ].
    eapply parses_bind; [ apply parses_voltage_level | ]. intros v _.
    destruct (of_property_read_bool np "vcc-low-voltage-sup");
      now apply parses_ret.
  - destruct (name =? "vccq")%string; [ now apply parses_ret | ].
    destruct (name =? "vccq2")%string; [ | now apply parses_ret ].
    apply parses_voltage_level.
Qed.

Lemma parses_populate_vreg dev name out :
  parses (ufshcd_populate_vreg dev name out) nonpos_status.
Proof.
  unfold ufshcd_populate_vreg.
  destruct (of_node dev) as [np|];
    [ | apply parses_logged; apply parses_ret; unfold nonpos_status; cbn;
        lia ].
  destruct (negb _);
    [ apply parses_logged; apply parses_ret; unfold nonpos_status; cbn; lia
    | ].
  eapply parses_bind; [ apply parses_kmalloc | ]. intros ok _.
  destruct ok; cbn [negb];
    [ | apply parses_ret; unfold nonpos_status; cbn; lia ].
  eapply parses_bind; [ apply parses_kstrdup | ]. intros nm _.
  destruct (of_property_read_bool np _);
    [ apply parses_ret; unfold nonpos_status; cbn; lia | ].
  destruct (of_property_read_u32 np (prop_name name "-max-microamp"))
    as [max_uA|e].
  - eapply parses_bind; [ apply parses_vreg_voltage | ]. intros v _.
    apply parses_ret. unfold nonpos_status; cbn; lia.
  - apply parses_logged. apply parses_ret. unfold nonpos_status; cbn; lia.
Qed.

Lemma parses_regulator_info hba :
  parses (ufshcd_parse_regulator_info hba) (parsed hba).
Proof.
  unfold ufshcd_parse_regulator_info.
  repeat
    (eapply parses_bind; [ apply parses_populate_vreg | ];
     let err := fresh "err" in
     let v := fresh "v" in
     let Herr := fresh "Herr" in
     intros [err v] Herr; unfold nonpos_status in Herr; cbn [fst] in Herr;
     cbv beta iota;
     try (destruct (negb (err =? 0));
          [ apply parses_ret; split; [ exact Herr | reflexivity ] | ])).
  apply parses_ret. split; [ assumption | reflexivity ].
Qed.

Lemma parses_reset_info hba :
  parses (ufshcd_parse_reset_info hba) (parsed hba).
Proof.
  unfold ufshcd_parse_reset_info.
  destruct (devm_reset_control_get (dev hba) "core_reset") as [|h|e];
    cbn [IS_ERR PTR_ERR].
  - apply parses_ret. split; [ cbn; lia | reflexivity ].
  - apply parses_ret. split; [ cbn; lia | reflexivity ].
  - apply parses_logged. apply parses_ret. split; [ cbn; lia | reflexivity ].
Qed.

Lemma parses_init_lanes_per_dir hba :
  parses (ufshcd_init_lanes_per_dir hba) (fun _ => True).
Proof.
  unfold ufshcd_init_lanes_per_dir.
  destruct (of_property_read_u32_dev (dev hba) "lanes-per-direction").
  - now apply parses_ret.
  - apply parses_logged. now apply parses_ret.
Qed.

Lemma pinctrl_info_nonpos hba :
  nonpos_status (ufshcd_parse_pinctrl_info hba).
Proof.
  unfold ufshcd_parse_pinctrl_info, nonpos_status.
  destruct (devm_pinctrl_get (dev hba)); cbn; lia.
Qed.

Lemma extcon_info_nonpos hba :
  nonpos_status (ufshcd_parse_extcon_info hba).
Proof.
  unfold ufshcd_parse_extcon_info, nonpos_status.
  destruct (extcon_get_edev_by_phandle (dev hba) 0) as [|h|e];
    cbn [IS_ERR PTR_ERR andb negb fst]; try lia.
  destruct (negb _); cbn; lia.
Qed.

End Frames.

(** ** The regulator parser *)

Section Regulators.

Context {H : kernel_headers}.

(** The parser up to the test of "<role>-fixed-regulator", when the supply
    is there and the descriptor could be allocated. *)
Lemma populate_vreg_supplied dev np name out k :
  of_node dev = Some np ->
  of_parse_phandle np (prop_name name "-supply") 0 = true ->
  kmalloc_ok k (nr_allocs k) = true ->
  exists nm k1,
    dmesg k1 = dmesg k /\
    ufshcd_populate_vreg dev name out k =
    (let vreg := set_vreg_name vreg_zero nm in
     if of_property_read_bool np (prop_name name "-fixed-regulator") then
       ret (0, Some vreg)
     else
       match of_property_read_u32 np (prop_name name "-max-microamp") with
       | k_err e =>
         dev_err "%s: unable to find %s err %d"
           [arg_s "ufshcd_populate_vreg";
            arg_s (prop_name name "-max-microamp"); arg_d (Z.neg e)] ;;;
         ret (Z.neg e, out)
       | k_ok max_uA =>
         let vreg := set_max_uA vreg max_uA in
         let vreg :=
           match of_property_read_u32 np (prop_name name "-min-microamp") with
           | k_ok min_uA => set_min_uA vreg min_uA
           | k_err _ => set_min_uA vreg UFS_VREG_LPM_LOAD_UA
           end in
         vreg <- vreg_voltage np name vreg ;;
         ret (0, Some vreg)
       end) k1.
Proof.
  intros Hnp Hsup Hmem.
  unfold ufshcd_populate_vreg.
  rewrite Hnp, Hsup. cbn [negb].
  unfold bind at 1. unfold kmalloc at 1. rewrite Hmem. cbn [negb].
  unfold bind at 1. unfold kstrdup, bind, kmalloc, ret. cbn.
  eexists. eexists. split; [ | reflexivity ]. reflexivity.
Qed.

(** When the descriptor cannot be allocated the parser fails. *)
Lemma populate_vreg_nomem dev np name out k :
  of_node dev = Some np ->
  of_parse_phandle np (prop_name name "-supply") 0 = true ->
  kmalloc_ok k (nr_allocs k) = false ->
  fst (ufshcd_populate_vreg dev name out k) = (Z.neg ENOMEM, out).
Proof.
  intros Hnp Hsup Hmem.
  unfold ufshcd_populate_vreg.
  rewrite Hnp, Hsup. cbn [negb].
  unfold bind at 1. unfold kmalloc at 1. rewrite Hmem. reflexivity.
Qed.

(** The status of the parser is [0] or a negative error number. *)
Lemma populate_vreg_status_nonpos dev name out k :
  status_of (ufshcd_populate_vreg dev name out k) <= 0.
Proof. apply (parses_populate_vreg dev name out k). Qed.

(** A supply that is not fixed and has no current limit. *)
Lemma populate_vreg_no_max_microamp dev np name out k e :
  of_node dev = Some np ->
  of_parse_phandle np (prop_name name "-supply") 0 = true ->
  of_property_read_bool np (prop_name name "-fixed-regulator") = false ->
  of_property_read_u32 np (prop_name name "-max-microamp") = k_err e ->
  status_of (ufshcd_populate_vreg dev name out k) < 0
  /\ value_of (ufshcd_populate_vreg dev name out k) = out.
Proof.
  intros Hnp Hsup Hfix Hmax.
  destruct (kmalloc_ok k (nr_allocs k)) eqn:Hmem.
  - destruct (populate_vreg_supplied dev name out k Hnp Hsup Hmem)
      as (nm & k1 & _ & ->).
    rewrite Hfix, Hmax. cbn. split; [ lia | reflexivity ].
  - unfold status_of, value_of.
    rewrite (populate_vreg_nomem dev name out k Hnp Hsup Hmem).
    cbn. split; [ lia | reflexivity ].
Qed.

(** The status of [ufshcd_parse_regulator_info] is that of the first role
    that fails. *)
Lemma parse_regulator_info_fails hba np role k e :
  In role vreg_roles ->
  of_node (dev hba) = Some np ->
  of_parse_phandle np (prop_name role "-supply") 0 = true ->
  of_property_read_bool np (prop_name role "-fixed-regulator") = false ->
  of_property_read_u32 np (prop_name role "-max-microamp") = k_err e ->
  status_of (ufshcd_parse_regulator_info hba k) < 0.
Proof.
  intros Hrole Hnp Hsup Hfix Hmax.
  assert (Hbad : forall out k0,
             status_of (ufshcd_populate_vreg (dev hba) role out k0) < 0).
  { intros out k0.
    apply (populate_vreg_no_max_microamp (dev hba) role out k0 Hnp Hsup
             Hfix Hmax). }
  unfold ufshcd_parse_regulator_info, bind.
  repeat
    match goal with
    | |- context [ufshcd_populate_vreg ?d ?n ?o ?k0] =>
      let E := fresh "E" in
      let Hle := fresh "Hle" in
      let Hlt := fresh "Hlt" in
      pose proof (populate_vreg_status_nonpos d n o k0) as Hle;
      try (assert (Hlt := Hbad o k0));
      destruct (ufshcd_populate_vreg d n o k0) as [[? ?] ?] eqn:E;
      unfold status_of in Hle; cbn [fst snd] in Hle;
      match goal with
      | |- context [negb (?z =? 0)] =>
        let Ez := fresh "Ez" in
        destruct (Z.eqb_spec z 0) as [Ez|Ez]; cbn [negb];
        [ try subst z | unfold ret, status_of; cbn [fst snd]; lia ]
      | _ => idtac
      end
    end.
  unfold ret, status_of. cbn [fst snd].
  unfold vreg_roles in Hrole. cbn [In] in Hrole.
  destruct Hrole as [<-|[<-|[<-|[<-|[]]]]];
    repeat
      match goal with
      | Hb : forall out k0, status_of (ufshcd_populate_vreg _ ?n out k0) < 0,
        E : ufshcd_populate_vreg _ ?n ?o ?k0 = _ |- _ =>
        specialize (Hb o k0); rewrite E in Hb; unfold status_of in Hb;
        cbn [fst snd] in Hb
      end; lia.
Qed.

(** C3, amended: for every regulator role whose supply phandle is present
    and which is not flagged "<role>-fixed-regulator", the regulator parser
    fails whenever the "<role>-max-microamp" property cannot be read: the
    status of [ufshcd_populate_vreg] is negative and no descriptor is
    stored, and [ufshcd_parse_regulator_info], whose status aborts the
    probe, is negative too. *)
Theorem max_microamp_mandatory_unless_fixed hba np role k e :
  In role vreg_roles ->
  of_node (dev hba) = Some np ->
  of_parse_phandle np (prop_name role "-supply") 0 = true ->
  of_property_read_bool np (prop_name role "-fixed-regulator") = false ->
  of_property_read_u32 np (prop_name role "-max-microamp") = k_err e ->
  (forall out,
      status_of (ufshcd_populate_vreg (dev hba) role out k) < 0
      /\ value_of (ufshcd_populate_vreg (dev hba) role out k) = out)
  /\ status_of (ufshcd_parse_regulator_info hba k) < 0.
Proof.
  intros Hrole Hnp Hsup Hfix Hmax. split.
  - intro out. now apply populate_vreg_no_max_microamp with (np := np) (e := e).
  - now apply parse_regulator_info_fails with (np := np) (role := role) (e := e).
Qed.

(** The choice of the range for "vcc" when "vcc-supply-1p8" is set. *)
Lemma vreg_voltage_vcc_1p8 np vreg k :
  of_property_read_bool np "vcc-supply-1p8" = true ->
  vreg_voltage np "vcc" vreg k =
  (set_uV vreg UFS_VREG_VCC_1P8_MIN_UV UFS_VREG_VCC_1P8_MAX_UV, k).
Proof.
  intros H1p8. unfold vreg_voltage. cbn [String.eqb Ascii.eqb Bool.eqb].
  rewrite H1p8. reflexivity.
Qed.

(** C7, amended: for the "vcc" role with supply present, not flagged
    "vcc-fixed-regulator", and "vcc-supply-1p8" set, the descriptor the
    parser produces has the fixed 1.8V range, whatever "vcc-voltage-level"
    holds; it is produced whenever the descriptor can be allocated and
    "vcc-max-microamp" is present. *)
Theorem vcc_1p8_range_unless_fixed dev np out k :
  of_node dev = Some np ->
  of_parse_phandle np "vcc-supply" 0 = true ->
  of_property_read_bool np "vcc-fixed-regulator" = false ->
  of_property_read_bool np "vcc-supply-1p8" = true ->
  let r := ufshcd_populate_vreg dev "vcc" out k in
  (status_of r = 0 ->
   exists v, value_of r = Some v
             /\ uV_range v
                = (UFS_VREG_VCC_1P8_MIN_UV, UFS_VREG_VCC_1P8_MAX_UV))
  /\ (kmalloc_ok k (nr_allocs k) = true ->
      (exists m, of_property_read_u32 np "vcc-max-microamp" = k_ok m) ->
      status_of r = 0).
Proof.
  intros Hnp Hsup Hfix H1p8 r. subst r.
  destruct (kmalloc_ok k (nr_allocs k)) eqn:Hmem.
  - destruct (populate_vreg_supplied dev "vcc" out k Hnp Hsup Hmem)
      as (nm & k1 & _ & ->).
    change (prop_name "vcc" "-fixed-regulator") with "vcc-fixed-regulator".
    change (prop_name "vcc" "-max-microamp") with "vcc-max-microamp".
    rewrite Hfix.
    destruct (of_property_read_u32 np "vcc-max-microamp") as [m|e].
    + unfold bind. rewrite vreg_voltage_vcc_1p8 by assumption.
      split; [ | reflexivity ].
      intros _. eexists. split; reflexivity.
    + split.
      * cbn. intros Habs. discriminate Habs.
      * intros _ [m Hm]. discriminate Hm.
  - unfold status_of, value_of.
    rewrite (populate_vreg_nomem dev "vcc" out k Hnp Hsup Hmem).
    split.
    + cbn. intros Habs. discriminate Habs.
    + intros Habs. discriminate Habs.
Qed.

(** C10: for the "vcc" role with supply present and "vcc-supply-1p8" set,
    the descriptor the parser produces has its low-voltage-support flag
    false, whether or not "vcc-low-voltage-sup" is present; a descriptor is
    produced whenever it can be allocated and the role is fixed or has its
    "vcc-max-microamp". *)
Theorem vcc_1p8_low_voltage_sup_false dev np out k :
  of_node dev = Some np ->
  of_parse_phandle np "vcc-supply" 0 = true ->
  of_property_read_bool np "vcc-supply-1p8" = true ->
  let r := ufshcd_populate_vreg dev "vcc" out k in
  (status_of r = 0 ->
   exists v, value_of r = Some v /\ low_voltage_sup v = false)
  /\ (kmalloc_ok k (nr_allocs k) = true ->
      of_property_read_bool np "vcc-fixed-regulator" = true
      \/ (exists m, of_property_read_u32 np "vcc-max-microamp" = k_ok m) ->
      status_of r = 0).
Proof.
  intros Hnp Hsup H1p8 r. subst r.
  destruct (kmalloc_ok k (nr_allocs k)) eqn:Hmem.
  - destruct (populate_vreg_supplied dev "vcc" out k Hnp Hsup Hmem)
      as (nm & k1 & _ & ->).
    change (prop_name "vcc" "-fixed-regulator") with "vcc-fixed-regulator".
    change (prop_name "vcc" "-max-microamp") with "vcc-max-microamp".
    destruct (of_property_read_bool np "vcc-fixed-regulator").
    + split; [ | reflexivity ].
      intros _. eexists. split; reflexivity.
    + destruct (of_property_read_u32 np "vcc-max-microamp") as [m|e].
      * unfold bind. rewrite vreg_voltage_vcc_1p8 by assumption.
        split; [ | reflexivity ].
        intros _. eexists. split; [ reflexivity | ].
        destruct (of_property_read_u32 np (prop_name "vcc" "-min-microamp"));
          reflexivity.
      * split.
        -- cbn. intros Habs. discriminate Habs.
        -- intros _ [Habs|[m Hm]]; discriminate.
  - unfold status_of, value_of.
    rewrite (populate_vreg_nomem dev "vcc" out k Hnp Hsup Hmem).
    split.
    + cbn. intros Habs. discriminate Habs.
    + intros Habs. discriminate Habs.
Qed.

(** C8, amended: for the "vcc" role with supply present, not flagged
    "vcc-fixed-regulator", "vcc-max-microamp" present, "vcc-supply-1p8"
    unset and a "vcc-voltage-level" property whose length is not that of
    two cells, the regulator parser, when it can allocate the descriptor,
    does not fail: it logs one warning and the range of the descriptor is
    the default vcc range. *)
Theorem vcc_bad_voltage_level_defaults dev np out k m prop :
  of_node dev = Some np ->
  of_parse_phandle np "vcc-supply" 0 = true ->
  of_property_read_bool np "vcc-fixed-regulator" = false ->
  of_property_read_u32 np "vcc-max-microamp" = k_ok m ->
  of_property_read_bool np "vcc-supply-1p8" = false ->
  of_get_property np "vcc-voltage-level" = Some prop ->
  Z.of_nat (List.length prop) <> 8 ->
  kmalloc_ok k (nr_allocs k) = true ->
  let r := ufshcd_populate_vreg dev "vcc" out k in
  status_of r = 0
  /\ (exists v, value_of r = Some v
                /\ uV_range v = (UFS_VREG_VCC_MIN_UV, UFS_VREG_VCC_MAX_UV))
  /\ dmesg (kernel_of r) = (dmesg k ++ [vcc_level_warning])%list.
Proof.
  intros Hnp Hsup Hfix Hmax H1p8 Hprop Hlen Hmem r. subst r.
  destruct (populate_vreg_supplied dev "vcc" out k Hnp Hsup Hmem)
    as (nm & k1 & Hlog & ->).
  change (prop_name "vcc" "-fixed-regulator") with "vcc-fixed-regulator".
  change (prop_name "vcc" "-max-microamp") with "vcc-max-microamp".
  rewrite Hfix, Hmax.
  unfold bind, vreg_voltage. cbn [String.eqb Ascii.eqb Bool.eqb].
  rewrite H1p8. unfold bind, voltage_level. rewrite Hprop.
  destruct (Z.eqb_spec (Z.of_nat (List.length prop)) (2 * 4)) as [E|_];
    [ exfalso; apply Hlen; exact E | ].
  cbn [negb]. unfold bind, dev_warn, printk, ret.
  destruct (of_property_read_bool np "vcc-low-voltage-sup");
    (split; [ reflexivity | split; [ eexists; split; reflexivity | ] ]);
    unfold kernel_of; cbn [snd dmesg]; rewrite Hlog; reflexivity.
Qed.

End Regulators.

(** C3, as stated, fails on a fixed regulator: "vcc-supply" is present,
    "vcc-max-microamp" is absent, and the parser succeeds with a descriptor
    that has a name and nothing else. *)
Lemma fixed_regulator_without_max_microamp :
  of_parse_phandle (node_of_dt dt_vcc_fixed) "vcc-supply" 0 = true
  /\ of_property_read_u32 (node_of_dt dt_vcc_fixed) "vcc-max-microamp"
     = k_err 22%positive
  /\ fst (ufshcd_populate_vreg (H := linux_headers) (dev_plain dt_vcc_fixed)
            "vcc" None kernel_boot)
     = (0, Some (set_vreg_name vreg_zero (Some "vcc"))).
Proof. repeat split. Qed.

Lemma max_microamp_mandatory_unless_fixed_witness :
  (forall out,
      status_of (ufshcd_populate_vreg (H := linux_headers)
                   (dev_plain dt_vcc_bad_level_no_max) "vcc" out kernel_boot)
      < 0
      /\ value_of (ufshcd_populate_vreg (H := linux_headers)
                     (dev_plain dt_vcc_bad_level_no_max) "vcc" out
                     kernel_boot) = out)
  /\ status_of (ufshcd_parse_regulator_info (H := linux_headers)
                  (hba_zero (dev_plain dt_vcc_bad_level_no_max)) kernel_boot)
     < 0.
Proof.
  apply (max_microamp_mandatory_unless_fixed (H := linux_headers)
           (hba_zero (dev_plain dt_vcc_bad_level_no_max))
           (np := node_of_dt dt_vcc_bad_level_no_max) (role := "vcc")
           kernel_boot (e := 22%positive)).
  - right. left. reflexivity.
  - reflexivity.
  - reflexivity.
  - reflexivity.
  - reflexivity.
Defined.

(** C7, as stated, fails on a fixed regulator: "vcc-supply" is present and
    "vcc-supply-1p8" is set, the parser succeeds, and the range of the
    descriptor is the zeroed one, not the 1.8V range. *)
Lemma fixed_regulator_1p8_range_is_zero :
  of_parse_phandle (node_of_dt dt_vcc_fixed_1p8) "vcc-supply" 0 = true
  /\ of_property_read_bool (node_of_dt dt_vcc_fixed_1p8) "vcc-supply-1p8"
     = true
  /\ (exists v,
         fst (ufshcd_populate_vreg (H := linux_headers)
                (dev_plain dt_vcc_fixed_1p8) "vcc" None kernel_boot)
         = (0, Some v)
         /\ uV_range v = (0, 0)
         /\ uV_range v
            <> (UFS_VREG_VCC_1P8_MIN_UV (kernel_headers := linux_headers),
                UFS_VREG_VCC_1P8_MAX_UV (kernel_headers := linux_headers))).
Proof.
  split; [ reflexivity | ]. split; [ reflexivity | ].
  eexists. split; [ reflexivity | ]. split; [ reflexivity | ].
  cbn. intros Habs. discriminate Habs.
Qed.

Lemma vcc_1p8_range_unless_fixed_witness :
  status_of (ufshcd_populate_vreg (H := linux_headers)
               (dev_plain dt_vcc_1p8) "vcc" None kernel_boot) = 0
  /\ exists v,
      value_of (ufshcd_populate_vreg (H := linux_headers)
                  (dev_plain dt_vcc_1p8) "vcc" None kernel_boot) = Some v
      /\ uV_range v = (1700000, 1950000).
Proof.
  destruct (vcc_1p8_range_unless_fixed (H := linux_headers)
              (dev_plain dt_vcc_1p8) (np := node_of_dt dt_vcc_1p8) None
              kernel_boot eq_refl eq_refl eq_refl eq_refl)
    as [Hrange Hok].
  assert (Hst := Hok eq_refl (ex_intro _ 500000 eq_refl)).
  split; [ exact Hst | exact (Hrange Hst) ].
Defined.

(** C8, as stated, fails in two ways on a "vcc-voltage-level" of one cell:
    without "vcc-max-microamp" the parser fails with [-EINVAL], and on a
    fixed regulator it succeeds with the zeroed range, not the default
    one. *)
Lemma bad_voltage_level_fails_or_stays_zero :
  (of_parse_phandle (node_of_dt dt_vcc_bad_level_no_max) "vcc-supply" 0
   = true
   /\ of_property_read_bool (node_of_dt dt_vcc_bad_level_no_max)
        "vcc-supply-1p8" = false
   /\ option_map (@List.length Byte.byte)
        (of_get_property (node_of_dt dt_vcc_bad_level_no_max)
           "vcc-voltage-level") = Some 4%nat
   /\ fst (ufshcd_populate_vreg (H := linux_headers)
             (dev_plain dt_vcc_bad_level_no_max) "vcc" None kernel_boot)
      = (-22, None))
  /\ (of_parse_phandle (node_of_dt dt_vcc_bad_level_fixed) "vcc-supply" 0
      = true
      /\ of_property_read_bool (node_of_dt dt_vcc_bad_level_fixed)
           "vcc-supply-1p8" = false
      /\ option_map (@List.length Byte.byte)
           (of_get_property (node_of_dt dt_vcc_bad_level_fixed)
              "vcc-voltage-level") = Some 4%nat
      /\ exists v,
          fst (ufshcd_populate_vreg (H := linux_headers)
                 (dev_plain dt_vcc_bad_level_fixed) "vcc" None kernel_boot)
          = (0, Some v)
          /\ uV_range v = (0, 0)
          /\ uV_range v
             <> (UFS_VREG_VCC_MIN_UV (kernel_headers := linux_headers),
                 UFS_VREG_VCC_MAX_UV (kernel_headers := linux_headers))).
Proof.
  split.
  - repeat split.
  - split; [ reflexivity | ]. split; [ reflexivity | ].
    split; [ reflexivity | ].
    eexists. split; [ reflexivity | ]. split; [ reflexivity | ].
    cbn. intros Habs. discriminate Habs.
Qed.

Lemma vcc_bad_voltage_level_defaults_witness :
  status_of (ufshcd_populate_vreg (H := linux_headers)
               (dev_plain dt_vcc_bad_level) "vcc" None kernel_boot) = 0
  /\ (exists v,
         value_of (ufshcd_populate_vreg (H := linux_headers)
                     (dev_plain dt_vcc_bad_level) "vcc" None kernel_boot)
         = Some v
         /\ uV_range v = (2700000, 3600000))
  /\ dmesg (kernel_of (ufshcd_populate_vreg (H := linux_headers)
                         (dev_plain dt_vcc_bad_level) "vcc" None
                         kernel_boot))
     = [vcc_level_warning].
Proof.
  apply (vcc_bad_voltage_level_defaults (H := linux_headers)
           (dev_plain dt_vcc_bad_level) (np := node_of_dt dt_vcc_bad_level)
           None kernel_boot (m := 500000)
           (prop := be32_bytes 2700000)).
  - reflexivity.
  - reflexivity.
  - reflexivity.
  - reflexivity.
  - reflexivity.
  - reflexivity.
  - cbn. lia.
  - reflexivity.
Defined.

Lemma vcc_1p8_low_voltage_sup_false_witness :
  of_property_read_bool (node_of_dt dt_vcc_1p8) "vcc-low-voltage-sup" = true
  /\ status_of (ufshcd_populate_vreg (H := linux_headers)
                  (dev_plain dt_vcc_1p8) "vcc" None kernel_boot) = 0
  /\ exists v,
      value_of (ufshcd_populate_vreg (H := linux_headers)
                  (dev_plain dt_vcc_1p8) "vcc" None kernel_boot) = Some v
      /\ low_voltage_sup v = false.
Proof.
  destruct (vcc_1p8_low_voltage_sup_false (H := linux_headers)
              (dev_plain dt_vcc_1p8) (np := node_of_dt dt_vcc_1p8) None
              kernel_boot eq_refl eq_refl eq_refl)
    as [Hflag Hok].
  assert (Hst := Hok eq_refl (or_intror (ex_intro _ 500000 eq_refl))).
  split; [ reflexivity | ]. split; [ exact Hst | exact (Hflag Hst) ].
Defined.

(** ** The reference clock frequency *)

Section Scalars.

Context {H : kernel_headers}.

(** C9: for every hardware description in which "dev-ref-clk-freq" is
    absent or outside the enumerated range, the parser sets the frequency
    of the adapter to the fixed default [REF_CLK_FREQ_26_MHZ]; as the
    default is itself in the range, the out-of-range value read is never
    the one kept. *)
Theorem dev_ref_clk_freq_defaults hba np :
  of_node (dev hba) = Some np ->
  dev_ref_clk_freq_invalid np ->
  dev_ref_clk_freq (ufshcd_parse_dev_ref_clk_freq hba) = REF_CLK_FREQ_26_MHZ
  /\ (0 <= REF_CLK_FREQ_26_MHZ <= REF_CLK_FREQ_52_MHZ ->
      forall v, of_property_read_u32 np "dev-ref-clk-freq" = k_ok v ->
                dev_ref_clk_freq (ufshcd_parse_dev_ref_clk_freq hba) <> v).
Proof.
  intros Hnp Hbad.
  unfold dev_ref_clk_freq_invalid in Hbad.
  unfold ufshcd_parse_dev_ref_clk_freq. rewrite Hnp.
  destruct (of_property_read_u32 np "dev-ref-clk-freq") as [v|e].
  - cbn [k_status Z.eqb negb orb].
    replace (dev_ref_clk_freq (set_dev_ref_clk_freq hba v)) with v
      by reflexivity.
    assert (Htest : (v <? 0) || (v >? REF_CLK_FREQ_52_MHZ) = true).
    { destruct Hbad as [Hneg|Hbig].
      - apply orb_true_iff. left. now apply Z.ltb_lt.
      - apply orb_true_iff. right. apply Z.gtb_lt. exact Hbig. }
    rewrite Htest. cbn [dev_ref_clk_freq set_dev_ref_clk_freq].
    split; [ reflexivity | ].
    intros Hrange w Hw. injection Hw as <-. lia.
  - cbn. split; [ reflexivity | ].
    intros _ w Hw. discriminate Hw.
Qed.

End Scalars.

Lemma dev_ref_clk_freq_defaults_witness :
  of_property_read_u32 (node_of_dt dt_ref_999) "dev-ref-clk-freq" = k_ok 999
  /\ dev_ref_clk_freq
       (ufshcd_parse_dev_ref_clk_freq (H := linux_headers)
          (hba_zero (dev_plain dt_ref_999))) = 1
  /\ dev_ref_clk_freq
       (ufshcd_parse_dev_ref_clk_freq (H := linux_headers)
          (hba_zero (dev_plain dt_ref_999))) <> 999.
Proof.
  destruct (dev_ref_clk_freq_defaults (H := linux_headers)
              (hba_zero (dev_plain dt_ref_999))
              (np := node_of_dt dt_ref_999) eq_refl
              (or_intror (eq_refl : (3 ?= 999) = Lt)))
    as [Hdef Hne].
  split; [ reflexivity | ]. split; [ exact Hdef | ].
  apply Hne; [ cbn; lia | reflexivity ].
Defined.

(** ** The clock parser *)

Section Clocks.

Context {H : kernel_headers}.

(** [2 * cnt] in [int] arithmetic, converted to [size_t], is [2 * cnt]
    when this fits an [int]. *)
Lemma twice_cnt_exact cnt :
  0 <= cnt -> 2 * cnt <= INT_MAX ->
  size_t_of_int (int_wrap (2 * cnt)) = 2 * cnt.
Proof.
  unfold size_t_of_int, int_wrap, INT_MAX. intros Hlo Hhi.
  rewrite (Z.mod_small (2 * cnt + 2 ^ 31)) by lia.
  rewrite Z.mod_small by lia. lia.
Qed.


Lemma kmalloc_all_ok k :
  all_allocs_ok k ->
  exists k', kmalloc k = (true, k') /\ all_allocs_ok k'
             /\ dmesg k' = dmesg k.
Proof.
  intros Hok. unfold kmalloc. rewrite Hok.
  eexists. split; [ reflexivity | ]. split; [ exact Hok | reflexivity ].
Qed.

Lemma skipn_cons_nth {A} (d : A) (l : list A) (j : nat) :
  (j < List.length l)%nat -> skipn j l = nth j l d :: skipn (S j) l.
Proof.
  revert j. induction l as [|a l IH]; intros j Hj; cbn in Hj; [ lia | ].
  destruct j as [|j]; [ reflexivity | ].
  cbn [skipn nth]. apply IH. lia.
Qed.

Lemma clock_descriptors_length names : forall freqs,
  List.length freqs = (2 * List.length names)%nat ->
  List.length (clock_descriptors names freqs) = List.length names.
Proof.
  induction names as [|n names IH]; intros freqs Hlen; [ reflexivity | ].
  destruct freqs as [|lo [|hi freqs]]; cbn in Hlen; try lia.
  cbn. f_equal. apply IH. lia.
Qed.

(** The loop from the clock number [j] on: it appends the descriptors of
    the clocks that are left. *)
Lemma clock_loop_appends np names freqs :
  (forall i : nat, (i < List.length names)%nat ->
      of_property_read_string_index np "clock-names" (Z.of_nat i)
      = k_ok (nth i names "")) ->
  List.length freqs = (2 * List.length names)%nat ->
  forall m j fuel ret_ hba k,
    (j + m = List.length names)%nat -> (m <= fuel)%nat ->
    all_allocs_ok k ->
    let r := clock_loop np freqs (Z.of_nat (List.length freqs)) fuel
               (2 * Z.of_nat j) ret_ hba k in
    status_of r = match m with O => ret_ | S _ => 0 end
    /\ clk_list_head (value_of r)
       = (clk_list_head hba
          ++ clock_descriptors (skipn j names) (skipn (2 * j) freqs))%list.
Proof.
  intros Hnames Hlen.
  induction m as [|m IH]; intros j fuel ret_ hba k Hj Hfuel Hok r; subst r.
  - assert (Hstop : (2 * Z.of_nat j <? Z.of_nat (List.length freqs)) = false)
      by (apply Z.ltb_ge; lia).
    replace (skipn j names) with (@nil string)
      by (symmetry; apply skipn_all2; lia).
    cbn [clock_descriptors]. rewrite app_nil_r.
    destruct fuel as [|fuel]; cbn [clock_loop]; [ | rewrite Hstop ];
      split; reflexivity.
  - destruct fuel as [|fuel]; [ lia | ].
    assert (Hstep : exists k3,
               all_allocs_ok k3 /\
               clock_loop np freqs (Z.of_nat (List.length freqs)) (S fuel)
                 (2 * Z.of_nat j) ret_ hba k
               = clock_loop np freqs (Z.of_nat (List.length freqs)) fuel
                   (2 * Z.of_nat (S j)) 0
                   (set_clk_list_head hba
                      (clk_list_head hba
                       ++ [{| clk_name := Some (nth j names "");
                              min_freq := nth (2 * j) freqs 0;
                              max_freq := nth (S (2 * j)) freqs 0 |}]))
                   k3).
    { cbn [clock_loop].
      assert (Hgo : (2 * Z.of_nat j <? Z.of_nat (List.length freqs)) = true)
        by (apply Z.ltb_lt; lia).
      rewrite Hgo.
      replace (2 * Z.of_nat j / 2) with (Z.of_nat j)
        by (rewrite Z.mul_comm, Z.div_mul; lia).
      rewrite Hnames by lia.
      unfold bind at 1.
      destruct (kmalloc_all_ok Hok) as (k1 & -> & Hok1 & _).
      cbn [negb]. unfold bind at 1. unfold kstrdup. unfold bind at 1.
      destruct (kmalloc_all_ok Hok1) as (k2 & -> & Hok2 & _).
      unfold ret at 1. unfold bind at 1. unfold dev_dbg, printk.
      unfold clkfreq_at.
      replace (Z.to_nat (2 * Z.of_nat j)) with (2 * j)%nat by lia.
      replace (Z.to_nat (2 * Z.of_nat j + 1)) with (S (2 * j)) by lia.
      replace (2 * Z.of_nat j + 2) with (2 * Z.of_nat (S j)) by lia.
      eexists. split; [ | reflexivity ]. exact Hok2. }
    destruct Hstep as (k3 & Hok3 & ->).
    match goal with
    | |- context [clock_loop _ _ _ fuel _ 0 ?h k3] =>
      destruct (IH (S j) fuel 0 h k3 ltac:(lia) ltac:(lia) Hok3)
        as [Hst Hlist]
    end.
    split.
    + rewrite Hst. destruct m; reflexivity.
    + rewrite Hlist. cbn [clk_list_head set_clk_list_head].
      rewrite <- app_assoc. f_equal. cbn [app].
      rewrite (skipn_cons_nth "" names (j := j)) by lia.
      rewrite (skipn_cons_nth 0 freqs (j := 2 * j)) by lia.
      rewrite (skipn_cons_nth 0 freqs (j := S (2 * j))) by lia.
      cbn [clock_descriptors].
      replace (S (S (2 * j))) with (2 * S j)%nat by lia.
      reflexivity.
Qed.

(** The parser when a positive count of names was read. *)
Lemma parse_clock_info_counted hba np k :
  of_node (dev hba) = Some np ->
  0 < of_property_count_strings np "clock-names" ->
  ufshcd_parse_clock_info hba k
  = parse_freq_table np (of_property_count_strings np "clock-names") 0 hba k.
Proof.
  intros Hnp Hcnt. unfold ufshcd_parse_clock_info. rewrite Hnp.
  set (cnt := of_property_count_strings np "clock-names") in *.
  assert (E0 : (cnt =? 0) = false) by (apply Z.eqb_neq; lia).
  assert (E1 : (cnt =? Z.neg EINVAL) = false) by (apply Z.eqb_neq; lia).
  assert (E2 : (cnt <? 0) = false) by (apply Z.ltb_ge; lia).
  assert (E3 : (cnt <=? 0) = false) by (apply Z.leb_gt; lia).
  rewrite E0, E1, E2. cbn [orb]. unfold bind, ret. rewrite E3. reflexivity.
Qed.

(** C5: for every well-formed hardware description whose frequency array
    has twice as many cells as there are clock names, the clock parser
    (in a kernel that can allocate) succeeds and appends to the clock list
    of the adapter one descriptor per declared name, in declaration order,
    each with the (min, max) pair of its rank in the flat array. *)
Theorem parse_clock_info_well_formed hba np names freqs k :
  of_node (dev hba) = Some np ->
  clocks_described np names freqs ->
  List.length freqs = (2 * List.length names)%nat ->
  all_allocs_ok k ->
  let r := ufshcd_parse_clock_info hba k in
  status_of r = 0
  /\ clk_list_head (value_of r)
     = (clk_list_head hba ++ clock_descriptors names freqs)%list
  /\ List.length (clock_descriptors names freqs) = List.length names.
Proof.
  intros Hnp (Hcnt & Hnames & Hfreqs) Hlen Hok r. subst r.
  rewrite <- and_assoc.
  split; [ | now apply clock_descriptors_length ].
  destruct names as [|n names].
  - unfold ufshcd_parse_clock_info. rewrite Hnp.
    assert (Hz : (of_property_count_strings np "clock-names" =? 0)
                 || (of_property_count_strings np "clock-names"
                     =? Z.neg EINVAL) = true).
    { apply orb_true_iff.
      destruct Hcnt as [E|[_ E]]; rewrite E; [ left | right ];
        apply Z.eqb_refl. }
    rewrite Hz. unfold bind, dev_info, printk, ret.
    assert (Hle : (of_property_count_strings np "clock-names" <=? 0) = true).
    { apply Z.leb_le. destruct Hcnt as [E|[_ E]]; rewrite E; cbn; lia. }
    rewrite Hle. cbn. now rewrite app_nil_r.
  - destruct Hcnt as [Hcnt|[Habs _]]; [ | discriminate Habs ].
    rewrite (parse_clock_info_counted hba k Hnp) by (rewrite Hcnt; cbn; lia).
    destruct Hfreqs as ((prop & Hprop & Hbytes & Hint) & Harr).
    { intros ->. cbn in Hlen. lia. }
    assert (Hrun : exists k1,
               all_allocs_ok k1 /\
               parse_freq_table np
                 (of_property_count_strings np "clock-names") 0 hba k
               = clock_loop np freqs (Z.of_nat (List.length freqs))
                   (Z.to_nat (Z.of_nat (List.length freqs)))
                   (2 * Z.of_nat 0) 0 hba k1).
    { unfold parse_freq_table. rewrite Hprop, Hcnt, Hbytes.
      assert (E1 : (4 * Z.of_nat (List.length freqs) <=? 0) = false)
        by (apply Z.leb_gt; cbn in Hlen; lia).
      rewrite E1.
      replace (4 * Z.of_nat (List.length freqs) / 4)
        with (Z.of_nat (List.length freqs))
        by (rewrite Z.mul_comm, Z.div_mul; lia).
      rewrite twice_cnt_exact by lia.
      assert (E2 : (Z.of_nat (List.length freqs)
                    =? 2 * Z.of_nat (List.length (n :: names))) = true)
        by (apply Z.eqb_eq; lia).
      rewrite E2. cbn [negb]. unfold bind at 1.
      destruct (kmalloc_all_ok Hok) as (k1 & -> & Hok1 & _).
      cbn [negb]. rewrite Harr. cbn [k_status Z.eqb negb andb].
      exists k1. split; [ exact Hok1 | reflexivity ]. }
    destruct Hrun as (k1 & Hok1 & ->).
    apply (@clock_loop_appends np (n :: names) freqs Hnames Hlen
             (List.length (n :: names)) 0%nat
             (Z.to_nat (Z.of_nat (List.length freqs))) 0 hba k1
             eq_refl ltac:(lia) Hok1).
Qed.


End Clocks.

Lemma parse_clock_info_well_formed_witness :
  status_of (ufshcd_parse_clock_info (H := linux_headers)
               (hba_zero dev_ref_clk) kernel_boot) = 0
  /\ clk_list_head
       (value_of (ufshcd_parse_clock_info (H := linux_headers)
                    (hba_zero dev_ref_clk) kernel_boot))
     = [ {| clk_name := Some "ref_clk"; min_freq := 100000;
            max_freq := 200000 |} ]
  /\ List.length (clock_descriptors ["ref_clk"] [100000; 200000]) = 1%nat.
Proof.
  apply (parse_clock_info_well_formed (H := linux_headers)
           (hba_zero dev_ref_clk) (np := node_of_dt dt_ref_clk)
           (names := ["ref_clk"]) (freqs := [100000; 200000])
           (k := kernel_boot)).
  - reflexivity.
  - split; [ left; reflexivity | ]. split.
    + intros i Hi. destruct i as [|i]; [ reflexivity | cbn in Hi; lia ].
    + intros _. split; [ | reflexivity ].
      eexists. split; [ reflexivity | ]. split; [ reflexivity | ].
      cbn. unfold INT_MAX. lia.
  - reflexivity.
  - intros n. reflexivity.
Defined.



(** ** Running the monad step by step *)

Lemma bind_eq {A B} (m : M A) (f : A -> M B) k :
  bind m f k = f (fst (m k)) (snd (m k)).
Proof. unfold bind. destruct (m k). reflexivity. Qed.

Lemma ret_eq {A} (a : A) k : ret a k = (a, k).
Proof. reflexivity. Qed.

Lemma get_eq {A} (f : kernel -> A) k : get f k = (f k, k).
Proof. reflexivity. Qed.

Lemma calls_log_call c s k :
  calls (snd (log_call c s k)) = (calls k ++ [(c, s)])%list.
Proof. reflexivity. Qed.

Lemma hosts_log_call c s k : hosts (snd (log_call c s k)) = hosts k.
Proof. reflexivity. Qed.

Lemma driver_data_log_call c s k :
  driver_data (snd (log_call c s k)) = driver_data k.
Proof. reflexivity. Qed.

Lemma calls_printk l f a k : calls (snd (printk l f a k)) = calls k.
Proof. reflexivity. Qed.

Lemma hosts_printk l f a k : hosts (snd (printk l f a k)) = hosts k.
Proof. reflexivity. Qed.

Lemma driver_data_printk l f a k :
  driver_data (snd (printk l f a k)) = driver_data k.
Proof. reflexivity. Qed.

Lemma calls_set_hosts n k : calls (snd (set_hosts n k)) = calls k.
Proof. reflexivity. Qed.

Lemma hosts_set_hosts n k : hosts (snd (set_hosts n k)) = n.
Proof. reflexivity. Qed.

Lemma driver_data_set_hosts n k :
  driver_data (snd (set_hosts n k)) = driver_data k.
Proof. reflexivity. Qed.

Create Rewrite HintDb kernel.

#[local] Hint Rewrite calls_log_call hosts_log_call driver_data_log_call
  calls_printk hosts_printk driver_data_printk
  calls_set_hosts hosts_set_hosts driver_data_set_hosts : kernel.

(** One [bind] of the goal, run. *)
Ltac step :=
  rewrite bind_eq; cbv beta iota; rewrite ?ret_eq, ?get_eq; cbn [fst snd].

(** The projections of a state reached through logging. *)
Ltac logged :=
  unfold dev_err, dev_dbg, dev_info, dev_warn;
  rewrite ?ret_eq; cbn [fst snd]; autorewrite with kernel.

(** ** The probe *)

Section Probe.

Context {H : kernel_headers}.

Variable core : ufshcd_core.
Variable mmio_base : kptr iomem.
Variable irq : Z.

(** The end of the probe, from the external connector on. *)
Lemma extcon_stage hba k c0 pin :
  calls k = (c0 ++ calls_to_extcon pin)%list -> pin <= 0 ->
  exists o,
    host_result o c0 k (snd (pltfrm_init_extcon core mmio_base irq hba k))
      (fst (pltfrm_init_extcon core mmio_base irq hba k)).
Proof.
  intros Hcalls Hpin. unfold pltfrm_init_extcon.
  pose proof (extcon_info_nonpos hba) as Hext.
  destruct (ufshcd_parse_extcon_info hba) as [err hba1].
  unfold nonpos_status in Hext. cbn [fst] in Hext.
  destruct (Z.eqb_spec err 0) as [->|Hne]; cbn [negb].
  - unfold bind, log_call, get.
    assert (Hlanes : forall K,
               exists hba2 k2,
                 ufshcd_init_lanes_per_dir hba1 K = (hba2, k2)
                 /\ same_bindings K k2).
    { intros K. destruct (parses_init_lanes_per_dir hba1 K) as [_ HK].
      destruct (ufshcd_init_lanes_per_dir hba1 K) as [hba2 k2].
      exists hba2, k2. split; [ reflexivity | exact HK ]. }
    destruct (dma_mask k); unfold set_dma_mask, ret;
      cbn -[ufshcd_init_lanes_per_dir];
      match goal with
      | |- context [ufshcd_init_lanes_per_dir hba1 ?K] =>
        destruct (Hlanes K) as (hba2 & k2 & -> & Hc & Hh & Hd & _)
      end;
      cbn in Hc, Hh, Hd;
      (destruct (ufshcd_init core hba2 mmio_base irq) as [[]|e];
       cbn [k_status Z.eqb negb];
       [ exists (attached pin hba2) | exists (init_failed pin (Z.neg e)) ];
       unfold host_result, set_driver_data, dev_err, printk, dealloc_host,
         bind, get, set_hosts, log_call, ret;
       cbn; rewrite ?Hc, ?Hh, ?Hd, Hcalls, <- !app_assoc;
       repeat split; try lia; reflexivity).
  - exists (extcon_failed pin err).
    unfold host_result, bind, log_call, dealloc_host, bind, get, set_hosts,
      log_call, ret.
    cbn. rewrite Hcalls. rewrite <- !app_assoc.
    repeat split; try lia; reflexivity.
Qed.

(** [host_result] looks at the adapter count and the driver data of the
    start state only. *)
Lemma host_result_from o c0 k0 k k' err :
  hosts k = hosts k0 -> driver_data k = driver_data k0 ->
  host_result o c0 k k' err -> host_result o c0 k0 k' err.
Proof.
  unfold host_result. intros -> ->. exact (fun x => x).
Qed.

(** The probe from the reset line on. *)
Lemma reset_stage hba k c0 :
  calls k = (c0 ++ calls_to_reset)%list ->
  exists o,
    host_result o c0 k (snd (pltfrm_init_reset core mmio_base irq hba k))
      (fst (pltfrm_init_reset core mmio_base irq hba k))
    /\ (forall e, devm_reset_control_get (dev hba) "core_reset" = ERR_PTR e ->
                  o = reset_failed (Z.neg e)).
Proof.
  intros Hcalls. unfold pltfrm_init_reset, ufshcd_parse_reset_info.
  destruct (devm_reset_control_get (dev hba) "core_reset") as [|h|e] eqn:Hrst;
    cbn [IS_ERR PTR_ERR handle_of].
  3: { exists (reset_failed (Z.neg e)). split.
       - unfold dealloc_host. repeat step. cbn [Z.eqb negb]. repeat step.
         unfold host_result. cbn [host_valid host_status host_calls
                                    is_attached calls_to_reset].
         logged. rewrite Hcalls, <- !app_assoc.
         repeat split; try lia; reflexivity.
       - intros e' He'. injection He' as ->. reflexivity. }
  all: repeat step; cbn [Z.eqb negb];
    match goal with
    | |- context [ufshcd_parse_pinctrl_info ?h] =>
      pose proof (pinctrl_info_nonpos h) as Hpin;
      destruct (ufshcd_parse_pinctrl_info h) as [pin hba2]
    end;
    unfold nonpos_status in Hpin; cbn [fst] in Hpin;
    repeat step;
    match goal with
    | |- context [pltfrm_init_extcon core mmio_base irq ?h ?K] =>
      destruct (@extcon_stage h K c0 pin) as [o Ho];
      [ destruct (negb (pin =? 0)); logged; rewrite Hcalls;
        unfold calls_to_extcon; rewrite <- !app_assoc; reflexivity
      | exact Hpin
      | exists o; split;
        [ eapply host_result_from; [ | | exact Ho ];
          destruct (negb (pin =? 0)); logged; reflexivity
        | intros e' He'; discriminate He' ] ]
    end.
Qed.

(** The probe once the adapter is allocated. *)
Lemma host_stage var hba k :
  exists o,
    host_result o (calls k) k
      (snd (pltfrm_init_host core mmio_base irq var hba k))
      (fst (pltfrm_init_host core mmio_base irq var hba k))
    /\ (forall e, devm_reset_control_get (dev hba) "core_reset" = ERR_PTR e ->
                  stops_by_reset o e).
Proof.
  unfold pltfrm_init_host. step.
  destruct (parses_clock_info (set_var hba (Some var)) k)
    as [[Herr1 Hdev1] (Hc1 & Hh1 & Hd1 & _)].
  destruct (ufshcd_parse_clock_info (set_var hba (Some var)) k)
    as [[err1 hba1] k1].
  cbn [fst snd] in *. step.
  destruct (Z.eqb_spec err1 0) as [->|Hne1]; cbn [negb].
  2: { exists (clock_failed err1). split; [ | intros; exact I ].
       unfold dealloc_host. repeat step.
       unfold host_result. cbn [host_valid host_status host_calls
                                  is_attached].
       logged. rewrite Hc1, Hh1, Hd1, <- ?app_assoc.
       repeat split; try lia; reflexivity. }
  step.
  match goal with
  | |- context [ufshcd_parse_regulator_info hba1 ?K] =>
    destruct (parses_regulator_info hba1 K)
      as [[Herr2 Hdev2] (Hc2 & Hh2 & Hd2 & _)];
    destruct (ufshcd_parse_regulator_info hba1 K) as [[err2 hba2] k2]
  end.
  cbn [fst snd] in *. autorewrite with kernel in Hc2, Hh2, Hd2. step.
  destruct (Z.eqb_spec err2 0) as [->|Hne2]; cbn [negb].
  2: { exists (regulator_failed err2). split; [ | intros; exact I ].
       unfold dealloc_host. repeat step.
       unfold host_result. cbn [host_valid host_status host_calls
                                  is_attached].
       logged. rewrite Hc2, Hh2, Hd2, Hc1, Hh1, Hd1, <- ?app_assoc.
       repeat split; try lia; reflexivity. }
  match goal with
  | |- context [pltfrm_init_reset core mmio_base irq hba2 ?K] =>
    destruct (@reset_stage hba2 K (calls k)) as (o & Ho & Hrst)
  end.
  { logged. rewrite Hc2, Hc1, <- app_assoc. reflexivity. }
  exists o. split.
  - eapply host_result_from; [ | | exact Ho ]; logged; congruence.
  - intros e He. rewrite (Hrst e); [ reflexivity | ].
    rewrite Hdev2, Hdev1. exact He.
Qed.

End Probe.

Section Outcome.

Context {H : kernel_headers}.

Variable core : ufshcd_core.

(** Every run of the probe ends in one of the outcomes. *)
Lemma probe_outcome pdev var k :
  exists o,
    outcome_valid o
    /\ fst (ufshcd_pltfrm_init core pdev var k) = outcome_status o
    /\ calls (snd (ufshcd_pltfrm_init core pdev var k))
       = (calls k ++ outcome_calls o)%list
    /\ hosts (snd (ufshcd_pltfrm_init core pdev var k))
       = match published o with
         | Some _ => S (hosts k)
         | None => hosts k
         end
    /\ driver_data (snd (ufshcd_pltfrm_init core pdev var k))
       = match published o with
         | Some hba => Some hba
         | None => driver_data k
         end
    /\ (forall hba e,
           ufshcd_alloc_host core (pdev_dev pdev) = k_ok hba ->
           devm_reset_control_get (dev hba) "core_reset" = ERR_PTR e ->
           stops_before_pinctrl o e).
Proof.
  unfold ufshcd_pltfrm_init.
  destruct (devm_ioremap_resource (pdev_dev pdev)
              (platform_get_resource_mem pdev 0)) as [|m|e] eqn:Hmap;
    cbn [IS_ERR PTR_ERR].
  3: { exists (ioremap_failed e). step. logged.
       cbn [outcome_valid outcome_status outcome_calls published].
       repeat split; reflexivity. }
  all: step; step;
    (destruct (Z.ltb_spec (platform_get_irq pdev 0) 0) as [Hirq|Hirq];
     [ exists (irq_failed (platform_get_irq pdev 0)); step; logged;
       cbn [outcome_valid outcome_status outcome_calls published];
       rewrite <- ?app_assoc; repeat split; try assumption; reflexivity
     | ]);
    step;
    (destruct (ufshcd_alloc_host core (pdev_dev pdev)) as [hba|e] eqn:Halloc;
     [ | exists (alloc_failed (platform_get_irq pdev 0) e); step; logged;
         cbn [outcome_valid outcome_status outcome_calls published k_status];
         rewrite <- ?app_assoc;
         repeat split; try assumption; try reflexivity;
         intros ? ? Habs; discriminate Habs ]);
    step; step;
    match goal with
    | |- context [pltfrm_init_host core ?mm ?iq ?v ?h ?K] =>
      destruct (@host_stage H core mm iq v h K) as (o & Ho & Hrst)
    end;
    unfold host_result in Ho; destruct Ho as (Hv & Hs & Hc & Hh & Hd);
    exists (host_allocated (platform_get_irq pdev 0) o);
    rewrite Hc, Hh, Hd;
    cbn [outcome_valid outcome_status outcome_calls published k_status];
    logged;
    rewrite <- ?app_assoc;
    (repeat split; try assumption; try reflexivity;
     try (destruct (is_attached o); reflexivity);
     intros hba' e Hhba' He; injection Hhba' as <-;
     cbn [stops_before_pinctrl]; now apply Hrst).
Qed.

Lemma probe_calls_outcome pdev var k o :
  calls (snd (ufshcd_pltfrm_init core pdev var k))
  = (calls k ++ outcome_calls o)%list ->
  probe_calls core pdev var k = outcome_calls o.
Proof.
  intros Hc. unfold probe_calls. rewrite Hc.
  rewrite skipn_app, skipn_all, Nat.sub_diag. reflexivity.
Qed.


(** C2, amended: for every hardware description in which resolving the
    named reset control fails with an error [e], the reset-line parser
    records the error (one error line, no reset handle in the adapter) and
    returns [-e], and the probe aborts: it returns a negative status, which
    is [-e] whenever the reset-line parser was reached, it calls none of
    the stages that follow the reset-line parser, the adapter is given
    back, and nothing is stored as driver data. *)
Theorem reset_failure_aborts pdev var k hba0 e :
  ufshcd_alloc_host core (pdev_dev pdev) = k_ok hba0 ->
  devm_reset_control_get (dev hba0) "core_reset" = ERR_PTR e ->
  (forall hba k0,
      dev hba = dev hba0 ->
      status_of (ufshcd_parse_reset_info hba k0) = Z.neg e
      /\ core_reset (value_of (ufshcd_parse_reset_info hba k0)) = None
      /\ dmesg (kernel_of (ufshcd_parse_reset_info hba k0))
         = (dmesg k0 ++ [core_reset_error e])%list)
  /\ fst (ufshcd_pltfrm_init core pdev var k) < 0
  /\ (forall s,
         In (c_ufshcd_parse_reset_info, s) (probe_calls core pdev var k) ->
         s = Z.neg e /\ fst (ufshcd_pltfrm_init core pdev var k) = Z.neg e)
  /\ (forall c, In c after_reset ->
                ~ called c (probe_calls core pdev var k))
  /\ hosts (snd (ufshcd_pltfrm_init core pdev var k)) = hosts k
  /\ driver_data (snd (ufshcd_pltfrm_init core pdev var k)) = driver_data k.
Proof.
  intros Halloc Hrst. split.
  - intros hba k0 Hdev. unfold ufshcd_parse_reset_info.
    rewrite Hdev, Hrst. repeat split.
  - destruct (probe_outcome pdev var k)
      as (o & Hv & -> & Hc & -> & -> & Hstop).
    rewrite (probe_calls_outcome _ _ _ _ Hc). clear Hc.
    specialize (Hstop hba0 e Halloc Hrst).
    destruct o as [e0|i|i e0|i [err|err|err|pin err|pin err|pin hba]];
      cbn in Hv, Hstop |- *; try contradiction;
      (split; [ lia | ]);
      (split;
       [ intros s Hs; cbn in Hs;
         repeat (destruct Hs as [Hs|Hs];
                 [ try discriminate Hs;
                   injection Hs as <-; subst; split; reflexivity | ]);
         contradiction
       | ]);
      (split; [ | split; reflexivity ]);
      intros c Hin; unfold after_reset in Hin; cbn [In] in Hin;
      unfold called; cbn;
      repeat (destruct Hin as [<-|Hin]; [ intuition discriminate | ]);
      contradiction.
Qed.

(** C4, amended: in every run of the probe, the stages of resource
    resolution that run are an initial part of the fixed order: clocks,
    regulators, reset, pinctrl, then the scalar parsers reference-clock
    frequency, power levels, gear limits, command timeout and
    force-gear-four, then the external connector, then lanes-per-direction,
    and the controller-core initializer last; a probe that returns [0] has
    run them all. *)
Theorem probe_stage_order pdev var k :
  (exists n, stages (probe_calls core pdev var k) = firstn n stage_order)
  /\ (fst (ufshcd_pltfrm_init core pdev var k) = 0 ->
      stages (probe_calls core pdev var k) = stage_order).
Proof.
  destruct (probe_outcome pdev var k) as (o & Hv & -> & Hc & _).
  rewrite (probe_calls_outcome _ _ _ _ Hc). clear Hc.
  destruct o as [e0|i|i e0|i [err|err|err|pin err|pin err|pin hba]];
    cbn in Hv |- *.
  - split; [ exists 0%nat; reflexivity | intros Habs; discriminate Habs ].
  - split; [ exists 0%nat; reflexivity | intros Habs; discriminate Habs ].
  - split; [ exists 0%nat; reflexivity | intros Habs; discriminate Habs ].
  - split; [ exists 1%nat; reflexivity | lia ].
  - split; [ exists 2%nat; reflexivity | lia ].
  - split; [ exists 3%nat; reflexivity | lia ].
  - split; [ exists 10%nat; reflexivity | lia ].
  - split; [ exists 12%nat; reflexivity | lia ].
  - split; [ exists 12%nat; reflexivity | reflexivity ].
Qed.

End Outcome.


(** C2, as stated, fails when the reset control cannot be resolved: the
    parser returns [-ENOENT] and the probe, instead of continuing, stops
    there, gives the adapter back and returns that status; the pin-control
    parser and the later stages are not called. *)
Lemma reset_failure_stops_probe :
  devm_reset_control_get dev_no_reset "core_reset" = ERR_PTR 2%positive
  /\ fst (ufshcd_pltfrm_init (H := linux_headers) (core_with (k_ok tt))
            (pdev_of dev_no_reset) 0%nat kernel_boot) = -2
  /\ probe_calls (H := linux_headers) (core_with (k_ok tt))
       (pdev_of dev_no_reset) 0%nat kernel_boot
     = [ (c_devm_ioremap_resource, 0); (c_platform_get_irq, 42);
         (c_ufshcd_alloc_host, 0); (c_ufshcd_parse_clock_info, 0);
         (c_ufshcd_parse_regulator_info, 0);
         (c_ufshcd_parse_reset_info, -2); (c_ufshcd_dealloc_host, 0) ]
  /\ driver_data (snd (ufshcd_pltfrm_init (H := linux_headers)
                         (core_with (k_ok tt)) (pdev_of dev_no_reset) 0%nat
                         kernel_boot)) = None.
Proof. repeat split. Qed.

Lemma reset_failure_aborts_witness :
  fst (ufshcd_pltfrm_init (H := linux_headers) (core_with (k_ok tt))
         (pdev_of dev_no_reset) 0%nat kernel_boot) < 0
  /\ (forall c, In c after_reset ->
                ~ called c
                    (probe_calls (H := linux_headers) (core_with (k_ok tt))
                       (pdev_of dev_no_reset) 0%nat kernel_boot)).
Proof.
  destruct (reset_failure_aborts (H := linux_headers) (core_with (k_ok tt))
              (pdev_of dev_no_reset) 0%nat kernel_boot
              (hba0 := hba_zero dev_no_reset) (e := 2%positive)
              eq_refl eq_refl)
    as (_ & Hneg & _ & Hstop & _).
  split; [ exact Hneg | exact Hstop ].
Defined.

(** C4, as stated, fails on a probe that succeeds: all the stages run, in
    the order of the code, and the reference-clock parser (a scalar parser,
    fifth) runs before the external connector is resolved (tenth). *)
Lemma scalar_parsers_precede_extcon :
  stages (probe_calls (H := linux_headers) (core_with (k_ok tt))
            (pdev_of dev_ref_clk) 0%nat kernel_boot) = stage_order
  /\ ~ claimed_order
         (stages (probe_calls (H := linux_headers) (core_with (k_ok tt))
                    (pdev_of dev_ref_clk) 0%nat kernel_boot)).
Proof.
  split; [ reflexivity | ].
  intros Hclaim.
  assert (Habs : (2 <= 1)%nat).
  { apply (Hclaim 4%nat 9%nat c_ufshcd_parse_dev_ref_clk_freq
             c_ufshcd_parse_extcon_info 2%nat 1%nat);
      [ lia | reflexivity | reflexivity | reflexivity | reflexivity ]. }
  lia.
Qed.

Lemma probe_stage_order_witness :
  fst (ufshcd_pltfrm_init (H := linux_headers) (core_with (k_ok tt))
         (pdev_of dev_ref_clk) 0%nat kernel_boot) = 0
  /\ stages (probe_calls (H := linux_headers) (core_with (k_ok tt))
               (pdev_of dev_ref_clk) 0%nat kernel_boot) = stage_order.
Proof.
  split; [ reflexivity | ].
  apply (proj2 (probe_stage_order (H := linux_headers) (core_with (k_ok tt))
                  (pdev_of dev_ref_clk) 0%nat kernel_boot)).
  reflexivity.
Defined.

(** * Further properties of the parsers and of the probe *)

(** ** The clock parser, case by case *)

Section ClockCases.

Context {H : kernel_headers}.

Lemma set_clk_list_head_same hba :
  set_clk_list_head hba (clk_list_head hba ++ []) = hba.
Proof. destruct hba. cbn. rewrite app_nil_r. reflexivity. Qed.

Lemma clocks_appended_refl hba : clocks_appended hba hba.
Proof. exists []. symmetry. apply set_clk_list_head_same. Qed.

Lemma clocks_appended_step hba0 hba c :
  clocks_appended hba0 hba ->
  clocks_appended hba0 (set_clk_list_head hba (clk_list_head hba ++ [c])).
Proof.
  intros [l ->]. exists (l ++ [c])%list. cbn. rewrite app_assoc.
  reflexivity.
Qed.

Lemma parses_clock_loop_appends np clkfreq sz fuel hba0 : forall i ret_ hba,
  clocks_appended hba0 hba ->
  parses (clock_loop np clkfreq sz fuel i ret_ hba)
    (fun r => clocks_appended hba0 (snd r)).
Proof.
  induction fuel as [|fuel IH]; intros i ret_ hba Happ; cbn [clock_loop].
  - now apply parses_ret.
  - destruct (i <? sz); [ | now apply parses_ret ].
    destruct (of_property_read_string_index np "clock-names" (i / 2))
      as [name|e]; [ | now apply parses_ret ].
    eapply parses_bind; [ apply parses_kmalloc | ]. intros ok _.
    destruct ok; cbn [negb]; [ | now apply parses_ret ].
    eapply parses_bind; [ apply parses_kstrdup | ]. intros nm _.
    apply parses_logged. apply IH. now apply clocks_appended_step.
Qed.

Lemma parses_freq_table_appends np cnt ret_ hba :
  parses (parse_freq_table np cnt ret_ hba)
    (fun r => clocks_appended hba (snd r)).
Proof.
  unfold parse_freq_table.
  destruct (of_get_property np "freq-table-hz") as [prop|];
    [ | apply parses_logged; apply parses_ret; apply clocks_appended_refl ].
  destruct (Z.of_nat (List.length prop) <=? 0);
    [ apply parses_ret; apply clocks_appended_refl | ].
  destruct (negb _);
    [ apply parses_logged; apply parses_ret; apply clocks_appended_refl | ].
  eapply parses_bind; [ apply parses_kmalloc | ]. intros ok _.
  destruct ok; cbn [negb];
    [ | apply parses_ret; apply clocks_appended_refl ].
  destruct (negb _ && negb _).
  - apply parses_logged. apply parses_ret. apply clocks_appended_refl.
  - apply parses_clock_loop_appends. apply clocks_appended_refl.
Qed.

(** The clock parser only appends to the clock list. *)
Lemma parses_clock_info_appends hba :
  parses (ufshcd_parse_clock_info hba)
    (fun r => clocks_appended hba (snd r)).
Proof.
  unfold ufshcd_parse_clock_info.
  destruct (of_node (dev hba)) as [np|];
    [ | apply parses_ret; apply clocks_appended_refl ].
  eapply parses_bind with (P := fun _ => True).
  - destruct (_ || _); [ apply parses_logged; now apply parses_ret | ].
    destruct (_ <? 0); [ apply parses_logged | ]; now apply parses_ret.
  - intros ret_ _. destruct (_ <=? 0).
    + apply parses_ret. apply clocks_appended_refl.
    + apply parses_freq_table_appends.
Qed.

(** X1: whatever the description and the allocator, the clock parser
    returns [0] or a negative status, changes nothing of the adapter but
    its clock list, to which it only appends, and leaves the log of calls,
    the adapter count, the driver data and the DMA mask alone. *)
Theorem parse_clock_info_only_appends hba k :
  status_of (ufshcd_parse_clock_info hba k) <= 0
  /\ clocks_appended hba (value_of (ufshcd_parse_clock_info hba k))
  /\ same_bindings k (kernel_of (ufshcd_parse_clock_info hba k)).
Proof.
  destruct (parses_clock_info hba k) as [[Hst _] Hk].
  split; [ exact Hst | ]. split; [ | exact Hk ].
  apply (parses_clock_info_appends hba k).
Qed.

(** X2: when the description gives no clock to acquire (no node, no
    clock name, or names with an absent or empty frequency table) the clock
    parser returns [0], leaves the adapter as it was and allocates
    nothing: clocks are assumed to be enabled. *)
Theorem parse_clock_info_nothing_to_acquire hba k :
  no_clock_table (dev hba) ->
  status_of (ufshcd_parse_clock_info hba k) = 0
  /\ value_of (ufshcd_parse_clock_info hba k) = hba
  /\ nr_allocs (kernel_of (ufshcd_parse_clock_info hba k)) = nr_allocs k.
Proof.
  unfold no_clock_table. intros Hno.
  destruct (of_node (dev hba)) as [np|] eqn:Hnp.
  - destruct Hno as [Hcnt|[Hcnt|[Hcnt Htab]]].
    + unfold ufshcd_parse_clock_info. rewrite Hnp, Hcnt.
      cbn [Z.eqb orb]. repeat split.
    + unfold ufshcd_parse_clock_info. rewrite Hnp, Hcnt.
      rewrite Z.eqb_refl, orb_true_r. repeat split.
    + rewrite (parse_clock_info_counted hba k Hnp Hcnt).
      unfold parse_freq_table.
      destruct Htab as [-> | ->]; repeat split.
  - unfold ufshcd_parse_clock_info. rewrite Hnp. repeat split.
Qed.

(** X3: a negative count of clock names other than [-EINVAL] is fatal: the
    clock parser logs it and returns it as its status, without reading the
    frequency table, allocating, or touching the adapter. *)
Theorem parse_clock_info_count_error hba np k :
  of_node (dev hba) = Some np ->
  of_property_count_strings np "clock-names" < 0 ->
  of_property_count_strings np "clock-names" <> Z.neg EINVAL ->
  status_of (ufshcd_parse_clock_info hba k)
  = of_property_count_strings np "clock-names"
  /\ value_of (ufshcd_parse_clock_info hba k) = hba
  /\ nr_allocs (kernel_of (ufshcd_parse_clock_info hba k)) = nr_allocs k
  /\ dmesg (kernel_of (ufshcd_parse_clock_info hba k))
     = (dmesg k
        ++ [ {| level := KERN_ERR;
                fmt := "%s: count clock strings failed, err %d";
                args := [arg_s "ufshcd_parse_clock_info";
                         arg_d (of_property_count_strings np "clock-names")]
             |} ])%list.
Proof.
  intros Hnp Hneg Hne. unfold ufshcd_parse_clock_info. rewrite Hnp.
  set (cnt := of_property_count_strings np "clock-names") in *.
  assert (E0 : (cnt =? 0) = false) by (apply Z.eqb_neq; lia).
  assert (E1 : (cnt =? Z.neg EINVAL) = false) by (now apply Z.eqb_neq).
  assert (E2 : (cnt <? 0) = true) by (now apply Z.ltb_lt).
  assert (E3 : (cnt <=? 0) = true) by (apply Z.leb_le; lia).
  rewrite E0, E1, E2. cbn [orb].
  unfold bind, dev_err, printk, ret. rewrite E3. repeat split.
Qed.

End ClockCases.

Lemma parse_clock_info_nothing_to_acquire_witness :
  status_of (ufshcd_parse_clock_info (H := linux_headers)
               (hba_zero (dev_plain dt_clk_no_table)) kernel_boot) = 0
  /\ value_of (ufshcd_parse_clock_info (H := linux_headers)
                 (hba_zero (dev_plain dt_clk_no_table)) kernel_boot)
     = hba_zero (dev_plain dt_clk_no_table)
  /\ nr_allocs (kernel_of (ufshcd_parse_clock_info (H := linux_headers)
                             (hba_zero (dev_plain dt_clk_no_table))
                             kernel_boot)) = 0%nat.
Proof.
  apply (parse_clock_info_nothing_to_acquire (H := linux_headers)
           (hba_zero (dev_plain dt_clk_no_table)) kernel_boot).
  right. right. split; [ reflexivity | left; reflexivity ].
Defined.

Lemma parse_clock_info_count_error_witness :
  status_of (ufshcd_parse_clock_info (H := linux_headers)
               (hba_zero (dev_plain dt_clk_names_not_strings)) kernel_boot)
  = -84
  /\ value_of (ufshcd_parse_clock_info (H := linux_headers)
                 (hba_zero (dev_plain dt_clk_names_not_strings))
                 kernel_boot)
     = hba_zero (dev_plain dt_clk_names_not_strings).
Proof.
  destruct (parse_clock_info_count_error (H := linux_headers)
              (hba_zero (dev_plain dt_clk_names_not_strings))
              (np := node_of_dt dt_clk_names_not_strings) kernel_boot
              eq_refl eq_refl)
    as (Hst & Hv & _).
  - intros Habs. discriminate Habs.
  - split; [ exact Hst | exact Hv ].
Defined.

(** ** The loop of the clock parser *)

Section ClockLoop.

Context {H : kernel_headers}.

Variable np : device_node.
Variable clkfreq : list Z.
Variable sz : Z.
Variable names : list string.

Lemma kmalloc_next k :
  kmalloc_ok k (nr_allocs k) = true ->
  exists k',
    kmalloc k = (true, k') /\ kmalloc_ok k' = kmalloc_ok k
    /\ nr_allocs k' = S (nr_allocs k).
Proof.
  intros Hok. unfold kmalloc. rewrite Hok.
  eexists. split; [ reflexivity | split; reflexivity ].
Qed.

(** One turn of the loop, when the name can be read and the two
    allocations succeed. *)
Lemma clock_loop_turn j fuel ret_ hba k :
  of_property_read_string_index np "clock-names" (Z.of_nat j)
  = k_ok (nth j names "") ->
  2 * Z.of_nat j < sz ->
  allocs_ok_upto k 2 ->
  exists k',
    kmalloc_ok k' = kmalloc_ok k /\ nr_allocs k' = S (S (nr_allocs k))
    /\ clock_loop np clkfreq sz (S fuel) (2 * Z.of_nat j) ret_ hba k
       = clock_loop np clkfreq sz fuel (2 * Z.of_nat (S j)) 0
           (set_clk_list_head hba
              (clk_list_head hba ++ [clki_at clkfreq names j]))
           k'.
Proof.
  intros Hname Hlt Hok. cbn [clock_loop].
  assert (Hgo : (2 * Z.of_nat j <? sz) = true) by (now apply Z.ltb_lt).
  rewrite Hgo.
  replace (2 * Z.of_nat j / 2) with (Z.of_nat j)
    by (rewrite Z.mul_comm, Z.div_mul; lia).
  rewrite Hname. unfold bind at 1.
  destruct (@kmalloc_next k) as (k1 & -> & Hm1 & Hn1);
    [ apply Hok; lia | ].
  cbn [negb]. unfold bind at 1. unfold kstrdup. unfold bind at 1.
  destruct (@kmalloc_next k1) as (k2 & -> & Hm2 & Hn2);
    [ rewrite Hm1, Hn1; apply Hok; lia | ].
  unfold ret at 1. unfold bind at 1. unfold dev_dbg, printk.
  unfold clkfreq_at, clki_at.
  replace (Z.to_nat (2 * Z.of_nat j)) with (2 * j)%nat by lia.
  replace (Z.to_nat (2 * Z.of_nat j + 1)) with (S (2 * j)) by lia.
  replace (2 * Z.of_nat j + 2) with (2 * Z.of_nat (S j)) by lia.
  eexists. split; [ | split; [ | reflexivity ] ]; cbn; congruence.
Qed.

(** [m] turns of the loop from the clock number [j] on. *)
Lemma clock_loop_iterates : forall m j fuel ret_ hba k,
  (forall i, (j <= i < j + m)%nat ->
      of_property_read_string_index np "clock-names" (Z.of_nat i)
      = k_ok (nth i names "")) ->
  2 * Z.of_nat (j + m) <= sz ->
  (m <= fuel)%nat ->
  allocs_ok_upto k (2 * m) ->
  exists k',
    kmalloc_ok k' = kmalloc_ok k
    /\ nr_allocs k' = (nr_allocs k + 2 * m)%nat
    /\ clock_loop np clkfreq sz fuel (2 * Z.of_nat j) ret_ hba k
       = clock_loop np clkfreq sz (fuel - m) (2 * Z.of_nat (j + m))
           match m with O => ret_ | S _ => 0 end
           (set_clk_list_head hba
              (clk_list_head hba ++ clkis clkfreq names j m))
           k'.
Proof.
  induction m as [|m IH]; intros j fuel ret_ hba k Hnames Hsz Hfuel Hok.
  - exists k. rewrite Nat.sub_0_r. replace (j + 0)%nat with j by lia.
    unfold clkis. cbn [seq map].
    rewrite set_clk_list_head_same.
    split; [ reflexivity | split; [ lia | reflexivity ] ].
  - destruct fuel as [|fuel]; [ lia | ].
    destruct (@clock_loop_turn j fuel ret_ hba k) as (k1 & Hm1 & Hn1 & ->).
    { apply Hnames. lia. }
    { lia. }
    { intros a Ha. apply Hok. lia. }
    destruct (IH (S j) fuel 0
                (set_clk_list_head hba
                   (clk_list_head hba ++ [clki_at clkfreq names j])) k1)
      as (k2 & Hm2 & Hn2 & ->).
    { intros i Hi. apply Hnames. lia. }
    { replace (S j + m)%nat with (j + S m)%nat by lia. exact Hsz. }
    { lia. }
    { intros a Ha. rewrite Hm1. apply Hok. lia. }
    exists k2.
    split; [ congruence | ]. split; [ lia | ].
    replace (S j + m)%nat with (j + S m)%nat by lia.
    cbn [Nat.sub clk_list_head set_clk_list_head].
    unfold clkis. cbn [seq map]. rewrite <- app_assoc. cbn [app].
    destruct m; reflexivity.
Qed.

End ClockLoop.

(** ** The clock parser past the length test *)

Section ClockTable.

Context {H : kernel_headers}.

(** The parser when there are [n] names, [n > 0], and a table of [2n]
    cells: what is left is the allocation of the buffer, the read of the
    cells and the loop. *)
Lemma parse_clock_info_table hba np prop n k :
  of_node (dev hba) = Some np ->
  of_property_count_strings np "clock-names" = Z.of_nat n ->
  (0 < n)%nat ->
  of_get_property np "freq-table-hz" = Some prop ->
  0 < Z.of_nat (List.length prop) <= INT_MAX ->
  Z.of_nat (List.length prop) / 4 = 2 * Z.of_nat n ->
  ufshcd_parse_clock_info hba k
  = (ok <- kmalloc ;;
     if negb ok then ret (Z.neg ENOMEM, hba)
     else
       let r := of_property_read_u32_array np "freq-table-hz"
                  (2 * Z.of_nat n) in
       let ret_ := k_status r in
       if negb (ret_ =? 0) && negb (ret_ =? Z.neg EINVAL) then
         dev_err "%s: error reading array %d"
           [arg_s "freq-table-hz"; arg_d ret_] ;;;
         ret (ret_, hba)
       else
         clock_loop np match r with k_ok vals => vals | k_err _ => [] end
           (2 * Z.of_nat n) (Z.to_nat (2 * Z.of_nat n)) 0 ret_ hba) k.
Proof.
  intros Hnp Hcnt Hn Hprop Hlen Hsz.
  rewrite (parse_clock_info_counted hba k Hnp) by lia.
  unfold parse_freq_table. rewrite Hprop, Hcnt.
  assert (E1 : (Z.of_nat (List.length prop) <=? 0) = false)
    by (apply Z.leb_gt; lia).
  rewrite E1, Hsz.
  assert (Hfit : 2 * Z.of_nat n <= INT_MAX).
  { rewrite <- Hsz. apply Z.le_trans with (Z.of_nat (List.length prop));
      [ | lia ].
    apply Z.div_le_upper_bound; lia. }
  rewrite twice_cnt_exact by lia.
  rewrite Z.eqb_refl. reflexivity.
Qed.

(** The loop at the end of the table. *)
Lemma clock_loop_exit np clkfreq sz fuel i ret_ hba k :
  sz <= i -> clock_loop np clkfreq sz fuel i ret_ hba k = (ret_, hba, k).
Proof.
  intros Hi. destruct fuel as [|fuel]; cbn [clock_loop]; [ reflexivity | ].
  assert (E : (i <? sz) = false) by (now apply Z.ltb_ge).
  rewrite E. reflexivity.
Qed.

(** The descriptors built from a buffer that was never filled. *)
Lemma clkis_unread names : forall pre,
  clkis [] (pre ++ names) (List.length pre) (List.length names)
  = map clki_unread names.
Proof.
  induction names as [|a names IH]; intros pre; [ reflexivity | ].
  unfold clkis in *. cbn [List.length seq map]. f_equal.
  - unfold clki_at, clki_unread. rewrite nth_middle.
    f_equal; destruct (2 * List.length pre)%nat; reflexivity.
  - specialize (IH (pre ++ [a])%list).
    rewrite <- app_assoc, length_app in IH. cbn [app List.length] in IH.
    rewrite Nat.add_1_r in IH. exact IH.
Qed.

(** The descriptors built from the cells of a table of pairs. *)
Lemma clkis_descriptors : forall j names freqs pn pf,
  (j <= List.length names)%nat ->
  List.length freqs = (2 * List.length names)%nat ->
  List.length pf = (2 * List.length pn)%nat ->
  clkis (pf ++ freqs) (pn ++ names) (List.length pn) j
  = firstn j (clock_descriptors names freqs).
Proof.
  induction j as [|j IH]; intros names freqs pn pf Hj Hlen Hpre;
    [ reflexivity | ].
  destruct names as [|a names]; [ cbn in Hj; lia | ].
  destruct freqs as [|lo [|hi freqs]]; cbn in Hlen; try lia.
  unfold clkis in *. cbn [seq map clock_descriptors firstn]. f_equal.
  - unfold clki_at. rewrite nth_middle. rewrite <- Hpre, nth_middle.
    f_equal.
    replace (pf ++ lo :: hi :: freqs)%list
      with ((pf ++ [lo]) ++ hi :: freqs)%list
      by (rewrite <- app_assoc; reflexivity).
    replace (S (List.length pf)) with (List.length (pf ++ [lo])%list)
      by (rewrite length_app; cbn; lia).
    apply nth_middle.
  - specialize (IH names freqs (pn ++ [a])%list (pf ++ [lo; hi])%list).
    rewrite <- !app_assoc, !length_app in IH. cbn [app List.length] in IH.
    rewrite Nat.add_1_r in IH. apply IH; cbn in Hj; lia.
Qed.

(** X4: an [-EINVAL] from the read of the frequency cells is not an
    error for the clock parser: with [n] names, a table of [2n] cells that
    can be measured but not read, and [1 + 2n] allocations that succeed, it
    returns [0] and appends one descriptor per name, in order, whose two
    frequencies are [0], those of the zeroed buffer. *)
Theorem parse_clock_info_unread_cells hba np prop names k :
  of_node (dev hba) = Some np ->
  of_property_count_strings np "clock-names" = Z.of_nat (List.length names) ->
  names <> [] ->
  (forall i : nat, (i < List.length names)%nat ->
      of_property_read_string_index np "clock-names" (Z.of_nat i)
      = k_ok (nth i names "")) ->
  of_get_property np "freq-table-hz" = Some prop ->
  0 < Z.of_nat (List.length prop) <= INT_MAX ->
  Z.of_nat (List.length prop) / 4 = 2 * Z.of_nat (List.length names) ->
  of_property_read_u32_array np "freq-table-hz"
    (2 * Z.of_nat (List.length names)) = k_err EINVAL ->
  allocs_ok_upto k (1 + 2 * List.length names) ->
  status_of (ufshcd_parse_clock_info hba k) = 0
  /\ clk_list_head (value_of (ufshcd_parse_clock_info hba k))
     = (clk_list_head hba ++ map clki_unread names)%list.
Proof.
  intros Hnp Hcnt Hne Hnames Hprop Hlen Hsz Hread Hok.
  assert (Hn : (0 < List.length names)%nat)
    by (destruct names; [ congruence | cbn; lia ]).
  enough (exists k',
            ufshcd_parse_clock_info hba k
            = (0, set_clk_list_head hba
                    (clk_list_head hba ++ map clki_unread names)%list, k'))
    as (k' & ->) by (split; reflexivity).
  rewrite (parse_clock_info_table hba k Hnp Hcnt Hn Hprop Hlen Hsz).
  unfold bind at 1.
  destruct (@kmalloc_next k) as (k1 & -> & Hm1 & Hn1); [ apply Hok; lia | ].
  cbn [negb]. rewrite Hread. cbn [k_status Z.eqb].
  rewrite Pos.eqb_refl. cbn [negb andb].
  destruct (@clock_loop_iterates H np [] (2 * Z.of_nat (List.length names))
              names (List.length names) 0
              (Z.to_nat (2 * Z.of_nat (List.length names)))
              (Z.neg EINVAL) hba k1)
    as (k2 & _ & _ & Hrun).
  { intros i Hi. apply Hnames. lia. }
  { cbn [Nat.add]. lia. }
  { lia. }
  { intros a Ha. rewrite Hm1. apply Hok. lia. }
  change (2 * Z.of_nat 0) with 0 in Hrun. rewrite Hrun. clear Hrun.
  rewrite clock_loop_exit by (cbn [Nat.add]; lia).
  exists k2. rewrite (clkis_unread names [] : clkis [] names 0 _ = _).
  destruct (List.length names); [ lia | reflexivity ].
Qed.

(** X5: when memory runs out in the middle of the table the clocks parsed
    so far stay on the list: for a well-formed description of [n] clocks,
    if the allocations up to the descriptor of the clock number [j < n]
    succeed and that one fails, the clock parser returns [-ENOMEM] and the
    clock list has grown by the descriptors of the first [j] clocks. *)
Theorem parse_clock_info_enomem_keeps_prefix hba np names freqs j k :
  of_node (dev hba) = Some np ->
  clocks_described np names freqs ->
  List.length freqs = (2 * List.length names)%nat ->
  (j < List.length names)%nat ->
  allocs_ok_upto k (1 + 2 * j) ->
  kmalloc_ok k (nr_allocs k + 1 + 2 * j) = false ->
  status_of (ufshcd_parse_clock_info hba k) = Z.neg ENOMEM
  /\ clk_list_head (value_of (ufshcd_parse_clock_info hba k))
     = (clk_list_head hba ++ firstn j (clock_descriptors names freqs))%list.
Proof.
  intros Hnp (Hcnt & Hnames & Hfreqs) Hlen Hj Hok Hfail.
  assert (Hn : (0 < List.length names)%nat) by lia.
  destruct Hcnt as [Hcnt|[Habs _]];
    [ | rewrite Habs in Hn; cbn in Hn; lia ].
  destruct Hfreqs as ((prop & Hprop & Hbytes & Hint) & Harr).
  { intros ->. cbn in Hlen. lia. }
  assert (Hsz : Z.of_nat (List.length prop) / 4
                = 2 * Z.of_nat (List.length names)).
  { rewrite Hbytes, Z.mul_comm, Z.div_mul; lia. }
  enough (exists k',
            ufshcd_parse_clock_info hba k
            = (Z.neg ENOMEM,
               set_clk_list_head hba
                 (clk_list_head hba
                  ++ firstn j (clock_descriptors names freqs))%list, k'))
    as (k' & ->) by (split; reflexivity).
  rewrite (parse_clock_info_table hba k Hnp Hcnt Hn Hprop) by lia.
  unfold bind at 1.
  destruct (@kmalloc_next k) as (k1 & -> & Hm1 & Hn1); [ apply Hok; lia | ].
  cbn [negb].
  replace (2 * Z.of_nat (List.length names))
    with (Z.of_nat (List.length freqs)) by lia.
  rewrite Harr. cbn [k_status Z.eqb negb andb].
  destruct (@clock_loop_iterates H np freqs (Z.of_nat (List.length freqs))
              names j 0 (Z.to_nat (Z.of_nat (List.length freqs))) 0 hba k1)
    as (k2 & Hm2 & Hn2 & Hrun).
  { intros i Hi. apply Hnames. lia. }
  { cbn [Nat.add]. lia. }
  { lia. }
  { intros a Ha. rewrite Hm1. apply Hok. lia. }
  change (2 * Z.of_nat 0) with 0 in Hrun. rewrite Hrun. clear Hrun.
  cbn [Nat.add].
  destruct (Z.to_nat (Z.of_nat (List.length freqs)) - j)%nat as [|fuel] eqn:Hf;
    [ lia | ].
  cbn [clock_loop].
  assert (Hgo : (2 * Z.of_nat j <? Z.of_nat (List.length freqs)) = true)
    by (apply Z.ltb_lt; lia).
  rewrite Hgo.
  replace (2 * Z.of_nat j / 2) with (Z.of_nat j)
    by (rewrite Z.mul_comm, Z.div_mul; lia).
  rewrite Hnames by lia.
  unfold bind at 1. unfold kmalloc at 1.
  rewrite Hm2, Hm1, Hn2, Hn1.
  replace (S (nr_allocs k) + 2 * j)%nat with (nr_allocs k + 1 + 2 * j)%nat
    by lia.
  rewrite Hfail. cbn [negb]. unfold ret.
  rewrite (clkis_descriptors (j := j) names freqs [] []
             ltac:(lia) Hlen eq_refl
           : clkis freqs names 0 j = _).
  eexists. reflexivity.
Qed.

(** X6: when the buffer of the cells cannot be allocated, with [n] names
    and a table of [2n] cells, the clock parser returns [-ENOMEM] and
    leaves the adapter, and so its clock list, as it was. *)
Theorem parse_clock_info_buffer_enomem hba np prop n k :
  of_node (dev hba) = Some np ->
  of_property_count_strings np "clock-names" = Z.of_nat n ->
  (0 < n)%nat ->
  of_get_property np "freq-table-hz" = Some prop ->
  0 < Z.of_nat (List.length prop) <= INT_MAX ->
  Z.of_nat (List.length prop) / 4 = 2 * Z.of_nat n ->
  kmalloc_ok k (nr_allocs k) = false ->
  status_of (ufshcd_parse_clock_info hba k) = Z.neg ENOMEM
  /\ value_of (ufshcd_parse_clock_info hba k) = hba.
Proof.
  intros Hnp Hcnt Hn Hprop Hlen Hsz Hfail.
  rewrite (parse_clock_info_table hba k Hnp Hcnt Hn Hprop Hlen Hsz).
  unfold bind, kmalloc. rewrite Hfail. split; reflexivity.
Qed.

(** X7: an error of the read of the cells other than [-EINVAL] is
    returned as it is: the clock parser logs it, returns it, and leaves
    the adapter as it was, without reading a clock name. *)
Theorem parse_clock_info_read_error hba np prop n e k :
  of_node (dev hba) = Some np ->
  of_property_count_strings np "clock-names" = Z.of_nat n ->
  (0 < n)%nat ->
  of_get_property np "freq-table-hz" = Some prop ->
  0 < Z.of_nat (List.length prop) <= INT_MAX ->
  Z.of_nat (List.length prop) / 4 = 2 * Z.of_nat n ->
  kmalloc_ok k (nr_allocs k) = true ->
  of_property_read_u32_array np "freq-table-hz" (2 * Z.of_nat n) = k_err e ->
  e <> EINVAL ->
  status_of (ufshcd_parse_clock_info hba k) = Z.neg e
  /\ value_of (ufshcd_parse_clock_info hba k) = hba
  /\ dmesg (kernel_of (ufshcd_parse_clock_info hba k))
     = (dmesg k ++ [read_array_error e])%list
  /\ nr_allocs (kernel_of (ufshcd_parse_clock_info hba k))
     = S (nr_allocs k).
Proof.
  intros Hnp Hcnt Hn Hprop Hlen Hsz Hok Hread He.
  enough (exists k',
            ufshcd_parse_clock_info hba k = (Z.neg e, hba, k')
            /\ dmesg k' = (dmesg k ++ [read_array_error e])%list
            /\ nr_allocs k' = S (nr_allocs k))
    as (k' & -> & Hd & Ha) by (repeat split; assumption).
  rewrite (parse_clock_info_table hba k Hnp Hcnt Hn Hprop Hlen Hsz).
  unfold bind at 1. unfold kmalloc at 1. rewrite Hok.
  cbn [negb]. rewrite Hread. cbn [k_status Z.eqb].
  assert (E : (e =? EINVAL)%positive = false) by (now apply Pos.eqb_neq).
  rewrite E. cbn [negb andb].
  eexists. split; [ reflexivity | ]. split; reflexivity.
Qed.

End ClockTable.

Lemma parse_clock_info_unread_cells_witness :
  status_of (ufshcd_parse_clock_info (H := linux_headers)
               (hba_zero (dev_cells_unreadable 22%positive)) kernel_boot) = 0
  /\ clk_list_head
       (value_of (ufshcd_parse_clock_info (H := linux_headers)
                    (hba_zero (dev_cells_unreadable 22%positive)) kernel_boot))
     = [ clki_unread "ref_clk" ].
Proof.
  apply (parse_clock_info_unread_cells (H := linux_headers)
           (hba_zero (dev_cells_unreadable 22%positive))
           (np := node_cells_unreadable 22%positive)
           (prop := flat_map be32_bytes [100000; 200000])
           (names := ["ref_clk"]) (k := kernel_boot)).
  - reflexivity.
  - reflexivity.
  - intros Habs. discriminate Habs.
  - intros i Hi. destruct i as [|i]; [ reflexivity | cbn in Hi; lia ].
  - reflexivity.
  - cbn. unfold INT_MAX. lia.
  - reflexivity.
  - reflexivity.
  - intros a Ha. reflexivity.
Defined.

Lemma parse_clock_info_enomem_keeps_prefix_witness :
  status_of (ufshcd_parse_clock_info (H := linux_headers)
               (hba_zero (dev_plain dt_two_clocks)) (kernel_low_memory 3))
  = -12
  /\ clk_list_head
       (value_of (ufshcd_parse_clock_info (H := linux_headers)
                    (hba_zero (dev_plain dt_two_clocks))
                    (kernel_low_memory 3)))
     = [ {| clk_name := Some "ref_clk"; min_freq := 100000;
            max_freq := 200000 |} ].
Proof.
  apply (parse_clock_info_enomem_keeps_prefix (H := linux_headers)
           (hba_zero (dev_plain dt_two_clocks))
           (np := node_of_dt dt_two_clocks)
           (names := ["ref_clk"; "core_clk"])
           (freqs := [100000; 200000; 0; 300000]) (j := 1)
           (k := kernel_low_memory 3)).
  - reflexivity.
  - split; [ left; reflexivity | ]. split.
    + intros i Hi.
      destruct i as [|[|i]]; [ reflexivity | reflexivity | cbn in Hi; lia ].
    + intros _. split; [ | reflexivity ].
      eexists. split; [ reflexivity | ]. split; [ reflexivity | ].
      cbn. unfold INT_MAX. lia.
  - reflexivity.
  - cbn. lia.
  - intros a Ha. cbn in Ha.
    destruct a as [|[|[|a]]]; [ reflexivity | reflexivity | reflexivity | lia ].
  - reflexivity.
Defined.

Lemma parse_clock_info_buffer_enomem_witness :
  status_of (ufshcd_parse_clock_info (H := linux_headers)
               (hba_zero (dev_plain dt_two_clocks)) (kernel_low_memory 0))
  = -12
  /\ value_of (ufshcd_parse_clock_info (H := linux_headers)
                 (hba_zero (dev_plain dt_two_clocks)) (kernel_low_memory 0))
     = hba_zero (dev_plain dt_two_clocks).
Proof.
  apply (parse_clock_info_buffer_enomem (H := linux_headers)
           (hba_zero (dev_plain dt_two_clocks))
           (np := node_of_dt dt_two_clocks)
           (prop := flat_map be32_bytes [100000; 200000; 0; 300000])
           (n := 2) (kernel_low_memory 0)).
  - reflexivity.
  - reflexivity.
  - lia.
  - reflexivity.
  - cbn. unfold INT_MAX. lia.
  - reflexivity.
  - reflexivity.
Defined.

Lemma parse_clock_info_read_error_witness :
  status_of (ufshcd_parse_clock_info (H := linux_headers)
               (hba_zero (dev_cells_unreadable ENODATA)) kernel_boot)
  = -61
  /\ value_of (ufshcd_parse_clock_info (H := linux_headers)
                 (hba_zero (dev_cells_unreadable ENODATA)) kernel_boot)
     = hba_zero (dev_cells_unreadable ENODATA)
  /\ dmesg (kernel_of (ufshcd_parse_clock_info (H := linux_headers)
                         (hba_zero (dev_cells_unreadable ENODATA))
                         kernel_boot))
     = [read_array_error ENODATA]
  /\ nr_allocs (kernel_of (ufshcd_parse_clock_info (H := linux_headers)
                             (hba_zero (dev_cells_unreadable ENODATA))
                             kernel_boot))
     = 1%nat.
Proof.
  apply (parse_clock_info_read_error (H := linux_headers)
           (hba_zero (dev_cells_unreadable ENODATA))
           (np := node_cells_unreadable ENODATA)
           (prop := flat_map be32_bytes [100000; 200000])
           (n := 1) (e := ENODATA) kernel_boot).
  - reflexivity.
  - reflexivity.
  - lia.
  - reflexivity.
  - cbn. unfold INT_MAX. lia.
  - reflexivity.
  - reflexivity.
  - reflexivity.
  - intros Habs. discriminate Habs.
Defined.

(** ** The regulator parser, case by case *)

Section RegulatorCases.

Context {H : kernel_headers}.

(** The parser up to the test of "<role>-fixed-regulator", with the state
    reached and the name of the descriptor. *)
Lemma populate_vreg_run dev np name out k :
  of_node dev = Some np ->
  of_parse_phandle np (prop_name name "-supply") 0 = true ->
  kmalloc_ok k (nr_allocs k) = true ->
  exists k1,
    dmesg k1 = dmesg k /\ nr_allocs k1 = S (S (nr_allocs k))
    /\ kmalloc_ok k1 = kmalloc_ok k /\
    ufshcd_populate_vreg dev name out k =
    (let vreg := set_vreg_name vreg_zero (vreg_name_in k name) in
     if of_property_read_bool np (prop_name name "-fixed-regulator") then
       ret (0, Some vreg)
     else
       match of_property_read_u32 np (prop_name name "-max-microamp") with
       | k_err e =>
         dev_err "%s: unable to find %s err %d"
           [arg_s "ufshcd_populate_vreg";
            arg_s (prop_name name "-max-microamp"); arg_d (Z.neg e)] ;;;
         ret (Z.neg e, out)
       | k_ok max_uA =>
         let vreg := set_max_uA vreg max_uA in
         let vreg :=
           match of_property_read_u32 np (prop_name name "-min-microamp") with
           | k_ok min_uA => set_min_uA vreg min_uA
           | k_err _ => set_min_uA vreg UFS_VREG_LPM_LOAD_UA
           end in
         vreg <- vreg_voltage np name vreg ;;
         ret (0, Some vreg)
       end) k1.
Proof.
  intros Hnp Hsup Hmem.
  unfold ufshcd_populate_vreg.
  rewrite Hnp, Hsup. cbn [negb].
  unfold bind at 1. unfold kmalloc at 1. rewrite Hmem. cbn [negb].
  unfold bind at 1. unfold kstrdup, bind, kmalloc, ret. cbn [fst snd].
  eexists. split; [ | split; [ | split; [ | reflexivity ] ] ]; reflexivity.
Qed.

(** What the choice of the range leaves of a descriptor, and the flag it
    sets. *)
Lemma vreg_voltage_fields np name v k :
  vreg_name (fst (vreg_voltage np name v k)) = vreg_name v
  /\ min_uA (fst (vreg_voltage np name v k)) = min_uA v
  /\ max_uA (fst (vreg_voltage np name v k)) = max_uA v
  /\ low_voltage_sup (fst (vreg_voltage np name v k))
     = low_voltage_sup v
       || ((name =? "vcc")%string
           && negb (of_property_read_bool np "vcc-supply-1p8")
           && of_property_read_bool np "vcc-low-voltage-sup").
Proof.
  unfold vreg_voltage, voltage_level.
  destruct (name =? "vcc")%string; cbn [andb].
  - destruct (of_property_read_bool np "vcc-supply-1p8"); cbn [negb andb].
    + cbn. rewrite orb_false_r. repeat split.
    + destruct (of_get_property np "vcc-voltage-level") as [prop|];
        [ destruct (negb (Z.of_nat (List.length prop) =? 2 * 4)) | ];
        destruct (of_property_read_bool np "vcc-low-voltage-sup");
        cbn; rewrite ?orb_true_r, ?orb_false_r; repeat split.
  - destruct (name =? "vccq")%string.
    + cbn. rewrite orb_false_r. repeat split.
    + destruct (name =? "vccq2")%string.
      * destruct (of_get_property np "vccq2-voltage-level") as [prop|];
          [ destruct (negb (Z.of_nat (List.length prop) =? 2 * 4)) | ];
          cbn; rewrite ?orb_false_r; repeat split.
      * cbn. rewrite orb_false_r. repeat split.
Qed.

(** The status and the slot, case by case. *)
Lemma populate_vreg_cases dev name out k :
  (supply_absent dev name
   /\ ufshcd_populate_vreg dev name out k
      = (0, None, snd (ufshcd_populate_vreg dev name out k))
   /\ nr_allocs (snd (ufshcd_populate_vreg dev name out k)) = nr_allocs k)
  \/ (~ supply_absent dev name
      /\ ((exists v, fst (ufshcd_populate_vreg dev name out k) = (0, Some v))
          \/ (exists e, fst (ufshcd_populate_vreg dev name out k)
                        = (Z.neg e, out)))).
Proof.
  unfold supply_absent.
  destruct (of_node dev) as [np|] eqn:Hnp.
  2: { left. unfold ufshcd_populate_vreg. rewrite Hnp.
       split; [ exact I | ]. split; reflexivity. }
  destruct (of_parse_phandle np (prop_name name "-supply") 0) eqn:Hsup.
  2: { left. unfold ufshcd_populate_vreg. rewrite Hnp, Hsup.
       split; [ reflexivity | ]. split; reflexivity. }
  right. split; [ discriminate | ].
  destruct (kmalloc_ok k (nr_allocs k)) eqn:Hmem.
  - destruct (populate_vreg_supplied dev name out k Hnp Hsup Hmem)
      as (nm & k1 & _ & ->).
    destruct (of_property_read_bool np (prop_name name "-fixed-regulator")).
    + left. eexists. reflexivity.
    + destruct (of_property_read_u32 np (prop_name name "-max-microamp"))
        as [m|e].
      * left. unfold bind.
        match goal with
        | |- context [vreg_voltage np name ?v ?K] =>
          destruct (vreg_voltage np name v K) as [v' k2]
        end.
        eexists. reflexivity.
      * right. exists e. reflexivity.
  - right. exists ENOMEM.
    apply (populate_vreg_nomem dev name out k Hnp Hsup Hmem).
Qed.

(** X8: for every role, description and allocator, [ufshcd_populate_vreg]
    returns [0] or a negative status; when it fails it leaves the slot of
    the caller as it was; when the supply is not described it returns [0],
    stores [NULL] in the slot and allocates nothing; and when it returns
    [0] the slot holds a descriptor exactly when the supply is
    described. *)
Theorem populate_vreg_slot dev name out k :
  (status_of (ufshcd_populate_vreg dev name out k) = 0
   \/ status_of (ufshcd_populate_vreg dev name out k) < 0
      /\ value_of (ufshcd_populate_vreg dev name out k) = out)
  /\ (supply_absent dev name ->
      status_of (ufshcd_populate_vreg dev name out k) = 0
      /\ value_of (ufshcd_populate_vreg dev name out k) = None
      /\ nr_allocs (kernel_of (ufshcd_populate_vreg dev name out k))
         = nr_allocs k)
  /\ (status_of (ufshcd_populate_vreg dev name out k) = 0 ->
      (value_of (ufshcd_populate_vreg dev name out k) = None
       <-> supply_absent dev name)).
Proof.
  unfold status_of, value_of, kernel_of.
  destruct (populate_vreg_cases dev name out k)
    as [(Habs & E & Hn)|(Hsup & [[v E]|[e E]])].
  - rewrite E in *. cbn [fst snd] in *.
    split; [ left; reflexivity | ]. split; [ intros _; repeat split | ].
    + exact Hn.
    + intros _. split; intros _; [ exact Habs | reflexivity ].
  - rewrite E. cbn [fst snd].
    split; [ left; reflexivity | ].
    split; [ intros Habs; contradiction | ].
    intros _. split; [ intros Hv; discriminate Hv | intros Habs; contradiction ].
  - rewrite E. cbn [fst snd].
    split; [ right; split; [ lia | reflexivity ] | ].
    split; [ intros Habs; contradiction | ].
    intros Hz. discriminate Hz.
Qed.

(** X9: a supply flagged "<role>-fixed-regulator" gets a descriptor with a
    name and nothing else, for every role: the currents, the range and the
    low-voltage flag stay zero, whatever else the node says about the
    role.  The name is the copy of the role name, or [NULL] when that copy
    could not be allocated, which the parser does not check. *)
Theorem populate_vreg_fixed_is_blank dev np name out k :
  of_node dev = Some np ->
  of_parse_phandle np (prop_name name "-supply") 0 = true ->
  of_property_read_bool np (prop_name name "-fixed-regulator") = true ->
  kmalloc_ok k (nr_allocs k) = true ->
  status_of (ufshcd_populate_vreg dev name out k) = 0
  /\ value_of (ufshcd_populate_vreg dev name out k)
     = Some (set_vreg_name vreg_zero (vreg_name_in k name)).
Proof.
  intros Hnp Hsup Hfix Hmem.
  destruct (populate_vreg_run dev name out k Hnp Hsup Hmem)
    as (k1 & _ & _ & _ & ->).
  rewrite Hfix. split; reflexivity.
Qed.







(** X12: for "vccq2", a supply that is not fixed and has its current limit
    gets the default vccq2 range when "vccq2-voltage-level" is absent or
    its length is not that of two cells; the parser does not fail, and
    logs one warning that says which of the two it was. *)
Theorem populate_vreg_vccq2_level_default dev np out k m :
  of_node dev = Some np ->
  of_parse_phandle np "vccq2-supply" 0 = true ->
  of_property_read_bool np "vccq2-fixed-regulator" = false ->
  of_property_read_u32 np "vccq2-max-microamp" = k_ok m ->
  kmalloc_ok k (nr_allocs k) = true ->
  match of_get_property np "vccq2-voltage-level" with
  | Some prop => Z.of_nat (List.length prop) <> 8
  | None => True
  end ->
  status_of (ufshcd_populate_vreg dev "vccq2" out k) = 0
  /\ (exists v,
         value_of (ufshcd_populate_vreg dev "vccq2" out k) = Some v
         /\ uV_range v = (UFS_VREG_VCCQ2_MIN_UV, UFS_VREG_VCCQ2_MAX_UV))
  /\ dmesg (kernel_of (ufshcd_populate_vreg dev "vccq2" out k))
     = (dmesg k
        ++ [vccq2_level_warning
              match of_get_property np "vccq2-voltage-level" with
              | Some _ => "invalid format"
              | None => "no"
              end])%list.
Proof.
  intros Hnp Hsup Hfix Hmax Hmem Hbad.
  destruct (populate_vreg_run dev "vccq2" out k Hnp Hsup Hmem)
    as (k1 & Hlog & _ & _ & ->).
  change (prop_name "vccq2" "-fixed-regulator") with "vccq2-fixed-regulator".
  change (prop_name "vccq2" "-max-microamp") with "vccq2-max-microamp".
  rewrite Hfix, Hmax.
  unfold bind, vreg_voltage. cbn [String.eqb Ascii.eqb Bool.eqb].
  unfold voltage_level.
  destruct (of_get_property np "vccq2-voltage-level") as [prop|].
  - destruct (Z.eqb_spec (Z.of_nat (List.length prop)) (2 * 4)) as [E|_];
      [ exfalso; apply Hbad; exact E | ].
    cbn [negb]. unfold bind, dev_warn, printk, ret.
    split; [ reflexivity | ].
    split; [ eexists; split; reflexivity | ].
    unfold kernel_of. cbn [snd dmesg]. rewrite Hlog. reflexivity.
  - unfold bind, dev_warn, printk, ret.
    split; [ reflexivity | ].
    split; [ eexists; split; reflexivity | ].
    unfold kernel_of. cbn [snd dmesg]. rewrite Hlog. reflexivity.
Qed.

(** X13: the roles other than "vcc" and "vccq2" read no range from the
    node: a supply that is not fixed and has its current limit gets the
    fixed vccq range when the role is "vccq", and keeps the zero range of
    the allocation for any other role, "vdd-hba" among them; nothing is
    logged. *)
Theorem populate_vreg_roles_without_level dev np name out k m :
  of_node dev = Some np ->
  of_parse_phandle np (prop_name name "-supply") 0 = true ->
  of_property_read_bool np (prop_name name "-fixed-regulator") = false ->
  of_property_read_u32 np (prop_name name "-max-microamp") = k_ok m ->
  kmalloc_ok k (nr_allocs k) = true ->
  name <> "vcc" -> name <> "vccq2" ->
  status_of (ufshcd_populate_vreg dev name out k) = 0
  /\ (exists v,
         value_of (ufshcd_populate_vreg dev name out k) = Some v
         /\ uV_range v
            = if (name =? "vccq")%string
              then (UFS_VREG_VCCQ_MIN_UV, UFS_VREG_VCCQ_MAX_UV)
              else (0, 0))
  /\ dmesg (kernel_of (ufshcd_populate_vreg dev name out k)) = dmesg k.
Proof.
  intros Hnp Hsup Hfix Hmax Hmem Hvcc Hvccq2.
  destruct (populate_vreg_run dev name out k Hnp Hsup Hmem)
    as (k1 & Hlog & _ & _ & ->).
  rewrite Hfix, Hmax. unfold bind, vreg_voltage.
  destruct (String.eqb_spec name "vcc") as [E|_]; [ contradiction | ].
  destruct (String.eqb_spec name "vccq2") as [E|_]; [ contradiction | ].
  destruct (name =? "vccq")%string;
    (split; [ reflexivity | ]);
    (split; [ eexists; split; [ reflexivity | ] | exact Hlog ]);
    destruct (of_property_read_u32 np (prop_name name "-min-microamp"));
    reflexivity.
Qed.

(** X14: the low-voltage flag of a descriptor the parser produced is set
    exactly when the role is "vcc", the supply is not fixed,
    "vcc-supply-1p8" is unset and "vcc-low-voltage-sup" is present; no
    other role and no fixed or 1.8V supply ever gets it. *)
Theorem populate_vreg_low_voltage_sup_iff dev np name out k v :
  of_node dev = Some np ->
  fst (ufshcd_populate_vreg dev name out k) = (0, Some v) ->
  low_voltage_sup v = true
  <-> name = "vcc"
      /\ of_property_read_bool np "vcc-fixed-regulator" = false
      /\ of_property_read_bool np "vcc-supply-1p8" = false
      /\ of_property_read_bool np "vcc-low-voltage-sup" = true.
Proof.
  intros Hnp Hrun.
  destruct (of_parse_phandle np (prop_name name "-supply") 0) eqn:Hsup.
  2: { unfold ufshcd_populate_vreg in Hrun. rewrite Hnp, Hsup in Hrun.
       discriminate Hrun. }
  destruct (kmalloc_ok k (nr_allocs k)) eqn:Hmem.
  2: { rewrite (populate_vreg_nomem dev name out k Hnp Hsup Hmem) in Hrun.
       discriminate Hrun. }
  destruct (populate_vreg_run dev name out k Hnp Hsup Hmem)
    as (k1 & _ & _ & _ & E).
  rewrite E in Hrun. clear E. cbv zeta in Hrun.
  destruct (of_property_read_bool np (prop_name name "-fixed-regulator"))
    eqn:Hfix.
  { injection Hrun as <-. cbn. split; [ discriminate | ].
    intros (-> & Hnf & _). 
    change (prop_name "vcc" "-fixed-regulator") with "vcc-fixed-regulator"
      in Hfix.
    congruence. }
  destruct (of_property_read_u32 np (prop_name name "-max-microamp"))
    as [m|e]; [ | discriminate Hrun ].
  unfold bind in Hrun.
  match type of Hrun with
  | context [vreg_voltage np name ?w ?K] =>
    destruct (vreg_voltage_fields np name w K) as (_ & _ & _ & Fl);
    destruct (vreg_voltage np name w K) as [v' k2];
    assert (Hw : low_voltage_sup w = false)
      by (destruct (of_property_read_u32 np (prop_name name "-min-microamp"));
          reflexivity);
    rewrite Hw in Fl
  end.
  cbn [fst snd orb] in Fl, Hrun. injection Hrun as <-. rewrite Fl.
  destruct (String.eqb_spec name "vcc") as [->|Hne].
  - change (prop_name "vcc" "-fixed-regulator") with "vcc-fixed-regulator"
      in Hfix.
    destruct (of_property_read_bool np "vcc-supply-1p8");
      destruct (of_property_read_bool np "vcc-low-voltage-sup");
      cbn; intuition congruence.
  - cbn. split; [ discriminate | ]. intros (Hn & _). contradiction.
Qed.

(** X15: when the description names none of the four supplies
    [ufshcd_parse_regulator_info] returns [0], empties the four slots,
    whatever they held, and allocates nothing; the rest of the adapter is
    unchanged. *)
Theorem parse_regulator_info_no_supplies hba k :
  (forall role, In role vreg_roles -> supply_absent (dev hba) role) ->
  status_of (ufshcd_parse_regulator_info hba k) = 0
  /\ value_of (ufshcd_parse_regulator_info hba k) = set_vreg_info hba no_vreg
  /\ nr_allocs (kernel_of (ufshcd_parse_regulator_info hba k)) = nr_allocs k.
Proof.
  intros Habs.
  assert (Hrun : forall role, In role vreg_roles -> forall out k0,
             exists k1, ufshcd_populate_vreg (dev hba) role out k0
                        = (0, None, k1)
                        /\ nr_allocs k1 = nr_allocs k0).
  { intros role Hrole out k0.
    destruct (populate_vreg_cases (dev hba) role out k0)
      as [(_ & E & Hn)|(Hsup & _)].
    - eexists. split; [ exact E | exact Hn ].
    - exfalso. apply Hsup. now apply Habs. }
  unfold vreg_roles in Hrun.
  enough (exists k',
            ufshcd_parse_regulator_info hba k
            = (0, set_vreg_info hba no_vreg, k')
            /\ nr_allocs k' = nr_allocs k)
    as (k' & -> & Hn) by (repeat split; exact Hn).
  unfold ufshcd_parse_regulator_info.
  unfold bind at 1.
  destruct (Hrun "vdd-hba" ltac:(cbn; auto) (vdd_hba (vreg_info hba)) k)
    as (k1 & -> & Hn1).
  cbn [Z.eqb negb]. unfold bind at 1.
  match goal with
  | |- context [ufshcd_populate_vreg _ "vcc" ?o k1] =>
    destruct (Hrun "vcc" ltac:(cbn; auto) o k1) as (k2 & -> & Hn2)
  end.
  cbn [Z.eqb negb]. unfold bind at 1.
  match goal with
  | |- context [ufshcd_populate_vreg _ "vccq" ?o k2] =>
    destruct (Hrun "vccq" ltac:(cbn; auto) o k2) as (k3 & -> & Hn3)
  end.
  cbn [Z.eqb negb]. unfold bind at 1.
  match goal with
  | |- context [ufshcd_populate_vreg _ "vccq2" ?o k3] =>
    destruct (Hrun "vccq2" ltac:(cbn; auto) o k3) as (k4 & -> & Hn4)
  end.
  exists k4. split; [ reflexivity | congruence ].
Qed.

(** X16: [ufshcd_parse_regulator_info] changes no field of the adapter
    other than the regulator slots, and after it has returned [0] each of
    the four roles has a descriptor in its slot exactly when the
    description names its supply. *)
Theorem parse_regulator_info_slots hba k :
  value_of (ufshcd_parse_regulator_info hba k)
  = set_vreg_info hba
      (vreg_info (value_of (ufshcd_parse_regulator_info hba k)))
  /\ (status_of (ufshcd_parse_regulator_info hba k) = 0 ->
      forall role, In role vreg_roles ->
        vreg_slot (vreg_info (value_of (ufshcd_parse_regulator_info hba k)))
          role = None
        <-> supply_absent (dev hba) role).
Proof.
  unfold ufshcd_parse_regulator_info, status_of, value_of.
  assert (Hcase : forall role out k0,
             (supply_absent (dev hba) role
              /\ exists k1, ufshcd_populate_vreg (dev hba) role out k0
                            = (0, None, k1))
             \/ (~ supply_absent (dev hba) role
                 /\ exists v k1, ufshcd_populate_vreg (dev hba) role out k0
                                 = (0, Some v, k1))
             \/ (exists e k1, ufshcd_populate_vreg (dev hba) role out k0
                              = (Z.neg e, out, k1))).
  { intros role out k0.
    destruct (populate_vreg_cases (dev hba) role out k0)
      as [(Ha & E & _)|(Hs & [[v E]|[e E]])].
    - left. split; [ exact Ha | ]. eexists. exact E.
    - right. left. split; [ exact Hs | ].
      destruct (ufshcd_populate_vreg (dev hba) role out k0) as [r k1].
      cbn [fst] in E. subst r. eexists. eexists. reflexivity.
    - right. right.
      destruct (ufshcd_populate_vreg (dev hba) role out k0) as [r k1].
      cbn [fst] in E. subst r. eexists. eexists. reflexivity. }
  unfold bind.
  destruct (Hcase "vdd-hba" (vdd_hba (vreg_info hba)) k)
    as [(A1 & k1 & ->)|[(A1 & v1 & k1 & ->)|(e1 & k1 & ->)]];
    cbn [Z.eqb negb];
    [ | | split; [ reflexivity
                 | cbn [ret fst snd]; intros Hz; discriminate Hz ] ];
    match goal with
    | |- context [ufshcd_populate_vreg _ "vcc" ?o ?K] =>
      destruct (Hcase "vcc" o K)
        as [(A2 & k2 & ->)|[(A2 & v2 & k2 & ->)|(e2 & k2 & ->)]]
    end;
    cbn [Z.eqb negb];
    try (split; [ reflexivity
                | cbn [ret fst snd]; intros Hz; discriminate Hz ]);
    match goal with
    | |- context [ufshcd_populate_vreg _ "vccq" ?o ?K] =>
      destruct (Hcase "vccq" o K)
        as [(A3 & k3 & ->)|[(A3 & v3 & k3 & ->)|(e3 & k3 & ->)]]
    end;
    cbn [Z.eqb negb];
    try (split; [ reflexivity
                | cbn [ret fst snd]; intros Hz; discriminate Hz ]);
    match goal with
    | |- context [ufshcd_populate_vreg _ "vccq2" ?o ?K] =>
      destruct (Hcase "vccq2" o K)
        as [(A4 & k4 & ->)|[(A4 & v4 & k4 & ->)|(e4 & k4 & ->)]]
    end;
    try (split; [ reflexivity
                | cbn [ret fst snd]; intros Hz; discriminate Hz ]);
    (split; [ reflexivity | ]);
    intros _ role Hrole; unfold vreg_roles in Hrole; cbn [In] in Hrole;
    destruct Hrole as [<-|[<-|[<-|[<-|[]]]]];
    cbn; split; intros Hx; try assumption; try reflexivity;
    try discriminate Hx; contradiction.
Qed.

End RegulatorCases.

Lemma populate_vreg_fixed_is_blank_witness :
  status_of (ufshcd_populate_vreg (H := linux_headers)
               (dev_plain dt_vcc_fixed_1p8) "vcc" None kernel_boot) = 0
  /\ value_of (ufshcd_populate_vreg (H := linux_headers)
                 (dev_plain dt_vcc_fixed_1p8) "vcc" None kernel_boot)
     = Some {| vreg_name := Some "vcc"; min_uV := 0; max_uV := 0;
               min_uA := 0; max_uA := 0; low_voltage_sup := false |}.
Proof.
  apply (populate_vreg_fixed_is_blank (H := linux_headers)
           (dev_plain dt_vcc_fixed_1p8) (np := node_of_dt dt_vcc_fixed_1p8)
           "vcc" None kernel_boot).
  - reflexivity.
  - reflexivity.
  - reflexivity.
  - reflexivity.
Defined.



Lemma populate_vreg_vccq2_level_default_witness :
  status_of (ufshcd_populate_vreg (H := linux_headers)
               (dev_plain dt_vccq2_no_level) "vccq2" None kernel_boot) = 0
  /\ (exists v,
         value_of (ufshcd_populate_vreg (H := linux_headers)
                     (dev_plain dt_vccq2_no_level) "vccq2" None kernel_boot)
         = Some v
         /\ uV_range v = (1650000, 1950000))
  /\ dmesg (kernel_of (ufshcd_populate_vreg (H := linux_headers)
                         (dev_plain dt_vccq2_no_level) "vccq2" None
                         kernel_boot))
     = [vccq2_level_warning "no"].
Proof.
  apply (populate_vreg_vccq2_level_default (H := linux_headers)
           (dev_plain dt_vccq2_no_level)
           (np := node_of_dt dt_vccq2_no_level) None kernel_boot
           (m := 750000)).
  - reflexivity.
  - reflexivity.
  - reflexivity.
  - reflexivity.
  - reflexivity.
  - exact I.
Defined.

Lemma populate_vreg_roles_without_level_witness :
  status_of (ufshcd_populate_vreg (H := linux_headers)
               (dev_plain dt_regulators) "vdd-hba" None kernel_boot) = 0
  /\ (exists v,
         value_of (ufshcd_populate_vreg (H := linux_headers)
                     (dev_plain dt_regulators) "vdd-hba" None kernel_boot)
         = Some v
         /\ uV_range v = (0, 0))
  /\ dmesg (kernel_of (ufshcd_populate_vreg (H := linux_headers)
                         (dev_plain dt_regulators) "vdd-hba" None
                         kernel_boot))
     = [].
Proof.
  apply (populate_vreg_roles_without_level (H := linux_headers)
           (dev_plain dt_regulators) (np := node_of_dt dt_regulators)
           (name := "vdd-hba") None kernel_boot (m := 30000)).
  - reflexivity.
  - reflexivity.
  - reflexivity.
  - reflexivity.
  - reflexivity.
  - intros Habs. discriminate Habs.
  - intros Habs. discriminate Habs.
Defined.

Lemma populate_vreg_low_voltage_sup_iff_witness :
  low_voltage_sup
    {| vreg_name := Some "vcc"; min_uV := 2950000; max_uV := 2960000;
       min_uA := 1000; max_uA := 800000; low_voltage_sup := true |} = true
  <-> "vcc" = "vcc"
      /\ of_property_read_bool (node_of_dt dt_regulators)
           "vcc-fixed-regulator" = false
      /\ of_property_read_bool (node_of_dt dt_regulators) "vcc-supply-1p8"
         = false
      /\ of_property_read_bool (node_of_dt dt_regulators)
           "vcc-low-voltage-sup" = true.
Proof.
  apply (populate_vreg_low_voltage_sup_iff (H := linux_headers)
           (dev_plain dt_regulators) (np := node_of_dt dt_regulators)
           "vcc" None kernel_boot).
  - reflexivity.
  - reflexivity.
Defined.

Lemma parse_regulator_info_no_supplies_witness :
  status_of (ufshcd_parse_regulator_info (H := linux_headers)
               (hba_zero (dev_plain dt_no_supply)) kernel_boot) = 0
  /\ value_of (ufshcd_parse_regulator_info (H := linux_headers)
                 (hba_zero (dev_plain dt_no_supply)) kernel_boot)
     = set_vreg_info (hba_zero (dev_plain dt_no_supply)) no_vreg
  /\ nr_allocs (kernel_of (ufshcd_parse_regulator_info (H := linux_headers)
                             (hba_zero (dev_plain dt_no_supply))
                             kernel_boot))
     = 0%nat.
Proof.
  apply (parse_regulator_info_no_supplies (H := linux_headers)
           (hba_zero (dev_plain dt_no_supply)) kernel_boot).
  intros role Hrole. unfold vreg_roles in Hrole. cbn [In] in Hrole.
  destruct Hrole as [<-|[<-|[<-|[<-|[]]]]]; reflexivity.
Defined.

(** ** The scalar parsers and the external connector *)

Section ScalarCases.

Context {H : kernel_headers}.

(** Each scalar parser as the fields it sets. *)
Lemma dev_ref_clk_freq_some hba np :
  of_node (dev hba) = Some np ->
  ufshcd_parse_dev_ref_clk_freq hba
  = set_dev_ref_clk_freq hba (ref_clk_or_default np).
Proof.
  intros Hnp. unfold ufshcd_parse_dev_ref_clk_freq, ref_clk_or_default.
  rewrite Hnp.
  destruct (of_property_read_u32 np "dev-ref-clk-freq") as [v|e];
    [ | reflexivity ].
  cbn [k_status Z.eqb negb orb].
  replace (dev_ref_clk_freq (set_dev_ref_clk_freq hba v)) with v
    by reflexivity.
  destruct ((v <? 0) || (v >? REF_CLK_FREQ_52_MHZ)); reflexivity.
Qed.

Lemma pm_levels_some hba np :
  of_node (dev hba) = Some np ->
  ufshcd_parse_pm_levels hba
  = set_spm_lvl (set_rpm_lvl hba (u32_or np "rpm-level" (-1)))
      (u32_or np "spm-level" (-1)).
Proof.
  intros Hnp. unfold ufshcd_parse_pm_levels, u32_or. rewrite Hnp.
  destruct (of_property_read_u32 np "rpm-level");
    destruct (of_property_read_u32 np "spm-level"); reflexivity.
Qed.

Lemma gear_limits_some hba np :
  of_node (dev hba) = Some np ->
  ufshcd_parse_gear_limits hba
  = set_limit_rx_pwm_gear
      (set_limit_tx_pwm_gear
         (set_limit_rx_hs_gear
            (set_limit_tx_hs_gear hba (u32_or np "limit-tx-hs-gear" (-1)))
            (u32_or np "limit-rx-hs-gear" (-1)))
         (u32_or np "limit-tx-pwm-gear" (-1)))
      (u32_or np "limit-rx-pwm-gear" (-1)).
Proof.
  intros Hnp. unfold ufshcd_parse_gear_limits, u32_or. rewrite Hnp.
  destruct (of_property_read_u32 np "limit-tx-hs-gear");
    destruct (of_property_read_u32 np "limit-rx-hs-gear");
    destruct (of_property_read_u32 np "limit-tx-pwm-gear");
    destruct (of_property_read_u32 np "limit-rx-pwm-gear"); reflexivity.
Qed.

Lemma cmd_timeout_some hba np :
  of_node (dev hba) = Some np ->
  ufshcd_parse_cmd_timeout hba
  = set_scsi_cmd_timeout hba (u32_or np "scsi-cmd-timeout" 0).
Proof.
  intros Hnp. unfold ufshcd_parse_cmd_timeout, u32_or. rewrite Hnp.
  destruct (of_property_read_u32 np "scsi-cmd-timeout"); reflexivity.
Qed.

Lemma force_g4_flag_eq hba :
  ufshcd_parse_force_g4_flag hba
  = set_force_g4 hba (device_property_read_bool (dev hba) "force-g4").
Proof.
  unfold ufshcd_parse_force_g4_flag.
  destruct (device_property_read_bool (dev hba) "force-g4"); reflexivity.
Qed.

(** Without a node the four parsers that read it do nothing. *)
Lemma scalar_parsers_none hba :
  of_node (dev hba) = None ->
  ufshcd_parse_dev_ref_clk_freq hba = hba
  /\ ufshcd_parse_pm_levels hba = hba
  /\ ufshcd_parse_gear_limits hba = hba
  /\ ufshcd_parse_cmd_timeout hba = hba.
Proof.
  intros Hnp.
  unfold ufshcd_parse_dev_ref_clk_freq, ufshcd_parse_pm_levels,
    ufshcd_parse_gear_limits, ufshcd_parse_cmd_timeout.
  rewrite Hnp. repeat split.
Qed.

(** Rewrites the scalar parsers of the goal, innermost first, into the
    fields they set; [np] is the node and [Hnp] says so. *)
Ltac scalars np Hnp :=
  repeat
    match goal with
    | |- context [ufshcd_parse_dev_ref_clk_freq ?h] =>
      rewrite (@dev_ref_clk_freq_some h np Hnp)
    | |- context [ufshcd_parse_pm_levels ?h] =>
      rewrite (@pm_levels_some h np Hnp)
    | |- context [ufshcd_parse_gear_limits ?h] =>
      rewrite (@gear_limits_some h np Hnp)
    | |- context [ufshcd_parse_cmd_timeout ?h] =>
      rewrite (@cmd_timeout_some h np Hnp)
    | |- context [ufshcd_parse_force_g4_flag ?h] =>
      rewrite (force_g4_flag_eq h)
    end.

(** The same on a device without a node. *)
Ltac scalars_none Hnp :=
  repeat
    match goal with
    | |- context [ufshcd_parse_dev_ref_clk_freq ?h] =>
      rewrite (proj1 (@scalar_parsers_none h Hnp))
    | |- context [ufshcd_parse_pm_levels ?h] =>
      rewrite (proj1 (proj2 (@scalar_parsers_none h Hnp)))
    | |- context [ufshcd_parse_gear_limits ?h] =>
      rewrite (proj1 (proj2 (proj2 (@scalar_parsers_none h Hnp))))
    | |- context [ufshcd_parse_cmd_timeout ?h] =>
      rewrite (proj2 (proj2 (proj2 (@scalar_parsers_none h Hnp))))
    | |- context [ufshcd_parse_force_g4_flag ?h] =>
      rewrite (force_g4_flag_eq h)
    end.

(** X17: none of the five scalar parsers touches what the other parsers
    resolved: the device, the variant, the clock list, the regulator
    slots and the reset, pin-control and extcon handles of the adapter are
    what they were. *)
Theorem scalar_parsers_keep_resources f hba :
  In f scalar_parsers -> resources (f hba) = resources hba.
Proof.
  unfold scalar_parsers. cbn [In]. intros Hf.
  destruct (of_node (dev hba)) as [np|] eqn:Hnp.
  - destruct Hf as [<-|[<-|[<-|[<-|[<-|[]]]]]]; scalars np Hnp; reflexivity.
  - destruct Hf as [<-|[<-|[<-|[<-|[<-|[]]]]]]; scalars_none Hnp;
      reflexivity.
Qed.

(** X18: the five scalar parsers are independent of each other: any two
    of them give the same adapter in either order, so that the order in
    which the probe calls them does not matter. *)
Theorem scalar_parsers_commute f g hba :
  In f scalar_parsers -> In g scalar_parsers -> f (g hba) = g (f hba).
Proof.
  unfold scalar_parsers. cbn [In]. intros Hf Hg.
  destruct (of_node (dev hba)) as [np|] eqn:Hnp.
  - destruct Hf as [<-|[<-|[<-|[<-|[<-|[]]]]]];
      destruct Hg as [<-|[<-|[<-|[<-|[<-|[]]]]]];
      try reflexivity; scalars np Hnp; reflexivity.
  - destruct Hf as [<-|[<-|[<-|[<-|[<-|[]]]]]];
      destruct Hg as [<-|[<-|[<-|[<-|[<-|[]]]]]];
      try reflexivity; scalars_none Hnp; reflexivity.
Qed.

(** X19: when the device has a node, the frequency of the reference clock
    is in the range of the enumeration after its parser, provided the
    default is: a value of "dev-ref-clk-freq" in the range is kept as it
    is. *)
Theorem dev_ref_clk_freq_in_range hba np :
  of_node (dev hba) = Some np ->
  0 <= REF_CLK_FREQ_26_MHZ <= REF_CLK_FREQ_52_MHZ ->
  0 <= dev_ref_clk_freq (ufshcd_parse_dev_ref_clk_freq hba)
    <= REF_CLK_FREQ_52_MHZ
  /\ (forall v,
         of_property_read_u32 np "dev-ref-clk-freq" = k_ok v ->
         0 <= v <= REF_CLK_FREQ_52_MHZ ->
         dev_ref_clk_freq (ufshcd_parse_dev_ref_clk_freq hba) = v).
Proof.
  intros Hnp Hdef. unfold ufshcd_parse_dev_ref_clk_freq. rewrite Hnp.
  destruct (of_property_read_u32 np "dev-ref-clk-freq") as [v|e].
  - cbn [k_status Z.eqb negb orb].
    replace (dev_ref_clk_freq (set_dev_ref_clk_freq hba v)) with v
      by reflexivity.
    destruct (Z.ltb_spec v 0) as [Hneg|Hpos]; cbn [orb].
    + split; [ exact Hdef | ]. intros w Hw Hr. injection Hw as <-. lia.
    + destruct (v >? REF_CLK_FREQ_52_MHZ) eqn:Hbig.
      * apply Z.gtb_lt in Hbig. split; [ exact Hdef | ].
        intros w Hw Hr. injection Hw as <-. lia.
      * assert (Hle : v <= REF_CLK_FREQ_52_MHZ).
        { apply Z.le_ngt. intros Hlt. apply Z.gtb_lt in Hlt. congruence. }
        cbn [dev_ref_clk_freq set_dev_ref_clk_freq].
        split; [ lia | ]. intros w Hw _. now injection Hw as <-.
  - cbn. split; [ exact Hdef | ]. intros w Hw. discriminate Hw.
Qed.

(** X20: when the device has a node, the scalar parsers overwrite every
    tuning field: what the adapter held in them before does not matter,
    two adapters of the same device come out with the same tuning. *)
Theorem scalar_stage_overwrites hba hba' np :
  of_node (dev hba) = Some np ->
  dev hba' = dev hba ->
  tuning (scalar_stage hba') = tuning (scalar_stage hba).
Proof.
  intros Hnp Hdev.
  assert (Hnp' : of_node (dev hba') = Some np) by (now rewrite Hdev).
  unfold scalar_stage, scalar_parsers. cbn [fold_left].
  scalars np Hnp. scalars np Hnp'.
  unfold tuning. cbn. rewrite Hdev. reflexivity.
Qed.

(** X21: the defaults of the tuning fields: when the device has a node
    and none of the eight tuning properties can be read, the scalar
    parsers leave the reference clock at [REF_CLK_FREQ_26_MHZ], the two
    power levels and the four gear limits at [-1], the command timeout at
    [0], and the force-gear-four flag as the device property says. *)
Theorem scalar_stage_defaults hba np :
  of_node (dev hba) = Some np ->
  (forall p, In p scalar_properties ->
             k_status (of_property_read_u32 np p) <> 0) ->
  tuning (scalar_stage hba)
  = (REF_CLK_FREQ_26_MHZ, -1, -1, (-1, -1, -1, -1), 0,
     device_property_read_bool (dev hba) "force-g4").
Proof.
  intros Hnp Hbad.
  assert (Herr : forall p, In p scalar_properties ->
                           exists e, of_property_read_u32 np p = k_err e).
  { intros p Hp. specialize (Hbad p Hp).
    destruct (of_property_read_u32 np p) as [v|e];
      [ exfalso; apply Hbad; reflexivity | now exists e ]. }
  unfold scalar_properties in Herr.
  unfold scalar_stage, scalar_parsers. cbn [fold_left].
  scalars np Hnp.
  unfold tuning, ref_clk_or_default, u32_or. cbn.
  destruct (Herr "dev-ref-clk-freq" ltac:(cbn; auto 10)) as [e0 ->].
  destruct (Herr "rpm-level" ltac:(cbn; auto 10)) as [e1 ->].
  destruct (Herr "spm-level" ltac:(cbn; auto 10)) as [e2 ->].
  destruct (Herr "limit-tx-hs-gear" ltac:(cbn; auto 10)) as [e3 ->].
  destruct (Herr "limit-rx-hs-gear" ltac:(cbn; auto 10)) as [e4 ->].
  destruct (Herr "limit-tx-pwm-gear" ltac:(cbn; auto 10)) as [e5 ->].
  destruct (Herr "limit-rx-pwm-gear" ltac:(cbn; auto 10)) as [e6 ->].
  destruct (Herr "scsi-cmd-timeout" ltac:(cbn; auto 10)) as [e7 ->].
  reflexivity.
Qed.

(** X22: on a device without a node the tuning fields get no default:
    the four parsers that read the node return the adapter as it was, and
    only the force-gear-four flag is set, from the device property;
    [ufshcd_init_lanes_per_dir], which does not test the node, sets the
    default of two lanes and logs the error of the read. *)
Theorem scalar_parsers_without_node hba k :
  of_node (dev hba) = None ->
  scalar_stage hba
  = set_force_g4 hba (device_property_read_bool (dev hba) "force-g4")
  /\ ufshcd_init_lanes_per_dir hba k
     = (set_lanes_per_direction hba UFSHCD_DEFAULT_LANES_PER_DIRECTION,
        snd (ufshcd_init_lanes_per_dir hba k))
  /\ dmesg (kernel_of (ufshcd_init_lanes_per_dir hba k))
     = (dmesg k ++ [lanes_debug (of_null_node_errno (dev hba))])%list.
Proof.
  intros Hnp. split.
  - unfold scalar_stage, scalar_parsers. cbn [fold_left].
    scalars_none Hnp. reflexivity.
  - unfold ufshcd_init_lanes_per_dir, of_property_read_u32_dev.
    rewrite Hnp. split; reflexivity.
Qed.

(** X23: [ufshcd_parse_extcon_info] fails exactly when the extcon
    framework answers an error other than [-ENODEV], and then returns that
    error; whenever the framework answers an error, [-ENODEV] included,
    the adapter is left as it was, and otherwise the extcon handle of the
    adapter is the answer and nothing else changes. *)
Theorem parse_extcon_info_cases hba :
  (fst (ufshcd_parse_extcon_info hba) <> 0
   <-> exists e, extcon_get_edev_by_phandle (dev hba) 0 = ERR_PTR e
                 /\ e <> ENODEV)
  /\ (forall e, extcon_get_edev_by_phandle (dev hba) 0 = ERR_PTR e ->
                snd (ufshcd_parse_extcon_info hba) = hba
                /\ (e <> ENODEV ->
                    fst (ufshcd_parse_extcon_info hba) = Z.neg e))
  /\ (IS_ERR (extcon_get_edev_by_phandle (dev hba) 0) = false ->
      snd (ufshcd_parse_extcon_info hba)
      = set_extcon hba (handle_of (extcon_get_edev_by_phandle (dev hba) 0))).
Proof.
  unfold ufshcd_parse_extcon_info.
  destruct (extcon_get_edev_by_phandle (dev hba) 0) as [|h|e];
    cbn [IS_ERR PTR_ERR handle_of andb negb fst snd].
  - split; [ split; [ intros Hz; now elim Hz | intros (e & He & _);
                                                 discriminate He ] | ].
    split; [ intros e He; discriminate He | reflexivity ].
  - split; [ split; [ intros Hz; now elim Hz | intros (e & He & _);
                                                 discriminate He ] | ].
    split; [ intros e He; discriminate He | reflexivity ].
  - destruct (Z.eqb_spec (Z.neg e) (Z.neg ENODEV)) as [E|E];
      cbn [negb fst snd].
    + injection E as ->.
      split; [ split; [ intros Hz; now elim Hz | ] | ].
      * intros (e & He & Hne). injection He as <-. now elim Hne.
      * split; [ | intros Habs; discriminate Habs ].
        intros e He. injection He as <-. split; [ reflexivity | ].
        intros Hne. now elim Hne.
    + split; [ split; [ intros _; exists e; split; [ reflexivity | ];
                        intros ->; now apply E
                      | intros _ Hz; discriminate Hz ] | ].
      split; [ | intros Habs; discriminate Habs ].
      intros e' He. injection He as <-. split; reflexivity.
Qed.

(** The scalar parsers leave the resources, and their result does not
    depend on what other parsers did to the rest of the adapter. *)
Lemma scalar_stage_resources hba :
  resources (scalar_stage hba) = resources hba.
Proof.
  unfold scalar_stage, scalar_parsers. cbn [fold_left].
  destruct (of_node (dev hba)) as [np|] eqn:Hnp.
  - scalars np Hnp. reflexivity.
  - scalars_none Hnp. reflexivity.
Qed.

Lemma scalar_stage_frame hba hba' :
  dev hba' = dev hba -> tuning hba' = tuning hba ->
  tuning (scalar_stage hba') = tuning (scalar_stage hba).
Proof.
  intros Hdev Htun. unfold scalar_stage, scalar_parsers. cbn [fold_left].
  destruct (of_node (dev hba)) as [np|] eqn:Hnp.
  - assert (Hnp' : of_node (dev hba') = Some np) by (now rewrite Hdev).
    scalars np Hnp. scalars np Hnp'.
    unfold tuning. cbn. rewrite Hdev. reflexivity.
  - assert (Hnp' : of_node (dev hba') = None) by (now rewrite Hdev).
    scalars_none Hnp. scalars_none Hnp'.
    unfold tuning in Htun |- *. cbn. rewrite Hdev.
    injection Htun as -> -> -> -> -> -> -> -> _. reflexivity.
Qed.

End ScalarCases.

Lemma scalar_parsers_keep_resources_witness :
  resources (ufshcd_parse_gear_limits (hba_used (dev_plain dt_tuning)))
  = resources (hba_used (dev_plain dt_tuning)).
Proof.
  apply (@scalar_parsers_keep_resources linux_headers
           ufshcd_parse_gear_limits (hba_used (dev_plain dt_tuning))).
  right. right. left. reflexivity.
Defined.

Lemma scalar_parsers_commute_witness :
  ufshcd_parse_dev_ref_clk_freq (H := linux_headers)
    (ufshcd_parse_pm_levels (hba_used (dev_plain dt_tuning)))
  = ufshcd_parse_pm_levels
      (ufshcd_parse_dev_ref_clk_freq (H := linux_headers)
         (hba_used (dev_plain dt_tuning))).
Proof.
  apply (@scalar_parsers_commute linux_headers
           (ufshcd_parse_dev_ref_clk_freq (H := linux_headers))
           ufshcd_parse_pm_levels (hba_used (dev_plain dt_tuning))).
  - left. reflexivity.
  - right. left. reflexivity.
Defined.

Lemma dev_ref_clk_freq_in_range_witness :
  0 <= dev_ref_clk_freq
         (ufshcd_parse_dev_ref_clk_freq (H := linux_headers)
            (hba_zero (dev_plain dt_tuning))) <= 3
  /\ (forall v,
         of_property_read_u32 (node_of_dt dt_tuning) "dev-ref-clk-freq"
         = k_ok v ->
         0 <= v <= 3 ->
         dev_ref_clk_freq
           (ufshcd_parse_dev_ref_clk_freq (H := linux_headers)
              (hba_zero (dev_plain dt_tuning))) = v).
Proof.
  apply (@dev_ref_clk_freq_in_range linux_headers
           (hba_zero (dev_plain dt_tuning)) (node_of_dt dt_tuning)).
  - reflexivity.
  - cbn. lia.
Defined.

Lemma scalar_stage_overwrites_witness :
  tuning (scalar_stage (H := linux_headers) (hba_used (dev_plain dt_tuning)))
  = tuning (scalar_stage (H := linux_headers)
              (hba_zero (dev_plain dt_tuning))).
Proof.
  apply (@scalar_stage_overwrites linux_headers
           (hba_zero (dev_plain dt_tuning)) (hba_used (dev_plain dt_tuning))
           (node_of_dt dt_tuning)).
  - reflexivity.
  - reflexivity.
Defined.

Lemma scalar_stage_defaults_witness :
  tuning (scalar_stage (H := linux_headers) (hba_used (dev_plain dt_empty)))
  = (1, -1, -1, (-1, -1, -1, -1), 0, false).
Proof.
  apply (@scalar_stage_defaults linux_headers
           (hba_used (dev_plain dt_empty)) (node_of_dt dt_empty)).
  - reflexivity.
  - intros p _ Habs. discriminate Habs.
Defined.

Lemma scalar_parsers_without_node_witness :
  scalar_stage (H := linux_headers) (hba_used dev_no_node)
  = set_force_g4 (hba_used dev_no_node) false
  /\ ufshcd_init_lanes_per_dir (hba_used dev_no_node) kernel_boot
     = (set_lanes_per_direction (hba_used dev_no_node) 2,
        snd (ufshcd_init_lanes_per_dir (hba_used dev_no_node) kernel_boot))
  /\ dmesg (kernel_of (ufshcd_init_lanes_per_dir (hba_used dev_no_node)
                         kernel_boot))
     = [lanes_debug 22%positive].
Proof.
  apply (@scalar_parsers_without_node linux_headers
           (hba_used dev_no_node) kernel_boot).
  reflexivity.
Defined.

(** ** The probe, whatever stage ends it *)

Section ProbeCases.

Context {H : kernel_headers}.

Variable core : ufshcd_core.

(** X24: the probe binds all or nothing: it returns [0] or a negative
    status; it returns [0] exactly when it has called
    [platform_set_drvdata], and then one more adapter is allocated and the
    driver data holds an adapter; when it fails, at whatever stage, the
    count of adapters and the driver data are what they were. *)
Theorem probe_all_or_nothing pdev var k :
  fst (ufshcd_pltfrm_init core pdev var k) <= 0
  /\ (fst (ufshcd_pltfrm_init core pdev var k) = 0
      <-> called c_platform_set_drvdata (probe_calls core pdev var k))
  /\ (fst (ufshcd_pltfrm_init core pdev var k) = 0 ->
      hosts (snd (ufshcd_pltfrm_init core pdev var k)) = S (hosts k)
      /\ exists hba,
          driver_data (snd (ufshcd_pltfrm_init core pdev var k)) = Some hba)
  /\ (fst (ufshcd_pltfrm_init core pdev var k) < 0 ->
      hosts (snd (ufshcd_pltfrm_init core pdev var k)) = hosts k
      /\ driver_data (snd (ufshcd_pltfrm_init core pdev var k))
         = driver_data k).
Proof.
  destruct (probe_outcome core pdev var k)
    as (o & Hv & -> & Hc & -> & -> & _).
  rewrite (@probe_calls_outcome H core pdev var k o Hc). clear Hc.
  unfold called.
  destruct o as [e0|i|i e0|i [err|err|err|pin err|pin err|pin hba]];
    cbn in Hv |- *;
    (split; [ lia | ]);
    (split;
     [ split;
       [ intros Hz; first [ discriminate Hz | lia | auto 20 ]
       | intros Hin;
         first [ reflexivity | exfalso; intuition discriminate ] ]
     | ]);
    (split;
     [ intros Hz;
       first [ discriminate Hz | lia
             | split; [ reflexivity | eexists; reflexivity ] ]
     | intros Hz; first [ lia | split; reflexivity ] ]).
Qed.

(** X25: the adapter is given back exactly when it was allocated and the
    probe failed: [ufshcd_dealloc_host] is called if and only if
    [ufshcd_alloc_host] has returned [0] and the probe returns a negative
    status, and then it is the last call of the probe and is called
    once. *)
Theorem probe_dealloc_discipline pdev var k :
  (called c_ufshcd_dealloc_host (probe_calls core pdev var k)
   <-> In (c_ufshcd_alloc_host, 0) (probe_calls core pdev var k)
       /\ fst (ufshcd_pltfrm_init core pdev var k) < 0)
  /\ (called c_ufshcd_dealloc_host (probe_calls core pdev var k) ->
      exists l,
        probe_calls core pdev var k = (l ++ [(c_ufshcd_dealloc_host, 0)])%list
        /\ ~ called c_ufshcd_dealloc_host l).
Proof.
  destruct (probe_outcome core pdev var k)
    as (o & Hv & -> & Hc & _).
  rewrite (@probe_calls_outcome H core pdev var k o Hc). clear Hc.
  unfold called.
  destruct o as [e0|i|i e0|i [err|err|err|pin err|pin err|pin hba]];
    cbn in Hv |- *.
  1-3: (split;
        [ split; [ intros Hin; exfalso; intuition discriminate
                 | intros [Hin _]; exfalso; intuition congruence ]
        | intros Hin; exfalso; intuition discriminate ]).
  1-5: (split;
        [ split; [ intros _; split; [ auto 20 | lia ] | intros _; auto 20 ]
        | intros _;
          match goal with
          | |- exists l, ?a :: ?b :: ?c :: ?rest = _ /\ _ =>
            exists (removelast (a :: b :: c :: rest))
          end;
          cbn; split; [ reflexivity | intuition discriminate ] ]).
  split;
    [ split; [ intros Hin; exfalso; intuition discriminate
             | intros [_ Hlt]; lia ]
    | intros Hin; exfalso; intuition discriminate ].
Qed.

(** X26: a probe that cannot map the registers or has no interrupt stops
    before it allocates anything: an error of [devm_ioremap_resource] is
    returned as it is, and [platform_get_irq] is not called; a negative
    interrupt number makes the probe return [-ENODEV], whatever the number
    was, with one error line; in both cases the adapter count, the
    allocator and the driver data are untouched. *)
Theorem probe_fails_before_allocation pdev var k :
  let mmio_base :=
    devm_ioremap_resource (pdev_dev pdev)
      (platform_get_resource_mem pdev 0) in
  IS_ERR mmio_base = true \/ platform_get_irq pdev 0 < 0 ->
  fst (ufshcd_pltfrm_init core pdev var k)
  = (if IS_ERR mmio_base then PTR_ERR mmio_base else Z.neg ENODEV)
  /\ probe_calls core pdev var k
     = (c_devm_ioremap_resource, PTR_ERR mmio_base)
         :: (if IS_ERR mmio_base then []
             else [(c_platform_get_irq, platform_get_irq pdev 0)])
  /\ dmesg (snd (ufshcd_pltfrm_init core pdev var k))
     = (dmesg k ++ if IS_ERR mmio_base then [] else [irq_error])%list
  /\ hosts (snd (ufshcd_pltfrm_init core pdev var k)) = hosts k
  /\ nr_allocs (snd (ufshcd_pltfrm_init core pdev var k)) = nr_allocs k
  /\ driver_data (snd (ufshcd_pltfrm_init core pdev var k)) = driver_data k.
Proof.
  intros mmio_base Hbad. subst mmio_base.
  unfold probe_calls, ufshcd_pltfrm_init.
  destruct (devm_ioremap_resource (pdev_dev pdev)
              (platform_get_resource_mem pdev 0)) as [|m|e];
    cbn [IS_ERR PTR_ERR] in Hbad |- *.
  3: { unfold bind, log_call, ret. cbn.
       rewrite skipn_app, skipn_all, Nat.sub_diag, app_nil_r.
       repeat split. }
  all: destruct Hbad as [Habs|Hirq]; [ discriminate Habs | ];
    apply Z.ltb_lt in Hirq;
    unfold bind, log_call, dev_err, printk, ret; cbn; rewrite Hirq; cbn;
    rewrite <- app_assoc, skipn_app, skipn_all, Nat.sub_diag;
    repeat split.
Qed.

(** X27: the pin-control parser cannot stop the probe: whatever status
    it returned, the probe goes on to the five scalar parsers and to the
    extcon parser, and it returns [0] exactly when the extcon parser and
    [ufshcd_init] both returned [0]. *)
Theorem probe_pinctrl_never_fatal pdev var k s :
  In (c_ufshcd_parse_pinctrl_info, s) (probe_calls core pdev var k) ->
  (forall c, In c after_pinctrl -> called c (probe_calls core pdev var k))
  /\ (fst (ufshcd_pltfrm_init core pdev var k) = 0
      <-> In (c_ufshcd_parse_extcon_info, 0) (probe_calls core pdev var k)
          /\ In (c_ufshcd_init, 0) (probe_calls core pdev var k)).
Proof.
  destruct (probe_outcome core pdev var k)
    as (o & Hv & -> & Hc & _).
  rewrite (@probe_calls_outcome H core pdev var k o Hc). clear Hc.
  unfold called, after_pinctrl.
  destruct o as [e0|i|i e0|i [err|err|err|pin err|pin err|pin hba]];
    cbn in Hv |- *; intros Hin;
    try (exfalso; intuition discriminate).
  - split; [ intros c Hc; intuition (subst; auto 20) | ].
    split; [ intros Hz; lia | ].
    intros [Hext _].
    repeat (destruct Hext as [Hext|Hext]; [ try discriminate Hext | ]);
      try contradiction.
    injection Hext as ->. lia.
  - split; [ intros c Hc; intuition (subst; auto 20) | ].
    split; [ intros Hz; lia | ].
    intros [_ Hini].
    repeat (destruct Hini as [Hini|Hini]; [ try discriminate Hini | ]);
      try contradiction.
    injection Hini as ->. lia.
  - split; [ intros c Hc; intuition (subst; auto 20) | ].
    split; [ intros _; split; auto 20 | reflexivity ].
Qed.

End ProbeCases.

Lemma probe_fails_before_allocation_witness :
  fst (ufshcd_pltfrm_init (H := linux_headers) (core_with (k_ok tt))
         (pdev_no_irq dev_ref_clk) 0%nat kernel_boot) = -19
  /\ probe_calls (H := linux_headers) (core_with (k_ok tt))
       (pdev_no_irq dev_ref_clk) 0%nat kernel_boot
     = [ (c_devm_ioremap_resource, 0); (c_platform_get_irq, -517) ]
  /\ dmesg (snd (ufshcd_pltfrm_init (H := linux_headers)
                   (core_with (k_ok tt)) (pdev_no_irq dev_ref_clk) 0%nat
                   kernel_boot))
     = [irq_error]
  /\ hosts (snd (ufshcd_pltfrm_init (H := linux_headers)
                   (core_with (k_ok tt)) (pdev_no_irq dev_ref_clk) 0%nat
                   kernel_boot)) = 0%nat
  /\ nr_allocs (snd (ufshcd_pltfrm_init (H := linux_headers)
                       (core_with (k_ok tt)) (pdev_no_irq dev_ref_clk) 0%nat
                       kernel_boot)) = 0%nat
  /\ driver_data (snd (ufshcd_pltfrm_init (H := linux_headers)
                         (core_with (k_ok tt)) (pdev_no_irq dev_ref_clk)
                         0%nat kernel_boot)) = None.
Proof.
  apply (@probe_fails_before_allocation linux_headers (core_with (k_ok tt))
           (pdev_no_irq dev_ref_clk) 0%nat kernel_boot).
  right. cbn. lia.
Defined.

Lemma probe_pinctrl_never_fatal_witness :
  (forall c, In c after_pinctrl ->
             called c (probe_calls (H := linux_headers) (core_with (k_ok tt))
                         (pdev_of dev_no_pins) 0%nat kernel_boot))
  /\ (fst (ufshcd_pltfrm_init (H := linux_headers) (core_with (k_ok tt))
             (pdev_of dev_no_pins) 0%nat kernel_boot) = 0
      <-> In (c_ufshcd_parse_extcon_info, 0)
            (probe_calls (H := linux_headers) (core_with (k_ok tt))
               (pdev_of dev_no_pins) 0%nat kernel_boot)
          /\ In (c_ufshcd_init, 0)
               (probe_calls (H := linux_headers) (core_with (k_ok tt))
                  (pdev_of dev_no_pins) 0%nat kernel_boot)).
Proof.
  apply (@probe_pinctrl_never_fatal linux_headers (core_with (k_ok tt))
           (pdev_of dev_no_pins) 0%nat kernel_boot (-2)).
  vm_compute. auto 10.
Defined.

(** ** The adapter the probe publishes, and the DMA mask *)

Lemma dma_mask_log_call c s k : dma_mask (snd (log_call c s k)) = dma_mask k.
Proof. reflexivity. Qed.

Lemma dma_mask_printk l f a k : dma_mask (snd (printk l f a k)) = dma_mask k.
Proof. reflexivity. Qed.

Lemma dma_mask_set_hosts n k : dma_mask (snd (set_hosts n k)) = dma_mask k.
Proof. reflexivity. Qed.

Lemma dma_mask_set_driver_data d k :
  dma_mask (snd (set_driver_data d k)) = dma_mask k.
Proof. reflexivity. Qed.

Lemma dma_mask_set_dma_mask m k : dma_mask (snd (set_dma_mask m k)) = m.
Proof. reflexivity. Qed.

Lemma calls_set_driver_data d k :
  calls (snd (set_driver_data d k)) = calls k.
Proof. reflexivity. Qed.

Lemma calls_set_dma_mask m k : calls (snd (set_dma_mask m k)) = calls k.
Proof. reflexivity. Qed.

Lemma driver_data_set_driver_data d k :
  driver_data (snd (set_driver_data d k)) = d.
Proof. reflexivity. Qed.

Lemma driver_data_set_dma_mask m k :
  driver_data (snd (set_dma_mask m k)) = driver_data k.
Proof. reflexivity. Qed.

#[local] Hint Rewrite dma_mask_log_call dma_mask_printk dma_mask_set_hosts
  dma_mask_set_driver_data dma_mask_set_dma_mask calls_set_driver_data
  calls_set_dma_mask driver_data_set_driver_data driver_data_set_dma_mask
  : kernel.

Lemma resolved_eq hba hba' :
  resolved hba' = resolved hba ->
  dev hba' = dev hba /\ var hba' = var hba
  /\ clk_list_head hba' = clk_list_head hba
  /\ vreg_info hba' = vreg_info hba /\ core_reset hba' = core_reset hba
  /\ pctrl hba' = pctrl hba /\ tuning hba' = tuning hba.
Proof.
  unfold resolved. intros E.
  assert (Ht := f_equal snd E).
  injection E as E1 E2 E3 E4 E5 E6 _.
  repeat split; assumption.
Qed.

Lemma resources_eq hba hba' :
  resources hba' = resources hba ->
  dev hba' = dev hba /\ var hba' = var hba
  /\ clk_list_head hba' = clk_list_head hba
  /\ vreg_info hba' = vreg_info hba /\ core_reset hba' = core_reset hba
  /\ pctrl hba' = pctrl hba /\ extcon hba' = extcon hba.
Proof.
  unfold resources. intros E. injection E as E1 E2 E3 E4 E5 E6 E7.
  repeat split; assumption.
Qed.

Section ProbeAdapter.

Context {H : kernel_headers}.

Variable core : ufshcd_core.
Variable mmio_base : kptr iomem.
Variable irq : Z.

(** The extcon parser settles nothing but the extcon handle. *)
Lemma extcon_info_resolved hba :
  resolved (snd (ufshcd_parse_extcon_info hba)) = resolved hba.
Proof.
  unfold ufshcd_parse_extcon_info.
  destruct (extcon_get_edev_by_phandle (dev hba) 0) as [|h|e];
    cbn [IS_ERR andb negb]; try reflexivity.
  destruct (negb _); reflexivity.
Qed.

(** What [ufshcd_init_lanes_per_dir] returns and leaves. *)
Lemma init_lanes_per_dir_run hba k :
  fst (ufshcd_init_lanes_per_dir hba k)
  = set_lanes_per_direction hba (lanes_of (dev hba))
  /\ same_bindings k (snd (ufshcd_init_lanes_per_dir hba k)).
Proof.
  split; [ | apply (parses_init_lanes_per_dir hba k) ].
  unfold ufshcd_init_lanes_per_dir, lanes_of.
  destruct (of_property_read_u32_dev (dev hba) "lanes-per-direction");
    reflexivity.
Qed.

(** The end of the probe, from the external connector on. *)
Lemma extcon_stage_end hba k :
  stage_end (fun hba' => ufshcd_init core hba' mmio_base irq = k_ok tt
                         /\ resolved hba' = resolved hba
                         /\ lanes_per_direction hba' = lanes_of (dev hba))
    k (pltfrm_init_extcon core mmio_base irq hba k).
Proof.
  unfold stage_end, pltfrm_init_extcon.
  pose proof (extcon_info_resolved hba) as Hres.
  destruct (ufshcd_parse_extcon_info hba) as [err hba1]. cbn [snd] in Hres.
  assert (Hdev : dev hba1 = dev hba) by (apply (resolved_eq Hres)).
  step.
  destruct (Z.eqb_spec err 0) as [->|Hne]; cbn [negb].
  2: { unfold dealloc_host. repeat step. logged.
       split; [ intros Hz; contradiction | ].
       exists [(c_ufshcd_parse_extcon_info, err); (c_ufshcd_dealloc_host, 0)].
       rewrite <- app_assoc. split; reflexivity. }
  step. logged. step. step.
  match goal with
  | |- context [ufshcd_init_lanes_per_dir hba1 ?K] =>
    assert (HK : calls K = (calls k ++ [(c_ufshcd_parse_extcon_info, 0)])%list
                 /\ dma_mask K = dma_mask_after (dma_mask k))
      by (destruct (dma_mask k) eqn:Hm; logged; rewrite ?Hm;
          split; reflexivity);
    generalize dependent K
  end.
  intros K1 [Hc1 Hm1].
  destruct (init_lanes_per_dir_run hba1 K1) as [Hval (Hc2 & _ & _ & Hm2)].
  destruct (ufshcd_init_lanes_per_dir hba1 K1) as [hba2 K2].
  cbn [fst snd] in Hval, Hc2, Hm2 |- *. subst hba2.
  repeat step.
  destruct (ufshcd_init core (set_lanes_per_direction hba1 (lanes_of (dev hba1)))
              mmio_base irq) as [[]|e] eqn:Hinit;
    cbn [k_status Z.eqb negb].
  - repeat step. logged. split.
    + intros _. eexists. split; [ reflexivity | ].
      split; [ exact Hinit | ]. split; [ exact Hres | ].
      cbn. now rewrite Hdev.
    + eexists. rewrite Hc2, Hc1, Hm2, Hm1, <- !app_assoc.
      split; reflexivity.
  - unfold dealloc_host. repeat step. logged. split.
    + intros Hz. discriminate Hz.
    + eexists. rewrite Hc2, Hc1, Hm2, Hm1, <- !app_assoc.
      split; reflexivity.
Qed.

(** What the pin-control parser makes of the adapter. *)
Lemma pinctrl_info_value hba :
  snd (ufshcd_parse_pinctrl_info hba)
  = set_pctrl hba (handle_of (devm_pinctrl_get (dev hba))).
Proof.
  unfold ufshcd_parse_pinctrl_info.
  destruct (devm_pinctrl_get (dev hba)); reflexivity.
Qed.

Lemma mask_tested_app l0 l :
  mask_tested l0 = false -> mask_tested (l0 ++ l) = mask_tested l.
Proof. unfold mask_tested. rewrite existsb_app. now intros ->. Qed.

(** The probe from the reset line on. *)
Lemma reset_stage_end hba k :
  stage_end
    (fun hba' =>
       ufshcd_init core hba' mmio_base irq = k_ok tt
       /\ dev hba' = dev hba /\ var hba' = var hba
       /\ clk_list_head hba' = clk_list_head hba
       /\ IS_ERR (devm_reset_control_get (dev hba) "core_reset") = false
       /\ core_reset hba'
          = handle_of (devm_reset_control_get (dev hba) "core_reset")
       /\ pctrl hba' = handle_of (devm_pinctrl_get (dev hba))
       /\ tuning hba' = tuning (scalar_stage hba)
       /\ lanes_per_direction hba' = lanes_of (dev hba))
    k (pltfrm_init_reset core mmio_base irq hba k).
Proof.
  unfold stage_end, pltfrm_init_reset, ufshcd_parse_reset_info.
  destruct (devm_reset_control_get (dev hba) "core_reset") as [|h|e] eqn:Hrst;
    cbn [IS_ERR PTR_ERR handle_of].
  3: { unfold dealloc_host. repeat step. cbn [Z.eqb negb]. repeat step.
       logged. split; [ intros Hz; discriminate Hz | ].
       eexists. rewrite <- ?app_assoc. split; reflexivity. }
  all: repeat step; cbn [Z.eqb negb];
    match goal with
    | |- context [ufshcd_parse_pinctrl_info ?h] =>
      pose proof (pinctrl_info_value h) as Hpin;
      destruct (ufshcd_parse_pinctrl_info h) as [pin hba2]
    end;
    cbn [snd dev set_core_reset] in Hpin; subst hba2;
    repeat step;
    match goal with
    | |- context [pltfrm_init_extcon core mmio_base irq
                    (ufshcd_parse_force_g4_flag
                       (ufshcd_parse_cmd_timeout
                          (ufshcd_parse_gear_limits
                             (ufshcd_parse_pm_levels
                                (ufshcd_parse_dev_ref_clk_freq ?hb))))) ?K] =>
      change (ufshcd_parse_force_g4_flag
                (ufshcd_parse_cmd_timeout
                   (ufshcd_parse_gear_limits
                      (ufshcd_parse_pm_levels
                         (ufshcd_parse_dev_ref_clk_freq hb)))))
        with (scalar_stage hb);
      pose proof (scalar_stage_resources hb) as Hsr;
      pose proof (@scalar_stage_frame H hba hb eq_refl eq_refl) as Hsf;
      destruct (extcon_stage_end (scalar_stage hb) K) as [Hok (l & Hc & Hm)];
      assert (HK : calls K = (calls k
                              ++ [ (c_ufshcd_parse_reset_info, 0);
                                   (c_ufshcd_parse_pinctrl_info, pin);
                                   (c_ufshcd_parse_dev_ref_clk_freq, 0);
                                   (c_ufshcd_parse_pm_levels, 0);
                                   (c_ufshcd_parse_gear_limits, 0);
                                   (c_ufshcd_parse_cmd_timeout, 0);
                                   (c_ufshcd_parse_force_g4_flag, 0) ])%list
                   /\ dma_mask K = dma_mask k)
        by (destruct (negb (pin =? 0)); logged; rewrite <- ?app_assoc;
            split; reflexivity);
      destruct HK as [HKc HKm]; rewrite HKc in Hc; rewrite HKm in Hm;
      generalize dependent (pltfrm_init_extcon core mmio_base irq
                              (scalar_stage hb) K)
    end;
    intros r Hok Hc Hm; split;
    [ intros Hz; destruct (Hok Hz) as (hba' & Hd & Hinit & Hres & Hlanes);
      exists hba'; split; [ exact Hd | ];
      destruct (resolved_eq Hres) as (R1 & R2 & R3 & R4 & R5 & R6 & R7);
      destruct (resources_eq Hsr) as (S1 & S2 & S3 & S4 & S5 & S6 & S7);
      rewrite S1 in Hlanes;
      rewrite S1 in R1; rewrite S2 in R2; rewrite S3 in R3;
      rewrite S5 in R5; rewrite S6 in R6; rewrite Hsf in R7;
      cbv beta delta [set_pctrl set_core_reset] in R1, R2, R3, R5, R6, Hlanes;
      cbn [dev var clk_list_head core_reset pctrl]
        in R1, R2, R3, R5, R6, Hlanes;
      repeat split; first [ assumption | reflexivity ]
    | eexists; split;
      [ rewrite Hc, <- app_assoc; reflexivity
      | rewrite Hm, mask_tested_app by reflexivity; reflexivity ] ].
Qed.

(** What the clock parser and the regulator parser make of the adapter. *)
Lemma clock_info_frame hba k :
  clocks_appended hba (value_of (ufshcd_parse_clock_info hba k))
  /\ same_bindings k (kernel_of (ufshcd_parse_clock_info hba k)).
Proof. apply (parses_clock_info_appends hba k). Qed.

Lemma regulator_info_frame hba k :
  value_of (ufshcd_parse_regulator_info hba k)
  = set_vreg_info hba
      (vreg_info (value_of (ufshcd_parse_regulator_info hba k)))
  /\ same_bindings k (kernel_of (ufshcd_parse_regulator_info hba k)).
Proof.
  assert (Hfr : parses (ufshcd_parse_regulator_info hba)
                  (fun r => snd r = set_vreg_info hba (vreg_info (snd r)))).
  { unfold ufshcd_parse_regulator_info.
    repeat
      (eapply parses_bind; [ apply parses_populate_vreg | ];
       let err := fresh "err" in
       let v := fresh "v" in
       intros [err v] _; cbv beta iota;
       try (destruct (negb (err =? 0));
            [ apply parses_ret; reflexivity | ])).
    apply parses_ret. reflexivity. }
  apply Hfr.
Qed.

(** The probe once the adapter is allocated. *)
Lemma host_stage_end vr hba k :
  stage_end
    (fun hba' => ufshcd_init core hba' mmio_base irq = k_ok tt
                 /\ probed hba vr hba')
    k (pltfrm_init_host core mmio_base irq vr hba k).
Proof.
  unfold stage_end, pltfrm_init_host. step.
  destruct (clock_info_frame (set_var hba (Some vr)) k)
    as [[cl Hcl] (Hc1 & _ & _ & Hm1)].
  unfold value_of, kernel_of in Hcl, Hc1, Hm1.
  destruct (ufshcd_parse_clock_info (set_var hba (Some vr)) k)
    as [[err1 hba1] k1].
  cbn [fst snd] in *. subst hba1. step.
  destruct (Z.eqb_spec err1 0) as [->|Hne1]; cbn [negb].
  2: { unfold dealloc_host. repeat step. logged.
       split; [ intros Hz; contradiction | ].
       eexists. rewrite Hc1, Hm1, <- ?app_assoc. split; reflexivity. }
  step.
  match goal with
  | |- context [ufshcd_parse_regulator_info ?h ?K] =>
    destruct (regulator_info_frame h K) as [Hfr (Hc2 & _ & _ & Hm2)];
    unfold value_of, kernel_of in Hfr, Hc2, Hm2;
    destruct (ufshcd_parse_regulator_info h K) as [[err2 hba2] k2]
  end.
  cbn [fst snd] in *. autorewrite with kernel in Hc2, Hm2. step.
  destruct (Z.eqb_spec err2 0) as [->|Hne2]; cbn [negb].
  2: { unfold dealloc_host. repeat step. logged.
       split; [ intros Hz; contradiction | ].
       eexists. rewrite Hc2, Hm2, Hc1, Hm1, <- ?app_assoc.
       split; reflexivity. }
  match goal with
  | |- context [pltfrm_init_reset core mmio_base irq hba2 ?K] =>
    destruct (reset_stage_end hba2 K) as [Hok (l & Hc & Hm)];
    assert (HK : calls K = (calls k
                            ++ [ (c_ufshcd_parse_clock_info, 0);
                                 (c_ufshcd_parse_regulator_info, 0) ])%list
                 /\ dma_mask K = dma_mask k)
      by (logged; rewrite Hc2, Hm2, Hc1, Hm1, <- ?app_assoc;
          split; reflexivity);
    destruct HK as [HKc HKm]; rewrite HKc in Hc; rewrite HKm in Hm;
    generalize dependent (pltfrm_init_reset core mmio_base irq hba2 K)
  end.
  intros r Hok Hc Hm. split.
  - intros Hz.
    destruct (Hok Hz)
      as (hba' & Hd & Hinit & P1 & P2 & P3 & P4 & P5 & P6 & P7 & P8).
    exists hba'. split; [ exact Hd | ]. split; [ exact Hinit | ].
    assert (Hdev2 : dev hba2 = dev hba) by (rewrite Hfr; reflexivity).
    assert (Hvar2 : var hba2 = Some vr) by (rewrite Hfr; reflexivity).
    assert (Hclk2 : clk_list_head hba2 = (clk_list_head hba ++ cl)%list)
      by (rewrite Hfr; reflexivity).
    assert (Htun2 : tuning hba2 = tuning hba) by (rewrite Hfr; reflexivity).
    unfold probed. rewrite ?Hdev2 in P1, P4, P5, P6, P8.
    rewrite (@scalar_stage_frame H hba hba2 Hdev2 Htun2) in P7.
    repeat split; try assumption; try congruence.
    exists cl. congruence.
  - eexists. split.
    + rewrite Hc, <- app_assoc. reflexivity.
    + rewrite Hm, mask_tested_app by reflexivity. reflexivity.
Qed.

End ProbeAdapter.

Section Published.

Context {H : kernel_headers}.

Variable core : ufshcd_core.

(** The whole probe. *)
Lemma probe_end pdev vr k :
  stage_end
    (fun hba =>
       exists hba0,
         ufshcd_alloc_host core (pdev_dev pdev) = k_ok hba0
         /\ ufshcd_init core hba
              (devm_ioremap_resource (pdev_dev pdev)
                 (platform_get_resource_mem pdev 0))
              (platform_get_irq pdev 0) = k_ok tt
         /\ probed hba0 vr hba)
    k (ufshcd_pltfrm_init core pdev vr k).
Proof.
  unfold stage_end, ufshcd_pltfrm_init.
  destruct (devm_ioremap_resource (pdev_dev pdev)
              (platform_get_resource_mem pdev 0)) as [|m|e] eqn:Hmap;
    cbn [IS_ERR PTR_ERR].
  3: { step. logged. split; [ intros Hz; discriminate Hz | ].
       eexists. split; reflexivity. }
  all: step; step;
    (destruct (Z.ltb_spec (platform_get_irq pdev 0) 0) as [Hirq|Hirq];
     [ step; logged; split; [ intros Hz; discriminate Hz | ];
       eexists; rewrite <- ?app_assoc; split; reflexivity
     | ]);
    step;
    (destruct (ufshcd_alloc_host core (pdev_dev pdev)) as [hba0|e] eqn:Halloc;
     [ | step; logged; cbn [k_status];
         split; [ intros Hz; discriminate Hz | ];
         eexists; rewrite <- ?app_assoc; split; reflexivity ]);
    step; step;
    match goal with
    | |- context [pltfrm_init_host core ?mm ?iq ?v ?h ?K] =>
      destruct (@host_stage_end H core mm iq v h K)
        as [Hok (l & Hc & Hm)];
      assert (HK : calls K = (calls k
                              ++ [ (c_devm_ioremap_resource, 0);
                                   (c_platform_get_irq,
                                    platform_get_irq pdev 0);
                                   (c_ufshcd_alloc_host, 0) ])%list
                   /\ dma_mask K = dma_mask k)
        by (logged; rewrite <- ?app_assoc; split; reflexivity);
      destruct HK as [HKc HKm]; rewrite HKc in Hc; rewrite HKm in Hm;
      generalize dependent (pltfrm_init_host core mm iq v h K)
    end;
    intros r Hok Hc Hm;
    (split;
     [ intros Hz; destruct (Hok Hz) as (hba & Hd & Hinit & Hp);
       exists hba; split; [ exact Hd | ];
       exists hba0;
       split; [ reflexivity | split; [ exact Hinit | exact Hp ] ]
     | eexists; split;
       [ rewrite Hc, <- app_assoc; reflexivity
       | rewrite Hm, mask_tested_app by reflexivity; reflexivity ] ]).
Qed.

(** X28: the adapter a successful probe stores as driver data is the one
    that [ufshcd_alloc_host] returned, as the parsers left it, and the one
    that [ufshcd_init] accepted: its device is that of the allocated
    adapter, its variant the one given to the probe, its clock list the
    allocated one with clocks appended, its reset line resolved without
    error, its pin-control handle the answer of the framework or [NULL],
    its tuning that of the scalar parsers and its number of lanes that of
    the description. *)
Theorem probe_publishes pdev vr k :
  fst (ufshcd_pltfrm_init core pdev vr k) = 0 ->
  exists hba0 hba,
    ufshcd_alloc_host core (pdev_dev pdev) = k_ok hba0
    /\ driver_data (snd (ufshcd_pltfrm_init core pdev vr k)) = Some hba
    /\ ufshcd_init core hba
         (devm_ioremap_resource (pdev_dev pdev)
            (platform_get_resource_mem pdev 0))
         (platform_get_irq pdev 0) = k_ok tt
    /\ probed hba0 vr hba.
Proof.
  intros Hz.
  destruct (probe_end pdev vr k) as [Hok _].
  destruct (Hok Hz) as (hba & Hd & hba0 & Halloc & Hinit & Hp).
  exists hba0, hba.
  split; [ exact Halloc | ]. split; [ exact Hd | ].
  split; [ exact Hinit | exact Hp ].
Qed.

(** X29: the probe replaces a DMA mask that is [NULL] by the coherent
    mask, and does nothing else to the mask: the mask is looked at exactly
    when the probe gets past the extcon parser, so that it is set after
    every successful probe, stays set when [ufshcd_init] fails afterwards,
    and a mask that was set before the probe is never changed. *)
Theorem probe_dma_mask pdev vr k :
  dma_mask (snd (ufshcd_pltfrm_init core pdev vr k))
  = (if mask_tested (probe_calls core pdev vr k)
     then dma_mask_after (dma_mask k)
     else dma_mask k)
  /\ (called c_ufshcd_init (probe_calls core pdev vr k) ->
      mask_tested (probe_calls core pdev vr k) = true)
  /\ (fst (ufshcd_pltfrm_init core pdev vr k) = 0 ->
      dma_mask (snd (ufshcd_pltfrm_init core pdev vr k)) <> dma_mask_null)
  /\ (dma_mask k <> dma_mask_null ->
      dma_mask (snd (ufshcd_pltfrm_init core pdev vr k)) = dma_mask k).
Proof.
  destruct (probe_end pdev vr k) as [_ (l & Hc & Hm)].
  assert (Hl : probe_calls core pdev vr k = l).
  { unfold probe_calls. rewrite Hc, skipn_app, skipn_all, Nat.sub_diag.
    reflexivity. }
  rewrite Hl, Hm.
  destruct (probe_outcome core pdev vr k) as (o & Hv & Hst & Hco & _).
  rewrite Hc in Hco. apply app_inv_head in Hco. rewrite Hst, Hco.
  clear Hl Hm Hc Hco Hst.
  split; [ reflexivity | ].
  split; [ | split ].
  - unfold called.
    destruct o as [e0|i|i e0|i [err|err|err|pin err|pin err|pin hba]];
      cbn; intros Hin; try reflexivity; exfalso; intuition discriminate.
  - destruct o as [e0|i|i e0|i [err|err|err|pin err|pin err|pin hba]];
      cbn in Hv |- *; intros Hz; try discriminate Hz; try lia.
    destruct (dma_mask k); discriminate.
  - intros Hset.
    destruct (mask_tested (outcome_calls o)); [ | reflexivity ].
    destruct (dma_mask k); [ now elim Hset | reflexivity | reflexivity ].
Qed.

(** X30: the power-management entry points work on what the probe
    stored: each hands the driver data to its function of the controller
    core and returns what that returns.  After a probe that returned [0]
    this is the adapter the probe published, which [ufshcd_init] has
    accepted; after a probe that failed it is whatever the driver data was
    before the probe, [NULL] if nothing was stored.  The shutdown entry
    point does the same with [ufshcd_shutdown] and drops its status. *)
Theorem pm_entry_points_after_probe pm pdev vr k :
  let r := ufshcd_pltfrm_init core pdev vr k in
  (fst r = 0 ->
   exists hba,
     driver_data (snd r) = Some hba
     /\ ufshcd_init core hba
          (devm_ioremap_resource (pdev_dev pdev)
             (platform_get_resource_mem pdev 0))
          (platform_get_irq pdev 0) = k_ok tt
     /\ (forall e, In e (pm_entry_points pm) ->
                   fst e (snd r) = snd e (Some hba) (snd r))
     /\ snd (ufshcd_pltfrm_shutdown pm (snd r))
        = snd (ufshcd_shutdown pm (Some hba) (snd r)))
  /\ (fst r <> 0 ->
      (forall e, In e (pm_entry_points pm) ->
                 fst e (snd r) = snd e (driver_data k) (snd r))
      /\ snd (ufshcd_pltfrm_shutdown pm (snd r))
         = snd (ufshcd_shutdown pm (driver_data k) (snd r))).
Proof.
  intros r.
  assert (Hshim : forall k0,
             (forall e, In e (pm_entry_points pm) ->
                        fst e k0 = snd e (driver_data k0) k0)
             /\ snd (ufshcd_pltfrm_shutdown pm k0)
                = snd (ufshcd_shutdown pm (driver_data k0) k0)).
  { intros k0. split.
    - intros e He. unfold pm_entry_points in He. cbn [In] in He.
      repeat (destruct He as [<-|He]; [ reflexivity | ]). contradiction.
    - unfold ufshcd_pltfrm_shutdown, platform_get_drvdata, dev_get_drvdata,
        bind, get, ret.
      destruct (ufshcd_shutdown pm (driver_data k0) k0). reflexivity. }
  destruct (Hshim (snd r)) as [Hent Hshut]. split.
  - intros Hz. destruct (probe_end pdev vr k) as [Hok _].
    destruct (Hok Hz) as (hba & Hd & hba0 & _ & Hinit & _).
    fold r in Hd. exists hba. rewrite Hd in Hent, Hshut.
    repeat split; assumption.
  - intros Hnz.
    destruct (probe_outcome core pdev vr k) as (o & Hv & Hst & _ & _ & Hd & _).
    fold r in Hst, Hd.
    assert (Hp : published o = None).
    { destruct o as [e0|i|i e0|i [err|err|err|pin err|pin err|pin hba]];
        try reflexivity.
      exfalso. apply Hnz. rewrite Hst. reflexivity. }
    rewrite Hp in Hd. rewrite Hd in Hent, Hshut. split; assumption.
Qed.

End Published.

Lemma probe_publishes_witness :
  exists hba0 hba,
    ufshcd_alloc_host (core_with (k_ok tt)) (pdev_dev (pdev_of dev_ref_clk))
    = k_ok hba0
    /\ driver_data (snd (ufshcd_pltfrm_init (H := linux_headers)
                           (core_with (k_ok tt)) (pdev_of dev_ref_clk) 0%nat
                           kernel_boot)) = Some hba
    /\ ufshcd_init (core_with (k_ok tt)) hba
         (devm_ioremap_resource (pdev_dev (pdev_of dev_ref_clk))
            (platform_get_resource_mem (pdev_of dev_ref_clk) 0))
         (platform_get_irq (pdev_of dev_ref_clk) 0) = k_ok tt
    /\ probed (H := linux_headers) hba0 0%nat hba.
Proof.
  apply (@probe_publishes linux_headers (core_with (k_ok tt))
           (pdev_of dev_ref_clk) 0%nat kernel_boot).
  reflexivity.
Defined.
